(** * mcp-mssql: session lifecycle and query execution of [index.js]

    A shallow embedding of the connection manager of the MSSQL tool server
    (first, heartbeat-enabled variant of [index.js]): the module-level
    session variables, the two timers, [connectDatabase],
    [disconnectDatabase], [reconnectIfNeeded], [executeQuery], the five
    tool handlers, the handlers of the [database-schema] and
    [query-history] resources and the signal handlers.

    JavaScript [async] functions are modelled as resumptions: a function
    runs synchronously on the shared module state until it reaches an
    [await] on the database driver, hands the state back to the event
    loop, and is resumed later with the driver's outcome and whatever the
    module state has become in the meantime. *)

From Stdlib Require Import ZArith String List Bool Lia QArith Qround DecimalString.
From stdpp Require Import base list.
Import ListNotations.
Local Open Scope string_scope.
Local Open Scope Z_scope.

(** ** JavaScript values and errors *)

(** The fragment of JavaScript values that reaches the modelled code.
    Numbers are the integer-valued ones (ports, sizes, milliseconds). *)
Inductive JsVal : Type :=
| JUndefined
| JNull
| JBool (b : bool)
| JNum (z : Z)
| JStr (s : string).

Definition str_truthy (s : string) : bool := negb (String.eqb s "").

(** ToBoolean. *)
Definition truthy (v : JsVal) : bool :=
  match v with
  | JUndefined | JNull => false
  | JBool b => b
  | JNum z => negb (z =? 0)
  | JStr s => str_truthy s
  end.

(** [x || d] on an optional number: [undefined] and [0] are falsy. *)
Definition num_or (x : option Z) (d : Z) : Z :=
  match x with
  | Some z => if z =? 0 then d else z
  | None => d
  end.

(** An [Error] object: its [name] and its [message]. *)
Record Err : Type := MkErr { err_name : string; message : string }.

(** ** Data model *)

(** The [config] object handed to [connectDatabase]; an absent property is
    [None]. *)
Record Config : Type := MkConfig {
  server : string;
  database : string;
  user : string;
  password : string;
  port : option Z;
  encrypt : option bool;
  trustServerCertificate : option bool;
  requestTimeout : option Z;
  connectionTimeout : option Z;
  maxPoolSize : option Z;
  minPoolSize : option Z;
  idleTimeout : option Z
}.

Record ConnOptions : Type := MkConnOptions {
  opt_encrypt : bool;
  opt_trustServerCertificate : bool;
  opt_enableArithAbort : bool;
  opt_requestTimeout : Z;
  opt_connectionTimeout : Z
}.

Record PoolOptions : Type := MkPoolOptions {
  pool_max : Z;
  pool_min : Z;
  pool_idleTimeoutMillis : Z;
  pool_acquireTimeoutMillis : Z;
  pool_createTimeoutMillis : Z
}.

(** The [sqlConfig] literal built in [connectDatabase]. *)
Record SqlConfig : Type := MkSqlConfig {
  sql_server : string;
  sql_database : string;
  sql_user : string;
  sql_password : string;
  sql_port : Z;
  sql_options : ConnOptions;
  sql_pool : PoolOptions
}.

(** [connectionStats].  The counters are JavaScript numbers used as
    integers (exact below 2^53).  The two timestamps stand for the ISO
    strings of the instants they record; [averageQueryTime] is the exact
    quotient (the source computes it in double precision). *)
Record Stats : Type := MkStats {
  totalConnections : Z;
  successfulConnections : Z;
  failedConnections : Z;
  totalQueries : Z;
  successfulQueries : Z;
  failedQueries : Z;
  lastConnectionTime : option Z;
  lastQueryTime : option Z;
  totalQueryTime : Z;
  averageQueryTime : Q
}.

(** A [ConnectionPool] object of the [mssql] driver, as far as the program
    observes it: the configuration it was created with and the two flags
    read by [isConnectionActive]. *)
Record PoolObj : Type := MkPoolObj {
  pool_config : SqlConfig;
  connected : bool;
  connecting : bool
}.

(** The module-level variables of [index.js], followed by the runtime they
    live in: the store of pool objects (a handle is an index into it), the
    pending [setTimeout]s with their due time, the live [setInterval]s,
    the next timer handle and the wall clock read by [Date.now()]. *)
Record State : Type := MkState {
  connectionPool : option nat;
  lastActivityTime : option Z;
  connectionConfig : option Config;
  autoDisconnectTimer : option nat;
  heartbeatTimer : option nat;
  connectionStats : Stats;
  heap : list PoolObj;
  timeouts : list (nat * Z);
  intervals : list nat;
  nextTimer : nat;
  now : Z
}.

Definition init_stats : Stats :=
  MkStats 0 0 0 0 0 0 None None 0 (0 # 1).

Definition init_state : State :=
  MkState None None None None None init_stats [] [] [] 0%nat 0.

(** Assignments to the module variables. *)
Definition set_connectionPool (v : option nat) (s : State) : State :=
  MkState v (lastActivityTime s) (connectionConfig s) (autoDisconnectTimer s)
    (heartbeatTimer s) (connectionStats s) (heap s) (timeouts s) (intervals s)
    (nextTimer s) (now s).

Definition set_lastActivityTime (v : option Z) (s : State) : State :=
  MkState (connectionPool s) v (connectionConfig s) (autoDisconnectTimer s)
    (heartbeatTimer s) (connectionStats s) (heap s) (timeouts s) (intervals s)
    (nextTimer s) (now s).

Definition set_connectionConfig (v : option Config) (s : State) : State :=
  MkState (connectionPool s) (lastActivityTime s) v (autoDisconnectTimer s)
    (heartbeatTimer s) (connectionStats s) (heap s) (timeouts s) (intervals s)
    (nextTimer s) (now s).

Definition set_autoDisconnectTimer (v : option nat) (s : State) : State :=
  MkState (connectionPool s) (lastActivityTime s) (connectionConfig s) v
    (heartbeatTimer s) (connectionStats s) (heap s) (timeouts s) (intervals s)
    (nextTimer s) (now s).

Definition set_heartbeatTimer (v : option nat) (s : State) : State :=
  MkState (connectionPool s) (lastActivityTime s) (connectionConfig s)
    (autoDisconnectTimer s) v (connectionStats s) (heap s) (timeouts s)
    (intervals s) (nextTimer s) (now s).

Definition set_connectionStats (v : Stats) (s : State) : State :=
  MkState (connectionPool s) (lastActivityTime s) (connectionConfig s)
    (autoDisconnectTimer s) (heartbeatTimer s) v (heap s) (timeouts s)
    (intervals s) (nextTimer s) (now s).

Definition set_heap (v : list PoolObj) (s : State) : State :=
  MkState (connectionPool s) (lastActivityTime s) (connectionConfig s)
    (autoDisconnectTimer s) (heartbeatTimer s) (connectionStats s) v
    (timeouts s) (intervals s) (nextTimer s) (now s).

Definition set_timeouts (v : list (nat * Z)) (s : State) : State :=
  MkState (connectionPool s) (lastActivityTime s) (connectionConfig s)
    (autoDisconnectTimer s) (heartbeatTimer s) (connectionStats s) (heap s) v
    (intervals s) (nextTimer s) (now s).

Definition set_intervals (v : list nat) (s : State) : State :=
  MkState (connectionPool s) (lastActivityTime s) (connectionConfig s)
    (autoDisconnectTimer s) (heartbeatTimer s) (connectionStats s) (heap s)
    (timeouts s) v (nextTimer s) (now s).

Definition set_nextTimer (v : nat) (s : State) : State :=
  MkState (connectionPool s) (lastActivityTime s) (connectionConfig s)
    (autoDisconnectTimer s) (heartbeatTimer s) (connectionStats s) (heap s)
    (timeouts s) (intervals s) v (now s).

Definition set_now (v : Z) (s : State) : State :=
  MkState (connectionPool s) (lastActivityTime s) (connectionConfig s)
    (autoDisconnectTimer s) (heartbeatTimer s) (connectionStats s) (heap s)
    (timeouts s) (intervals s) (nextTimer s) v.

(** ** Requests to the driver *)

(** One entry of the [params] array of a query. *)
Record Param : Type := MkParam {
  param_name : string;
  param_type : JsVal;
  param_value : JsVal
}.

Definition Row : Type := list (string * JsVal).

(** What [request.query] resolves to: [rowsAffected] and the optional
    [recordset]. *)
Record DrvResult : Type := MkDrvResult {
  drv_rowsAffected : list Z;
  drv_recordset : option (list Row)
}.

(** The promises of the driver the program awaits: [pool.connect()],
    [pool.close()] and [pool.request() ... .query(sqlText)] with the inputs
    bound on the request. *)
Inductive Op : Type :=
| OpConnect (h : nat)
| OpClose (h : nat)
| OpQuery (h : nat) (sqlText : string) (inputs : list Param).

(** How an awaited promise settles. *)
Inductive Outcome : Type :=
| Resolved (v : DrvResult)
| Rejected (e : Err).

(** How a function call completes. *)
Inductive Completion (A : Type) : Type :=
| Return (a : A)
| Throw (e : Err).
Arguments Return {A} a.
Arguments Throw {A} e.

(** ** Resumptions *)

(** A started [async] function is either finished, with its completion and
    the module state it left, or suspended on a driver promise: it has
    left the state [s] and waits to be resumed by [k] with the outcome and
    the state of that later moment. *)
Inductive Step (A : Type) : Type :=
| Done (r : Completion A) (s : State)
| Await (op : Op) (s : State) (k : Outcome -> State -> Step A).
Arguments Done {A} r s.
Arguments Await {A} op s k.

Definition Async (A : Type) : Type := State -> Step A.

Fixpoint bindS {A B : Type} (m : Step A) (f : A -> State -> Step B) : Step B :=
  match m with
  | Done (Return a) s => f a s
  | Done (Throw e) s => Done (Throw e) s
  | Await op s k => Await op s (fun o s' => bindS (k o s') f)
  end.

(** [try { m } catch (error) { h error }]. *)
Fixpoint catchS {A : Type} (m : Step A) (h : Err -> State -> Step A) : Step A :=
  match m with
  | Done (Return a) s => Done (Return a) s
  | Done (Throw e) s => h e s
  | Await op s k => Await op s (fun o s' => catchS (k o s') h)
  end.

#[global] Instance async_ret : MRet Async :=
  fun A a s => Done (Return a) s.
#[global] Instance async_bind : MBind Async :=
  fun A B f m s => bindS (m s) f.

Definition throw {A : Type} (e : Err) : Async A := fun s => Done (Throw e) s.
Definition try_catch {A : Type} (m : Async A) (h : Err -> Async A) : Async A :=
  fun s => catchS (m s) h.
Definition get_state : Async State := fun s => Done (Return s) s.
Definition modify (f : State -> State) : Async unit := fun s => Done (Return tt) (f s).
(** [Date.now()]. *)
Definition Date_now : Async Z := fun s => Done (Return (now s)) s.

(** ** The driver's pool objects *)

Definition alter_pool (f : PoolObj -> PoolObj) (h : nat) (s : State) : State :=
  set_heap (alter f h (heap s)) s.

Definition set_flags (c g : bool) (p : PoolObj) : PoolObj :=
  MkPoolObj (pool_config p) c g.

(** [new sql.ConnectionPool(sqlConfig)]: a fresh object, neither connected
    nor connecting. *)
Definition new_ConnectionPool (c : SqlConfig) : Async nat :=
  fun s => Done (Return (length (heap s)))
                (set_heap (heap s ++ [MkPoolObj c false false])%list s).

(** Calling [connect()] marks the pool as connecting until the promise
    settles. *)
Definition drv_issue (op : Op) (s : State) : State :=
  match op with
  | OpConnect h => alter_pool (fun p => set_flags (connected p) true p) h s
  | _ => s
  end.

(** A pool is connected from the moment its [connect()] resolves until its
    [close()] resolves. *)
Definition drv_settle (op : Op) (o : Outcome) (s : State) : State :=
  match op, o with
  | OpConnect h, Resolved _ => alter_pool (set_flags true false) h s
  | OpConnect h, Rejected _ => alter_pool (fun p => set_flags (connected p) false p) h s
  | OpClose h, Resolved _ => alter_pool (set_flags false false) h s
  | _, _ => s
  end.

(** [await] on a driver promise: the points where the event loop runs
    other work before this function continues.  An [await] on the promise
    of another [async] function of this module is an ordinary call here:
    caller and callee form one stretch, which is what happens when every
    completion of the driver is delivered in an event-loop turn of its
    own. *)
Definition await (op : Op) : Async DrvResult :=
  fun s =>
    Await op (drv_issue op s)
      (fun o s' =>
         match o with
         | Resolved v => Done (Return v) (drv_settle op o s')
         | Rejected e => Done (Throw e) (drv_settle op o s')
         end).

(** ** Timers *)

Definition clearTimeout (t : nat) (s : State) : State :=
  set_timeouts (filter (fun p => fst p ≠ t) (timeouts s)) s.

Definition setTimeout (delay : Z) (s : State) : nat * State :=
  let t := nextTimer s in
  (t, set_nextTimer (S t) (set_timeouts (timeouts s ++ [(t, now s + delay)]) s)).

Definition clearInterval (t : nat) (s : State) : State :=
  set_intervals (filter (fun i => i ≠ t) (intervals s)) s.

Definition setInterval (s : State) : nat * State :=
  let t := nextTimer s in
  (t, set_nextTimer (S t) (set_intervals (intervals s ++ [t]) s)).

(** [startAutoDisconnectTimer] (arming part; the callback is
    [autoDisconnect_callback] below): one check in 60 seconds. *)
Definition startAutoDisconnectTimer (s : State) : State :=
  let s1 := match autoDisconnectTimer s with
            | Some t => clearTimeout t s
            | None => s
            end in
  let '(t, s2) := setTimeout 60000 s1 in
  set_autoDisconnectTimer (Some t) s2.

Definition updateActivityTime (s : State) : State :=
  startAutoDisconnectTimer (set_lastActivityTime (Some (now s)) s).

(** [startHeartbeat] (arming part; the callback is [heartbeat_callback]). *)
Definition startHeartbeat (s : State) : State :=
  let s1 := match heartbeatTimer s with
            | Some t => clearInterval t s
            | None => s
            end in
  let '(t, s2) := setInterval s1 in
  set_heartbeatTimer (Some t) s2.

Definition stopHeartbeat (s : State) : State :=
  match heartbeatTimer s with
  | Some t => set_heartbeatTimer None (clearInterval t s)
  | None => s
  end.

(** ** Connection manager *)

(** The [sqlConfig] literal of [connectDatabase]. *)
Definition build_sqlConfig (config : Config) : SqlConfig :=
  {| sql_server := server config;
     sql_database := database config;
     sql_user := user config;
     sql_password := password config;
     sql_port := num_or (port config) 1433;
     sql_options :=
       {| opt_encrypt := match encrypt config with Some false => false | _ => true end;
          opt_trustServerCertificate :=
            match trustServerCertificate config with Some true => true | _ => false end;
          opt_enableArithAbort := true;
          opt_requestTimeout := num_or (requestTimeout config) 30000;
          opt_connectionTimeout := num_or (connectionTimeout config) 30000 |};
     sql_pool :=
       {| pool_max := num_or (maxPoolSize config) 10;
          pool_min := num_or (minPoolSize config) 1;
          pool_idleTimeoutMillis := num_or (idleTimeout config) 600000;
          pool_acquireTimeoutMillis := 60000;
          pool_createTimeoutMillis := 30000 |} |}.

(** [totalConnections++; successfulConnections++; lastConnectionTime = ...]. *)
Definition stats_connect_ok (t : Z) (st : Stats) : Stats :=
  MkStats (totalConnections st + 1) (successfulConnections st + 1)
    (failedConnections st) (totalQueries st) (successfulQueries st)
    (failedQueries st) (Some t) (lastQueryTime st) (totalQueryTime st)
    (averageQueryTime st).

(** [totalConnections++; failedConnections++]. *)
Definition stats_connect_failed (st : Stats) : Stats :=
  MkStats (totalConnections st + 1) (successfulConnections st)
    (failedConnections st + 1) (totalQueries st) (successfulQueries st)
    (failedQueries st) (lastConnectionTime st) (lastQueryTime st)
    (totalQueryTime st) (averageQueryTime st).

(** The five statistics updates of a successful query. *)
Definition stats_query_ok (t queryTime : Z) (st : Stats) : Stats :=
  MkStats (totalConnections st) (successfulConnections st)
    (failedConnections st) (totalQueries st + 1) (successfulQueries st + 1)
    (failedQueries st) (lastConnectionTime st) (Some t)
    (totalQueryTime st + queryTime)
    (inject_Z (totalQueryTime st + queryTime) / inject_Z (totalQueries st + 1))%Q.

(** [totalQueries++; failedQueries++]. *)
Definition stats_query_failed (st : Stats) : Stats :=
  MkStats (totalConnections st) (successfulConnections st)
    (failedConnections st) (totalQueries st + 1) (successfulQueries st)
    (failedQueries st + 1) (lastConnectionTime st) (lastQueryTime st)
    (totalQueryTime st) (averageQueryTime st).

Definition on_stats (f : Stats -> Stats) (s : State) : State :=
  set_connectionStats (f (connectionStats s)) s.

(** The synchronous tail of [disconnectDatabase], after the pool closed. *)
Definition forget_session (s : State) : State :=
  let s1 := set_lastActivityTime None
              (set_connectionConfig None (set_connectionPool None s)) in
  let s2 := match autoDisconnectTimer s1 with
            | Some t => set_autoDisconnectTimer None (clearTimeout t s1)
            | None => s1
            end in
  stopHeartbeat s2.

Definition disconnectDatabase : Async bool :=
  try_catch
    (s ← get_state;
     match connectionPool s with
     | Some h =>
         await (OpClose h);;
         modify forget_session;;
         mret true
     | None => mret false
     end)
    (fun error => throw error).

Definition connectDatabase (config : Config) : Async bool :=
  try_catch
    (s ← get_state;
     (match connectionPool s with
      | Some _ => disconnectDatabase;; mret tt
      | None => mret tt
      end);;
     let sqlConfig := build_sqlConfig config in
     h ← new_ConnectionPool sqlConfig;
     modify (set_connectionPool (Some h));;
     await (OpConnect h);;
     modify (set_connectionConfig (Some config));;
     modify (fun s => on_stats (stats_connect_ok (now s)) s);;
     modify updateActivityTime;;
     modify startHeartbeat;;
     mret true)
    (fun error =>
       modify (on_stats stats_connect_failed);;
       throw error).

(** [connectionPool && connectionPool.connected && !connectionPool.connecting],
    as a truth value. *)
Definition isConnectionActive (s : State) : bool :=
  match connectionPool s with
  | Some h =>
      match heap s !! h with
      | Some p => connected p && negb (connecting p)
      | None => false
      end
  | None => false
  end.

Definition reconnectIfNeeded : Async bool :=
  s ← get_state;
  match isConnectionActive s, connectionConfig s with
  | false, Some config =>
      try_catch (connectDatabase config;; mret true)
                (fun error => mret false)
  | _, _ => s' ← get_state; mret (isConnectionActive s')
  end.

(** ** Query execution *)

(** [{ success, rowsAffected, recordset, queryTime, rowCount }]. *)
Record QueryResult : Type := MkQueryResult {
  success : bool;
  rowsAffected : list Z;
  recordset : list Row;
  queryTime : Z;
  rowCount : Z
}.

Definition not_connected_error : Err :=
  MkErr "Error" "未连接到数据库，请先使用 connect_database 工具建立连接".

(** [connectionPool.request()]; on [null] the property access throws. *)
Definition pool_request : Async nat :=
  s ← get_state;
  match connectionPool s with
  | Some h => mret h
  | None => throw (MkErr "TypeError" "Cannot read properties of null (reading 'request')")
  end.

(** [param.name && param.type && param.value !== undefined]. *)
Definition bindable (p : Param) : bool :=
  str_truthy (param_name p) && truthy (param_type p) &&
  match param_value p with JUndefined => false | _ => true end.

Definition executeQuery (sqlText : string) (params : list Param) : Async QueryResult :=
  ok ← reconnectIfNeeded;
  if negb ok then throw not_connected_error
  else
    startTime ← Date_now;
    try_catch
      (h ← pool_request;
       let inputs := List.filter bindable params in
       result ← await (OpQuery h sqlText inputs);
       t ← Date_now;
       let queryTime := t - startTime in
       modify (on_stats (stats_query_ok t queryTime));;
       modify updateActivityTime;;
       mret {| success := true;
               rowsAffected := drv_rowsAffected result;
               recordset := default [] (drv_recordset result);
               queryTime := queryTime;
               rowCount := match drv_recordset result with
                           | Some rows => Z.of_nat (length rows)
                           | None => 0
                           end |})
      (fun error =>
         modify (on_stats stats_query_failed);;
         throw error).

(** ** Timer callbacks *)

Definition time_truthy (t : option Z) : bool :=
  match t with
  | Some z => negb (z =? 0)
  | None => false
  end.

(** The callback armed by [startAutoDisconnectTimer]: the idle watchdog. *)
Definition autoDisconnect_callback : Async unit :=
  s ← get_state;
  match connectionPool s, time_truthy (lastActivityTime s) with
  | Some _, true =>
      let timeSinceLastActivity := now s - default 0 (lastActivityTime s) in
      if 300000 <=? timeSinceLastActivity
      then disconnectDatabase;; mret tt
      else modify startAutoDisconnectTimer
  | _, _ => mret tt
  end.

(** The callback armed by [startHeartbeat]. *)
Definition heartbeat_callback : Async unit :=
  s ← get_state;
  if isConnectionActive s
  then
    try_catch
      (h ← pool_request;
       await (OpQuery h "SELECT 1 as heartbeat" []);;
       modify updateActivityTime)
      (fun error => mret tt)
  else mret tt.

(** ** Running a function against the driver *)

(** What the environment answers to one awaited promise: which suspended
    function it resumes (when several are suspended), the wall-clock time
    of the resumption and the outcome. *)
Record Reply : Type := MkReply {
  pick : nat;
  at_time : Z;
  outcome : Outcome
}.

(** Every driver promise settles, by its timeout at the latest: when the
    scripted replies are used up, the remaining promises time out. *)
Definition timeout_outcome (op : Op) : Outcome :=
  match op with
  | OpConnect _ => Rejected (MkErr "ConnectionError" "ETIMEOUT")
  | OpClose _ => Rejected (MkErr "ConnectionError" "ETIMEOUT")
  | OpQuery _ _ _ => Rejected (MkErr "RequestError" "ETIMEOUT")
  end.

Record Run (A : Type) : Type := MkRun {
  result : Completion A;
  final : State;
  trace : list Op;
  rest : list Reply
}.
Arguments MkRun {A} result final trace rest.
Arguments result {A} r.
Arguments final {A} r.
Arguments trace {A} r.
Arguments rest {A} r.

(** The reply to the promise [op] awaited in state [s], and the replies
    left. *)
Definition next_reply (w : list Reply) (op : Op) (s : State) : Reply * list Reply :=
  match w with
  | [] => (MkReply 0 (now s) (timeout_outcome op), [])
  | r :: w' => (r, w')
  end.

(** One function alone on the event loop, run to completion: [trace] lists
    the driver promises it awaited, in order. *)
Fixpoint run {A : Type} (w : list Reply) (t : Step A) {struct t} : Run A :=
  match t with
  | Done r s => MkRun r s [] w
  | Await op s k =>
      let rw := next_reply w op s in
      let r := run (snd rw) (k (outcome (fst rw)) (set_now (at_time (fst rw)) s)) in
      MkRun (result r) (final r) (op :: trace r) (rest r)
  end.

Definition state_of {A : Type} (t : Step A) : State :=
  match t with
  | Done _ s => s
  | Await _ s _ => s
  end.

(** The event loop fires a pending timeout that is due: the entry leaves
    the pending list (the variable [autoDisconnectTimer] keeps the stale
    handle) and the watchdog callback starts. *)
Definition fire_timeout (t : nat) (s : State) : option (Step unit) :=
  match List.find (fun p => Nat.eqb (fst p) t && (snd p <=? now s)) (timeouts s) with
  | Some _ => Some (autoDisconnect_callback (clearTimeout t s))
  | None => None
  end.

(** The event loop fires a live interval: the heartbeat callback starts. *)
Definition fire_interval (t : nat) (s : State) : option (Step unit) :=
  if List.existsb (Nat.eqb t) (intervals s)
  then Some (heartbeat_callback s)
  else None.

(** ** Tool handlers *)

Record BatchItemResult : Type := MkBatchItemResult {
  r_index : Z;
  r_id : string;
  r_sql : string;
  r_success : bool;
  r_result : option QueryResult;
  r_error : option string
}.

Record BatchSummary : Type := MkBatchSummary {
  b_total : Z;
  b_successCount : Z;
  b_errorCount : Z;
  b_totalTime : Z;
  b_parallel : bool;
  b_stopOnError : bool;
  b_results : list BatchItemResult
}.

(** What [get_connection_status] prints. *)
Record StatusReport : Type := MkStatusReport {
  st_isConnected : bool;
  st_server : option string;
  st_port : option Z;
  st_database : option string;
  st_user : option string;
  st_minutesSinceActivity : option Z;
  st_secondsSinceActivity : option Z;
  st_remainingTime : option Z;
  st_stats : Stats;
  st_roundedAverage : Z
}.

(** The content of a tool response: which of the handler's texts is
    returned and the values interpolated into it. *)
Inductive ToolResponse : Type :=
| ConnectSucceeded (params : Config)
| ConnectFailed (msg : string)
| ExecSucceeded (r : QueryResult)
| ExecFailed (msg : string)
| DisconnectDone (st : Stats)
| NoActiveConnection
| DisconnectFailed (msg : string)
| BatchCompleted (b : BatchSummary)
| BatchFailed (msg : string)
| Status (r : StatusReport).

Definition connect_database (params : Config) : Async ToolResponse :=
  try_catch
    (connectDatabase params;; mret (ConnectSucceeded params))
    (fun error => mret (ConnectFailed (message error))).

Definition execute_sql (sqlText : string) (params : list Param) : Async ToolResponse :=
  try_catch
    (r ← executeQuery sqlText params; mret (ExecSucceeded r))
    (fun error => mret (ExecFailed (message error))).

Definition disconnect_database : Async ToolResponse :=
  try_catch
    (disconnected ← disconnectDatabase;
     s ← get_state;
     if (disconnected : bool)
     then mret (DisconnectDone (connectionStats s))
     else mret NoActiveConnection)
    (fun error => mret (DisconnectFailed (message error))).

(** [Math.round] of a rational. *)
Definition round_Q (q : Q) : Z := Qfloor (q + (1 # 2))%Q.

(** The handler of [get_connection_status]; it has no [try]: reading the
    identity off a [null] configuration throws. *)
Definition get_connection_status : Async ToolResponse :=
  s ← get_state;
  let isConnected :=
    match connectionPool s with
    | Some h => match heap s !! h with Some p => connected p | None => false end
    | None => false
    end in
  let timeSinceLastActivity :=
    if time_truthy (lastActivityTime s)
    then Some (now s - default 0 (lastActivityTime s)) else None in
  let st := connectionStats s in
  if isConnected
  then
    match connectionConfig s with
    | None => throw (MkErr "TypeError" "Cannot read properties of null (reading 'server')")
    | Some c =>
        mret (Status
          {| st_isConnected := true;
             st_server := Some (server c);
             st_port := port c;
             st_database := Some (database c);
             st_user := Some (user c);
             st_minutesSinceActivity := option_map (fun t => t / 60000) timeSinceLastActivity;
             st_secondsSinceActivity :=
               option_map (fun t => Z.rem t 60000 / 1000) timeSinceLastActivity;
             st_remainingTime :=
               option_map (fun t => Z.max 0 (300 - t / 1000)) timeSinceLastActivity;
             st_stats := st;
             st_roundedAverage := round_Q (averageQueryTime st) |})
    end
  else
    mret (Status
      {| st_isConnected := false;
         st_server := None; st_port := None; st_database := None; st_user := None;
         st_minutesSinceActivity := None;
         st_secondsSinceActivity := None;
         st_remainingTime := None;
         st_stats := st;
         st_roundedAverage := round_Q (averageQueryTime st) |}).

(** ** Batch execution *)

(** One entry of [sqlList]: the optional [id], the [sql] text and the
    optional [params]. *)
Record SqlItem : Type := MkSqlItem {
  item_id : option string;
  item_sql : string;
  item_params : option (list Param)
}.

Record BatchParams : Type := MkBatchParams {
  sqlList : list SqlItem;
  stopOnError : bool;
  parallel : bool
}.

(** Reading a numeric variable by name in the scope of the enclosing
    functions.  [scope] lists the counters bound there; every other
    identifier in scope there names an object or a function (none of them
    is called [index]), and an identifier bound nowhere throws. *)
Definition resolve (scope : list (string * Z)) (x : string) : Async Z :=
  match List.find (fun b => String.eqb (fst b) x) scope with
  | Some b => mret (snd b)
  | None => throw (MkErr "ReferenceError" (String.append x " is not defined"))
  end.

(** Decimal rendering of a number in a template literal. *)
Definition decimal (z : Z) : string := NilZero.string_of_int (Z.to_int z).

(** [sqlItem.id || `SQL_${index + 1}`], evaluated in [scope]. *)
Definition id_or_default (scope : list (string * Z)) (sqlItem : SqlItem) : Async string :=
  match item_id sqlItem with
  | Some id =>
      if str_truthy id then mret id
      else index ← resolve scope "index"; mret (String.append "SQL_" (decimal (index + 1)))
  | None =>
      index ← resolve scope "index"; mret (String.append "SQL_" (decimal (index + 1)))
  end.

Definition item_succeeded (position : Z) (id : string) (sqlItem : SqlItem)
    (r : QueryResult) : BatchItemResult :=
  MkBatchItemResult position id (item_sql sqlItem) true (Some r) None.

Definition item_failed (position : Z) (id : string) (sqlItem : SqlItem)
    (error : Err) : BatchItemResult :=
  MkBatchItemResult position id (item_sql sqlItem) false None (Some (message error)).

(** The callback of [sqlList.map] in the parallel branch; [index] is its
    second parameter. *)
Definition parallel_callback (sqlItem : SqlItem) (index : Z) : Async BatchItemResult :=
  try_catch
    (r ← executeQuery (item_sql sqlItem) (default [] (item_params sqlItem));
     id ← id_or_default [("index", index)] sqlItem;
     mret (item_succeeded (index + 1) id sqlItem r))
    (fun error =>
       id ← id_or_default [("index", index)] sqlItem;
       mret (item_failed (index + 1) id sqlItem error)).

(** The [for (let i = ...)] loop of the serial branch from position [i]
    on, [results] being the array built so far.  The loop counter is [i];
    the body reads [index]. *)
Fixpoint serial_loop (items : list SqlItem) (i : Z) (stop : bool)
    (results : list BatchItemResult) : Async (list BatchItemResult) :=
  match items with
  | [] => mret results
  | sqlItem :: items' =>
      step ← try_catch
        (r ← executeQuery (item_sql sqlItem) (default [] (item_params sqlItem));
         id ← id_or_default [("i", i)] sqlItem;
         mret ((results ++ [item_succeeded (i + 1) id sqlItem r])%list, false))
        (fun error =>
           id ← id_or_default [("i", i)] sqlItem;
           mret ((results ++ [item_failed (i + 1) id sqlItem error])%list, stop));
      if (snd step : bool) then mret (fst step)
      else serial_loop items' (i + 1) stop (fst step)
  end.

Definition count_where (f : BatchItemResult -> bool) (l : list BatchItemResult) : Z :=
  Z.of_nat (length (List.filter f l)).

Definition summarize (params : BatchParams) (results : list BatchItemResult)
    (totalTime : Z) : ToolResponse :=
  BatchCompleted
    {| b_total := Z.of_nat (length (sqlList params));
       b_successCount := count_where r_success results;
       b_errorCount := count_where (fun r => negb (r_success r)) results;
       b_totalTime := totalTime;
       b_parallel := parallel params;
       b_stopOnError := stopOnError params;
       b_results := results |}.

(** The connection check at the head of the handler; returns [startTime]. *)
Definition batch_prologue : Async Z :=
  ok ← reconnectIfNeeded;
  if negb ok then throw not_connected_error else Date_now.

(** The handler of [batch_execute_sql] when [parallel] is false. *)
Definition batch_serial (params : BatchParams) : Async ToolResponse :=
  try_catch
    (startTime ← batch_prologue;
     results ← serial_loop (sqlList params) 0 (stopOnError params) [];
     t ← Date_now;
     mret (summarize params results (t - startTime)))
    (fun error => mret (BatchFailed (message error))).

(** ** Several functions in flight *)

Definition issued {A : Type} (t : Step A) : list Op :=
  match t with
  | Await op _ _ => [op]
  | Done _ _ => []
  end.

(** Starting functions one after the other, as [Array.prototype.map] with
    an [async] callback does (or as requests arriving back to back): each
    runs up to its first driver promise on the state the previous left. *)
Fixpoint spawn_all {A : Type} (fs : list (Async A)) (s : State)
  : list (Step A) * State * list Op :=
  match fs with
  | [] => ([], s, [])
  | f :: fs' =>
      let t := f s in
      let '(ts, s', tr) := spawn_all fs' (state_of t) in
      (t :: ts, s', (issued t ++ tr)%list)
  end.

Fixpoint first_pending {A : Type} (ts : list (Step A)) : option nat :=
  match ts with
  | [] => None
  | Await _ _ _ :: _ => Some 0%nat
  | Done _ _ :: ts' => S <$> first_pending ts'
  end.

(** The suspended function a reply resumes: the one it picks, or the first
    suspended one when that one is not suspended. *)
Definition choose {A : Type} (i : nat) (ts : list (Step A)) : option nat :=
  match ts !! i with
  | Some (Await _ _ _) => Some i
  | _ => first_pending ts
  end.

Definition resume {A : Type} (t : Step A) (o : Outcome) (cur : State) : Step A :=
  match t with
  | Await _ _ k => k o cur
  | Done r s => Done r s
  end.

(** When the replies are used up the promises still pending time out, in
    the order of the functions. *)
Fixpoint drain {A : Type} (ts : list (Step A)) (cur : State)
  : list (Step A) * State * list Op :=
  match ts with
  | [] => ([], cur, [])
  | Done r s :: ts' =>
      let '(ts'', s', tr) := drain ts' cur in
      (Done r s :: ts'', s', tr)
  | Await op s k :: ts' =>
      let r := run [] (k (timeout_outcome op) cur) in
      let '(ts'', s', tr) := drain ts' (final r) in
      (Done (result r) (final r) :: ts'', s', (trace r ++ tr)%list)
  end.

(** The event loop with several functions suspended: each reply resumes
    one of them on the current state, and it runs to its next driver
    promise or to its end.  Returns the functions, the final state, the
    promises awaited meanwhile and the replies left. *)
Fixpoint run_pool {A : Type} (w : list Reply) (ts : list (Step A)) (cur : State)
  : list (Step A) * State * list Op * list Reply :=
  match w with
  | [] => let '(ts', s', tr) := drain ts cur in (ts', s', tr, [])
  | r :: w' =>
      match choose (pick r) ts with
      | None => (ts, cur, [], w)
      | Some i =>
          match ts !! i with
          | Some t =>
              let t' := resume t (outcome r) (set_now (at_time r) cur) in
              let '(ts', s', tr, w'') := run_pool w' (<[i:=t']> ts) (state_of t') in
              (ts', s', (issued t' ++ tr)%list, w'')
          | None => (ts, cur, [], w)
          end
      end
  end.

(** [Promise.all]: the values in the order of the promises, or the
    rejection of one of them. *)
Fixpoint collect {A : Type} (ts : list (Step A)) : Completion (list A) :=
  match ts with
  | [] => Return []
  | Done (Return a) _ :: ts' =>
      match collect ts' with
      | Return l => Return (a :: l)
      | Throw e => Throw e
      end
  | Done (Throw e) _ :: _ => Throw e
  | Await _ _ _ :: _ => Throw (MkErr "Error" "promise still pending")
  end.

(** The handler of [batch_execute_sql], run to completion. *)
Definition batch_execute_sql (params : BatchParams) (w : list Reply) (s : State)
  : Run ToolResponse :=
  if parallel params
  then
    let r0 := run w (batch_prologue s) in
    match result r0 with
    | Throw error =>
        MkRun (Return (BatchFailed (message error))) (final r0) (trace r0) (rest r0)
    | Return startTime =>
        let '(ts, s1, tr1) :=
          spawn_all (imap (fun i sqlItem => parallel_callback sqlItem (Z.of_nat i))
                          (sqlList params)) (final r0) in
        let '(ts', s2, tr2, w') := run_pool (rest r0) ts s1 in
        match collect ts' with
        | Return results =>
            MkRun (Return (summarize params results (now s2 - startTime))) s2
                  (trace r0 ++ tr1 ++ tr2)%list w'
        | Throw error =>
            MkRun (Return (BatchFailed (message error))) s2
                  (trace r0 ++ tr1 ++ tr2)%list w'
        end
    end
  else run w (batch_serial params s).

(** ** The tool schema of [connect_database] *)

(** The [.optional().default(...)] entries of the input schema: what the
    handler receives for a property the caller left out. *)
Definition schema_default_port : Z := 1433.
Definition schema_default_requestTimeout : Z := 30000.
Definition schema_default_connectionTimeout : Z := 30000.
Definition schema_default_maxPoolSize : Z := 10.
Definition schema_default_minPoolSize : Z := 0.
Definition schema_default_idleTimeout : Z := 600000.

Definition connect_schema_defaults (c : Config) : Config :=
  {| server := server c;
     database := database c;
     user := user c;
     password := password c;
     port := Some (default schema_default_port (port c));
     encrypt := Some (default true (encrypt c));
     trustServerCertificate := Some (default false (trustServerCertificate c));
     requestTimeout := Some (default schema_default_requestTimeout (requestTimeout c));
     connectionTimeout :=
       Some (default schema_default_connectionTimeout (connectionTimeout c));
     maxPoolSize := Some (default schema_default_maxPoolSize (maxPoolSize c));
     minPoolSize := Some (default schema_default_minPoolSize (minPoolSize c));
     idleTimeout := Some (default schema_default_idleTimeout (idleTimeout c)) |}.

(** ** The server as a sequence of events *)

(** The driver loses the connection of a pool: the pool object stays where
    it is and reads as not connected.  This is the state
    [reconnectIfNeeded] looks for. *)
Definition connection_lost (h : nat) (s : State) : State :=
  alter_pool (set_flags false false) h s.

(** What can happen to the server: a tool is called, a timer fires, the
    driver loses the connection. *)
Inductive Operation : Type :=
| Call_connect_database (params : Config)
| Call_execute_sql (sqlText : string) (params : list Param)
| Call_disconnect_database
| Call_batch_execute_sql (params : BatchParams)
| Call_get_connection_status
| Timeout_fires (t : nat)
| Interval_fires (t : nat)
| Connection_lost (h : nat).

(** An operation with the time it starts at and the driver's replies to
    the promises it awaits. *)
Record Event : Type := MkEvent {
  ev_time : Z;
  ev_op : Operation;
  ev_replies : list Reply
}.

(** One operation run to completion. *)
Definition perform (e : Event) (s : State) : State :=
  let s0 := set_now (ev_time e) s in
  let w := ev_replies e in
  match ev_op e with
  | Call_connect_database params => final (run w (connect_database params s0))
  | Call_execute_sql sqlText params => final (run w (execute_sql sqlText params s0))
  | Call_disconnect_database => final (run w (disconnect_database s0))
  | Call_batch_execute_sql params => final (batch_execute_sql params w s0)
  | Call_get_connection_status => final (run w (get_connection_status s0))
  | Timeout_fires t =>
      match fire_timeout t s0 with
      | Some c => final (run w c)
      | None => s0
      end
  | Interval_fires t =>
      match fire_interval t s0 with
      | Some c => final (run w c)
      | None => s0
      end
  | Connection_lost h => connection_lost h s0
  end.

Definition perform_all (es : list Event) (s : State) : State :=
  fold_left (fun s e => perform e s) es s.

(** ** Properties of the statistics *)

(** The two sums of the statistics. *)
Definition stats_consistent (st : Stats) : Prop :=
  successfulQueries st + failedQueries st = totalQueries st /\
  totalConnections st = successfulConnections st + failedConnections st.

(** No counter of [st'] is below its value in [st]. *)
Definition stats_le (st st' : Stats) : Prop :=
  totalConnections st <= totalConnections st' /\
  successfulConnections st <= successfulConnections st' /\
  failedConnections st <= failedConnections st' /\
  totalQueries st <= totalQueries st' /\
  successfulQueries st <= successfulQueries st' /\
  failedQueries st <= failedQueries st'.

(** What a stretch of execution may do to the statistics: keep the sums
    and lower no counter. *)
Definition stats_step (st st' : Stats) : Prop :=
  (stats_consistent st -> stats_consistent st') /\ stats_le st st'.

(** [respects R s0 t]: every uninterrupted stretch of [t] takes the
    statistics it starts from to statistics related by [R]; the first
    stretch started from [s0], every later one starts from whatever state
    the function is resumed in. *)
Fixpoint respects {A : Type} (R : Stats -> Stats -> Prop) (s0 : State) (t : Step A) : Prop :=
  match t with
  | Done _ s => R (connectionStats s0) (connectionStats s)
  | Await _ s k =>
      R (connectionStats s0) (connectionStats s) /\
      forall o s', respects R s' (k o s')
  end.

(** The suspended functions of a pool keep [R] whenever they are resumed. *)
Definition resumable {A : Type} (R : Stats -> Stats -> Prop) (t : Step A) : Prop :=
  match t with
  | Done _ _ => True
  | Await _ _ k => forall o s', respects R s' (k o s')
  end.

(** The number of pools opened along a trace. *)
Definition pool_opens (tr : list Op) : nat :=
  length (List.filter (fun op => match op with OpConnect _ => true | _ => false end) tr).

(** The number of queries sent along a trace. *)
Definition queries_sent (tr : list Op) : nat :=
  length (List.filter (fun op => match op with OpQuery _ _ _ => true | _ => false end) tr).

(** ** Parts of [connectDatabase] *)

(** [if (connectionPool) { await disconnectDatabase(); }]. *)
Definition close_previous : Async unit :=
  s ← get_state;
  match connectionPool s with
  | Some _ => disconnectDatabase;; mret tt
  | None => mret tt
  end.

(** The rest of the [try] block: create the pool, open it, record the
    session. *)
Definition open_pool (config : Config) : Async bool :=
  h ← new_ConnectionPool (build_sqlConfig config);
  modify (set_connectionPool (Some h));;
  await (OpConnect h);;
  modify (set_connectionConfig (Some config));;
  modify (fun s => on_stats (stats_connect_ok (now s)) s);;
  modify updateActivityTime;;
  modify startHeartbeat;;
  mret true.

(** The [catch] block. *)
Definition count_failed_connection (error : Err) : Async bool :=
  modify (on_stats stats_connect_failed);;
  throw error.

(** The state a successful open leaves. *)
Definition session_opened (config : Config) (s : State) : State :=
  startHeartbeat
    (updateActivityTime
       (on_stats (stats_connect_ok (now s)) (set_connectionConfig (Some config) s))).

(** A finished run with the promises awaited before it in front. *)
Definition after (tr : list Op) {A : Type} (r : Run A) : Run A :=
  MkRun (result r) (final r) (tr ++ trace r)%list (rest r).

(** What the specification says of pool handles: a handle is held only by a
    session that is connected. *)
Definition pool_only_while_connected (s : State) : Prop :=
  connectionPool s <> None -> isConnectionActive s = true.

(** The state in which [connectDatabase] awaits [connect()]: a new pool
    object is in the store, [connectionPool] holds its handle and the
    driver has marked it as connecting. *)
Definition pool_created (config : Config) (s : State) : State :=
  drv_issue (OpConnect (length (heap s)))
    (set_connectionPool (Some (length (heap s)))
       (set_heap (heap s ++ [MkPoolObj (build_sqlConfig config) false false])%list s)).

(** What [executeQuery] returns for a driver result and a duration. *)
Definition query_result (v : DrvResult) (queryTime : Z) : QueryResult :=
  {| success := true;
     rowsAffected := drv_rowsAffected v;
     recordset := default [] (drv_recordset v);
     queryTime := queryTime;
     rowCount := match drv_recordset v with
                 | Some rows => Z.of_nat (length rows)
                 | None => 0
                 end |}.

(** The error of reading the unbound [index]. *)
Definition index_not_defined : Err := MkErr "ReferenceError" "index is not defined".

(** The part of [executeQuery] after the connection check: the [try] and
    [catch] blocks, entered at time [startTime]. *)
Definition query_on_pool (sqlText : string) (params : list Param) : Async QueryResult :=
  startTime ← Date_now;
  try_catch
    (h ← pool_request;
     let inputs := List.filter bindable params in
     result ← await (OpQuery h sqlText inputs);
     t ← Date_now;
     let queryTime := t - startTime in
     modify (on_stats (stats_query_ok t queryTime));;
     modify updateActivityTime;;
     mret (query_result result queryTime))
    (fun error =>
       modify (on_stats stats_query_failed);;
       throw error).

(** ** Callers racing into a reconnect *)

(** [n] queries arriving back to back, then served by the replies [w]:
    the functions at the end, the final state, the promises awaited and
    the replies left. *)
Definition concurrent_queries (n : nat) (sqlText : string) (params : list Param)
    (w : list Reply) (s : State)
  : list (Step QueryResult) * State * list Op * list Reply :=
  let '(ts, s1, tr1) := spawn_all (replicate n (executeQuery sqlText params)) s in
  let '(ts', s2, tr2, w') := run_pool w ts s1 in
  (ts', s2, (tr1 ++ tr2)%list, w').

(** The driver settles the pending promise of the functions [first],
    [first + 1], ... in turn, [n] of them, each with success. *)
Definition fifo_round (first n : nat) (t : Z) (v : DrvResult) : list Reply :=
  map (fun i => MkReply i t (Resolved v)) (seq first n).

Definition conn_total (s : State) : Z := totalConnections (connectionStats s).

Definition holds_pool (s : State) : Prop := connectionPool s <> None.

Definition finished {A : Type} (t : Step A) : Prop :=
  match t with Done _ _ => True | Await _ _ _ => False end.

Definition suspended {A : Type} (t : Step A) : Prop :=
  match t with Done _ _ => False | Await _ _ _ => True end.

(** [t] is suspended, and whenever its promise resolves, on a session that
    holds some pool, it runs on to a point described by [P'], still with
    a pool held, having raised [totalConnections] by [dm] and opened
    [dopen] pools. *)
Definition advances {A : Type} (P' : Step A -> Prop) (dm : Z) (dopen : nat)
    (t : Step A) : Prop :=
  suspended t /\
  forall v tm cur,
    holds_pool cur ->
    let t' := resume t (Resolved v) (set_now tm cur) in
    P' t' /\ holds_pool (state_of t') /\
    conn_total (state_of t') = conn_total cur + dm /\
    pool_opens (issued t') = dopen.

(** The connection-attempt counter is untouched. *)
Definition conn_same (st st' : Stats) : Prop :=
  totalConnections st = totalConnections st'.

(** [t] opens no pool, now or later, however it is resumed. *)
Fixpoint quiet {A : Type} (t : Step A) : Prop :=
  match t with
  | Done _ _ => True
  | Await op _ k => pool_opens [op] = 0%nat /\ forall o s', quiet (k o s')
  end.

(** A suspended [t] opens no pool once it is resumed. *)
Definition quiet_after {A : Type} (t : Step A) : Prop :=
  match t with
  | Done _ _ => True
  | Await _ _ k => forall o s', quiet (k o s')
  end.

(** A caller waiting for its query: whatever the outcome, and whatever the
    state it is resumed in, it opens no pool and leaves the
    connection-attempt counter alone. *)
Definition awaits_query {A : Type} (t : Step A) : Prop :=
  suspended t /\ resumable conn_same t /\ quiet_after t.
(** A caller waiting for the pool it opened. *)
Definition awaits_open {A : Type} : Step A -> Prop := advances awaits_query 1 0.
(** A caller waiting for the stale pool to close. *)
Definition awaits_close {A : Type} : Step A -> Prop := advances awaits_open 0 1.

Definition with_trace {A : Type} (tr : list Op)
    (x : list (Step A) * State * list Op * list Reply)
  : list (Step A) * State * list Op * list Reply :=
  let '(ts, s, tr2, w) := x in (ts, s, (tr ++ tr2)%list, w).

(** ** Completions under every schedule *)

(** [completes P t]: however the driver replies and whatever the state [t]
    is resumed in, [t] ends with a completion in [P]. *)
Fixpoint completes {A : Type} (P : Completion A -> Prop) (t : Step A) : Prop :=
  match t with
  | Done r _ => P r
  | Await _ _ k => forall o s', completes P (k o s')
  end.

(** A completion that returns a value in [q]. *)
Definition returning {A : Type} (q : A -> Prop) (r : Completion A) : Prop :=
  exists a, r = Return a /\ q a.

(** An entry labelled by position. *)
Definition entry_labelled (index : nat) (item : BatchItemResult) : Prop :=
  r_id item = String.append "SQL_" (decimal (Z.of_nat index + 1)) /\
  r_index item = Z.of_nat index + 1.

(** A function that has ended with a value in [q]. *)
Definition ended_with {A : Type} (q : A -> Prop) (t : Step A) : Prop :=
  match t with
  | Done (Return a) _ => q a
  | _ => False
  end.

(** ** Sample data *)

Definition sample_config : Config :=
  {| server := "db.example.org"; database := "orders"; user := "app";
     password := "secret"; port := None; encrypt := None;
     trustServerCertificate := None; requestTimeout := None;
     connectionTimeout := None; maxPoolSize := None; minPoolSize := Some 0;
     idleTimeout := None |}.

Definition one_row : DrvResult :=
  MkDrvResult [1] (Some [[("n", JNum 1)]]).

Definition resolves (i : nat) (t : Z) : Reply := MkReply i t (Resolved one_row).

Definition rejects (i : nat) (t : Z) (msg : string) : Reply :=
  MkReply i t (Rejected (MkErr "RequestError" msg)).

Definition refuses (i : nat) (t : Z) (msg : string) : Reply :=
  MkReply i t (Rejected (MkErr "ConnectionError" msg)).

(** The server after a successful [connect_database] at time 1000. *)
Definition connected_state : State :=
  perform (MkEvent 1000 (Call_connect_database (connect_schema_defaults sample_config))
                   [resolves 0 1200]) init_state.

(** The same session after the driver lost the connection. *)
Definition dropped_state : State :=
  perform (MkEvent 5000 (Connection_lost 0) []) connected_state.

Definition no_id (sqlText : string) : SqlItem := MkSqlItem None sqlText None.
Definition with_id (id sqlText : string) : SqlItem := MkSqlItem (Some id) sqlText None.

(** A session that goes idle while its heartbeats fail: the connect of
    [connected_state], then the idle check every minute and the heartbeat
    every two minutes, up to the check at 301200, five minutes after the
    last activity (the pool closes at 301250). *)
Definition idle_events : list Event :=
  [ MkEvent 1000 (Call_connect_database (connect_schema_defaults sample_config))
            [resolves 0 1200];
    MkEvent 61200 (Timeout_fires 0) [];
    MkEvent 121200 (Interval_fires 1) [rejects 0 121300 "Connection lost"];
    MkEvent 121300 (Timeout_fires 2) [];
    MkEvent 181300 (Timeout_fires 3) [];
    MkEvent 241200 (Interval_fires 1) [rejects 0 241300 "Connection lost"];
    MkEvent 241300 (Timeout_fires 4) [];
    MkEvent 301300 (Timeout_fires 5) [resolves 0 301350] ].

(** The session just before the last idle check. *)
Definition idle_state : State :=
  set_now 301300 (perform_all (removelast idle_events) init_state).

Definition idle_disconnected_state : State := perform_all idle_events init_state.

(** ** Resources *)

(** [sql.VarChar], the type object of the driver, by its name. *)
Definition sql_VarChar : JsVal := JStr "VarChar".

(** The query texts of the [database-schema] resource, as the template
    literals of the handler spell them. *)
Definition tables_query : string :=
  "
            SELECT 
              TABLE_SCHEMA as schema_name,
              TABLE_NAME as table_name,
              TABLE_TYPE as table_type
            FROM INFORMATION_SCHEMA.TABLES 
            WHERE TABLE_CATALOG = @database
            ORDER BY TABLE_SCHEMA, TABLE_NAME
          ".

Definition views_query : string :=
  "
            SELECT 
              TABLE_SCHEMA as schema_name,
              TABLE_NAME as view_name,
              'VIEW' as object_type
            FROM INFORMATION_SCHEMA.VIEWS 
            WHERE TABLE_CATALOG = @database
            ORDER BY TABLE_SCHEMA, TABLE_NAME
          ".

Definition procedures_query : string :=
  "
            SELECT 
              ROUTINE_SCHEMA as schema_name,
              ROUTINE_NAME as procedure_name,
              ROUTINE_TYPE as object_type
            FROM INFORMATION_SCHEMA.ROUTINES 
            WHERE ROUTINE_CATALOG = @database
            ORDER BY ROUTINE_SCHEMA, ROUTINE_NAME
          ".

Definition functions_query : string :=
  "
            SELECT 
              ROUTINE_SCHEMA as schema_name,
              ROUTINE_NAME as function_name,
              ROUTINE_TYPE as object_type
            FROM INFORMATION_SCHEMA.ROUTINES 
            WHERE ROUTINE_CATALOG = @database AND ROUTINE_TYPE = 'FUNCTION'
            ORDER BY ROUTINE_SCHEMA, ROUTINE_NAME
          ".

Definition triggers_query : string :=
  "
            SELECT 
              TRIGGER_SCHEMA as schema_name,
              TRIGGER_NAME as trigger_name,
              'TRIGGER' as object_type
            FROM INFORMATION_SCHEMA.ROUTINES 
            WHERE ROUTINE_CATALOG = @database AND ROUTINE_TYPE = 'TRIGGER'
            ORDER BY ROUTINE_SCHEMA, ROUTINE_NAME
          ".

Definition indexes_query : string :=
  "
            SELECT 
              s.name as schema_name,
              t.name as table_name,
              i.name as index_name,
              i.type_desc as index_type
            FROM sys.indexes i
            INNER JOIN sys.tables t ON i.object_id = t.object_id
            INNER JOIN sys.schemas s ON t.schema_id = s.schema_id
            WHERE t.is_ms_shipped = 0
            ORDER BY s.name, t.name, i.name
          ".

(** The [switch (objectType)] of the handler: the query and the
    description of a supported object type. *)
Definition schema_query (objectType : string) : option (string * string) :=
  if String.eqb objectType "tables" then Some (tables_query, "数据表")
  else if String.eqb objectType "views" then Some (views_query, "视图")
  else if String.eqb objectType "procedures" then Some (procedures_query, "存储过程")
  else if String.eqb objectType "functions" then Some (functions_query, "函数")
  else if String.eqb objectType "triggers" then Some (triggers_query, "触发器")
  else if String.eqb objectType "indexes" then Some (indexes_query, "索引")
  else None.

(** The list the handler reports as [supportedTypes], which is also the
    list the completion of [objectType] filters. *)
Definition schema_objectTypes : list string :=
  ["tables"; "views"; "procedures"; "functions"; "triggers"; "indexes"].

(** [complete.objectType] of the resource template. *)
Definition complete_objectType (value : string) : list string :=
  List.filter (fun type => String.prefix value type) schema_objectTypes.

(** [schemaData]. *)
Record SchemaData : Type := MkSchemaData {
  sd_database : string;
  sd_objectType : string;
  sd_description : string;
  sd_count : Z;
  sd_objects : list Row;
  sd_queryTime : Z;
  sd_uri : string
}.

(** One entry of [historyData.queries]. *)
Record HistoryEntry : Type := MkHistoryEntry {
  he_time : string;
  he_sql : string;
  he_duration : Z;
  he_rowsReturned : option Z;
  he_rowsAffected : option Z;
  he_status : string
}.

(** [historyData]. *)
Record HistoryData : Type := MkHistoryData {
  hd_queryType : string;
  hd_date : string;
  hd_totalQueries : Z;
  hd_successfulQueries : Z;
  hd_failedQueries : Z;
  hd_averageQueryTime : Z;
  hd_queries : list HistoryEntry;
  hd_uri : string
}.

(** The object a resource handler serializes into its answer. *)
Inductive ResourceResponse : Type :=
| SchemaNotConnected (uri database objectType : string)
| SchemaUnsupported (objectType : string) (supportedTypes : list string)
    (uri database : string)
| SchemaResult (d : SchemaData)
| SchemaQueryFailed (msg uri database objectType : string)
| HistoryResult (d : HistoryData).

(** The handler of the [database-schema] resource.  The connection check
    stands before the [try]; the query goes to the pool directly, not
    through [executeQuery]. *)
Definition read_database_schema (uri database objectType : string)
  : Async ResourceResponse :=
  s ← get_state;
  if negb (isConnectionActive s)
  then mret (SchemaNotConnected uri database objectType)
  else
    try_catch
      (match schema_query objectType with
       | None =>
           mret (SchemaUnsupported objectType schema_objectTypes uri database)
       | Some (query, description) =>
           h ← pool_request;
           result ← await (OpQuery h query [MkParam "database" sql_VarChar (JStr database)]);
           match drv_recordset result with
           | None =>
               throw (MkErr "TypeError"
                            "Cannot read properties of undefined (reading 'length')")
           | Some rows =>
               t ← Date_now;
               mret (SchemaResult
                 {| sd_database := database;
                    sd_objectType := objectType;
                    sd_description := description;
                    sd_count := Z.of_nat (length rows);
                    sd_objects := rows;
                    sd_queryTime := t;
                    sd_uri := uri |})
           end
       end)
      (fun error => mret (SchemaQueryFailed (message error) uri database objectType)).

(** [complete.queryType] of the [query-history] template. *)
Definition history_queryTypes : list string :=
  ["select"; "insert"; "update"; "delete"; "all"].

Definition complete_queryType (value : string) : list string :=
  List.filter (fun type => String.prefix value type) history_queryTypes.

(** The sample entries the [query-history] handler pushes, in the order of
    its four [if]s. *)
Definition history_queries (queryType : string) : list HistoryEntry :=
  let wanted (type : string) :=
    String.eqb queryType "all" || String.eqb queryType type in
  ((if wanted "select"
    then [ MkHistoryEntry "09:15:30" "SELECT * FROM Users WHERE status = 'active'"
             45 (Some 156) None "success";
           MkHistoryEntry "14:22:15"
             "SELECT COUNT(*) FROM Orders WHERE order_date >= '2024-01-01'"
             23 (Some 1) None "success" ]
    else []) ++
   (if wanted "insert"
    then [ MkHistoryEntry "10:30:45"
             "INSERT INTO Logs (message, timestamp) VALUES ('User login', GETDATE())"
             12 None (Some 1) "success" ]
    else []) ++
   (if wanted "update"
    then [ MkHistoryEntry "16:45:20"
             "UPDATE Products SET price = price * 1.1 WHERE category = 'electronics'"
             67 None (Some 23) "success" ]
    else []) ++
   (if wanted "delete"
    then [ MkHistoryEntry "11:20:10"
             "DELETE FROM TempData WHERE created_date < DATEADD(day, -30, GETDATE())"
             89 None (Some 156) "success" ]
    else []))%list.

(** [queries.reduce((sum, q) => sum + q.duration, 0)]. *)
Definition total_duration (queries : list HistoryEntry) : Z :=
  fold_left (fun sum q => sum + he_duration q) queries 0.

Definition count_status (status : string) (queries : list HistoryEntry) : Z :=
  Z.of_nat (length (List.filter (fun q => String.eqb (he_status q) status) queries)).

(** The handler of the [query-history] resource. *)
Definition read_query_history (uri queryType date : string) : ResourceResponse :=
  let queries := history_queries queryType in
  HistoryResult
    {| hd_queryType := queryType;
       hd_date := date;
       hd_totalQueries := Z.of_nat (length queries);
       hd_successfulQueries := count_status "success" queries;
       hd_failedQueries := count_status "failed" queries;
       hd_averageQueryTime :=
         if 0 <? Z.of_nat (length queries)
         then round_Q (inject_Z (total_duration queries)
                       / inject_Z (Z.of_nat (length queries)))%Q
         else 0;
       hd_queries := queries;
       hd_uri := uri |}.

(** ** Shutdown *)

(** The handler registered for [SIGINT] and, with the same text, for
    [SIGTERM]; it returns the code it hands to [process.exit]. *)
Definition graceful_shutdown : Async Z :=
  modify stopHeartbeat;;
  s ← get_state;
  (match connectionPool s with
   | Some _ => disconnectDatabase;; mret tt
   | None => mret tt
   end);;
  mret 0.

Definition on_SIGINT : Async Z := graceful_shutdown.
Definition on_SIGTERM : Async Z := graceful_shutdown.

(** ** The input schema of [connect_database], continued *)

(** The numeric properties of the input. *)
Inductive NumberProperty : Type :=
| Port
| RequestTimeout
| ConnectionTimeout
| MaxPoolSize
| MinPoolSize
| IdleTimeout.

(** [.min(lo)] of the property's entry in the schema. *)
Definition schema_min (p : NumberProperty) : Z :=
  match p with
  | Port => 1
  | RequestTimeout => 1000
  | ConnectionTimeout => 1000
  | MaxPoolSize => 1
  | MinPoolSize => 0
  | IdleTimeout => 1000
  end.

(** [.max(hi)], for the entries that have one. *)
Definition schema_max (p : NumberProperty) : option Z :=
  match p with
  | Port => Some 65535
  | MaxPoolSize => Some 100
  | _ => None
  end.

(** [.default(d)]. *)
Definition schema_default (p : NumberProperty) : Z :=
  match p with
  | Port => schema_default_port
  | RequestTimeout => schema_default_requestTimeout
  | ConnectionTimeout => schema_default_connectionTimeout
  | MaxPoolSize => schema_default_maxPoolSize
  | MinPoolSize => schema_default_minPoolSize
  | IdleTimeout => schema_default_idleTimeout
  end.

(** [z.number().min(lo).max(hi)] on a given value.  No entry has
    [.int()]: the schema takes fractions as well as whole numbers, so the
    value is a rational here. *)
Definition number_within (lo : Z) (hi : option Z) (x : Q) : bool :=
  Qle_bool (inject_Z lo) x &&
  match hi with
  | Some h => Qle_bool x (inject_Z h)
  | None => true
  end.

(** The values the schema lets through for a property. *)
Definition connect_schema_accepts (p : NumberProperty) (x : Q) : bool :=
  number_within (schema_min p) (schema_max p) x.

(** [x || d] on a number the schema has let through: 0 is the falsy
    one ([NaN] is no number to [z.number()]). *)
Definition number_or (x d : Q) : Q := if Qeq_bool x 0 then d else x.

(** The [d] of [config.p || d] in the [sqlConfig] literal of
    [connectDatabase]. *)
Definition sqlConfig_fallback (p : NumberProperty) : Z :=
  match p with
  | Port => 1433
  | RequestTimeout => 30000
  | ConnectionTimeout => 30000
  | MaxPoolSize => 10
  | MinPoolSize => 1
  | IdleTimeout => 600000
  end.

(** What [sqlConfig] gets for a property of which the handler received
    the value [x]. *)
Definition sqlConfig_number (p : NumberProperty) (x : Q) : Q :=
  number_or x (inject_Z (sqlConfig_fallback p)).

(** The property in [config] and its place in [sqlConfig], for the
    whole-number values [Config] carries. *)
Definition config_property (p : NumberProperty) (c : Config) : option Z :=
  match p with
  | Port => port c
  | RequestTimeout => requestTimeout c
  | ConnectionTimeout => connectionTimeout c
  | MaxPoolSize => maxPoolSize c
  | MinPoolSize => minPoolSize c
  | IdleTimeout => idleTimeout c
  end.

Definition sqlConfig_property (p : NumberProperty) (q : SqlConfig) : Z :=
  match p with
  | Port => sql_port q
  | RequestTimeout => opt_requestTimeout (sql_options q)
  | ConnectionTimeout => opt_connectionTimeout (sql_options q)
  | MaxPoolSize => pool_max (sql_pool q)
  | MinPoolSize => pool_min (sql_pool q)
  | IdleTimeout => pool_idleTimeoutMillis (sql_pool q)
  end.

(** ** Invariants of the module state *)

(** [keeps I t]: every uninterrupted stretch of [t] that is entered in a
    state satisfying [I] leaves the state satisfying [I], at each driver
    promise it suspends on and at its end. *)
Fixpoint keeps {A : Type} (I : State -> Prop) (t : Step A) : Prop :=
  match t with
  | Done _ s => I s
  | Await _ s k => I s /\ forall o s', I s' -> keeps I (k o s')
  end.

(** The same of a function that is suspended already. *)
Definition keeps_after {A : Type} (I : State -> Prop) (t : Step A) : Prop :=
  match t with
  | Done _ _ => True
  | Await _ _ k => forall o s', I s' -> keeps I (k o s')
  end.

(** No timer is left behind: a pending idle check is the one
    [autoDisconnectTimer] names, a live heartbeat interval is the one
    [heartbeatTimer] names, and there is at most one of each. *)
Definition timers_tidy (s : State) : Prop :=
  (forall p, In p (timeouts s) -> autoDisconnectTimer s = Some (fst p)) /\
  (length (timeouts s) <= 1)%nat /\
  (forall i, In i (intervals s) -> heartbeatTimer s = Some i) /\
  (length (intervals s) <= 1)%nat.

(** [connectionPool && connectionPool.connected], the test of
    [get_connection_status]. *)
Definition isConnected (s : State) : bool :=
  match connectionPool s with
  | Some h => match heap s !! h with Some p => connected p | None => false end
  | None => false
  end.

(** A session that reads as connected has its configuration. *)
Definition config_while_connected (s : State) : Prop :=
  isConnected s = true -> connectionConfig s <> None.

Definition server_invariant (s : State) : Prop :=
  timers_tidy s /\ config_while_connected s.

(** ** Labels of batch entries *)

(** The label an entry gets: the item's id, or [SQL_k] by position. *)
Definition label_of (index : nat) (sqlItem : SqlItem) : string :=
  match item_id sqlItem with
  | Some id => if str_truthy id then id
               else String.append "SQL_" (decimal (Z.of_nat index + 1))
  | None => String.append "SQL_" (decimal (Z.of_nat index + 1))
  end.

(** The entry of the item at position [index]. *)
Definition entry_of (index : nat) (sqlItem : SqlItem) (item : BatchItemResult) : Prop :=
  r_index item = Z.of_nat index + 1 /\
  r_sql item = item_sql sqlItem /\
  r_id item = label_of index sqlItem /\
  (r_success item = true <-> r_error item = None).

(** An item that carries an id of its own ([sqlItem.id] is truthy). *)
Definition has_id (sqlItem : SqlItem) : bool :=
  match item_id sqlItem with
  | Some id => str_truthy id
  | None => false
  end.

(** A function that ends by returning, whatever the driver does. *)
Definition answers {A : Type} (t : Step A) : Prop :=
  completes (returning (fun _ : A => True)) t.

(** ** Tool calls in flight together *)

(** A call of one of the five tools ([batch_execute_sql] in its serial
    mode). *)
Inductive ToolCall : Type :=
| Connect_database (params : Config)
| Execute_sql (sqlText : string) (params : list Param)
| Disconnect_database
| Batch_execute_sql_serial (params : BatchParams)
| Get_connection_status.

Definition handler (c : ToolCall) : Async ToolResponse :=
  match c with
  | Connect_database params => connect_database params
  | Execute_sql sqlText params => execute_sql sqlText params
  | Disconnect_database => disconnect_database
  | Batch_execute_sql_serial params => batch_serial params
  | Get_connection_status => get_connection_status
  end.

(** One turn of the event loop: a call arrives at some time and runs up
    to its first driver promise, or the driver settles a pending promise
    and the function waiting for it runs on. *)
Inductive Turn : Type :=
| Arrives (at_ms : Z) (c : ToolCall)
| Settles (r : Reply).

(** The event loop over a list of turns: the calls started so far (the
    finished ones with their completion) and the current state. *)
Fixpoint serve (turns : list Turn) (ts : list (Step ToolResponse)) (cur : State)
  : list (Step ToolResponse) * State :=
  match turns with
  | [] => (ts, cur)
  | Arrives at_ms c :: turns' =>
      let t := handler c (set_now at_ms cur) in
      serve turns' (ts ++ [t])%list (state_of t)
  | Settles r :: turns' =>
      match choose (pick r) ts with
      | Some i =>
          match ts !! i with
          | Some t =>
              let t' := resume t (outcome r) (set_now (at_time r) cur) in
              serve turns' (<[i:=t']> ts) (state_of t')
          | None => serve turns' ts cur
          end
      | None => serve turns' ts cur
      end
  end.

(** A call that has not thrown (it has returned, or is still waiting). *)
Definition not_thrown {A : Type} (t : Step A) : Prop :=
  match t with
  | Done (Throw _) _ => False
  | _ => True
  end.

(** ** The date completion of [query-history] *)

(** A [Date] as far as the completion uses it: the calendar day it falls
    on, counted in days from 1970-01-01.  The clock of the server is
    taken to be in UTC, so that the day [getDate] and [setDate] work on
    is the day [toISOString] prints. *)

(** [date.setDate(date.getDate() - i)]: a day of the month below 1 runs
    over into the months before, so the date moves [i] days back. *)
Definition setDate_minus (i : Z) (day : Z) : Z := day - i.

(** The Gregorian date of a day number: year, month, day of the month. *)
Definition civil_from_days (day : Z) : Z * Z * Z :=
  let z := day + 719468 in
  let era := z / 146097 in
  let doe := z - era * 146097 in
  let yoe := (doe - doe / 1460 + doe / 36524 - doe / 146096) / 365 in
  let doy := doe - (365 * yoe + yoe / 4 - yoe / 100) in
  let mp := (5 * doy + 2) / 153 in
  let d := doy - (153 * mp + 2) / 5 + 1 in
  let m := if mp <? 10 then mp + 3 else mp - 9 in
  (yoe + era * 400 + (if m <=? 2 then 1 else 0), m, d).

Definition two_digits (n : Z) : string :=
  if n <? 10 then String.append "0" (decimal n) else decimal n.

Definition four_digits (n : Z) : string :=
  if n <? 10 then String.append "000" (decimal n)
  else if n <? 100 then String.append "00" (decimal n)
  else if n <? 1000 then String.append "0" (decimal n)
  else decimal n.

(** [date.toISOString().split('T')[0]], for the years 0 to 9999. *)
Definition iso_date (day : Z) : string :=
  let '(y, m, d) := civil_from_days day in
  String.append (four_digits y)
    (String.append "-" (String.append (two_digits m) (String.append "-" (two_digits d)))).

(** The loop of [complete.date]: for [i] from 0 to 6, today's date with
    [setDate] applied to it twice. *)
Definition date_suggestions (today : Z) : list Z :=
  map (fun i => setDate_minus i (setDate_minus i today)) (map Z.of_nat (seq 0 7)).

Definition complete_date (today : Z) (value : string) : list string :=
  List.filter (fun d => String.prefix value d) (map iso_date (date_suggestions today)).

(** * Verification *)

(** ** Unfolding the resumption monad *)

Ltac unfold_async :=
  unfold mbind, mret, async_bind, async_ret, try_catch, throw, get_state,
    modify, Date_now in *.

Ltac splits := repeat split; auto.

(** The state transformers stay folded under simplification. *)
Arguments updateActivityTime : simpl never.
Arguments startAutoDisconnectTimer : simpl never.
Arguments startHeartbeat : simpl never.
Arguments stopHeartbeat : simpl never.
Arguments forget_session : simpl never.
Arguments on_stats : simpl never.
Arguments alter_pool : simpl never.
Arguments await : simpl never.
Arguments build_sqlConfig : simpl never.

Section RunLaws.
Context {A B : Type}.

(** Running a sequence is running its parts one after the other. *)
Lemma run_bindS (m : Step A) (f : A -> State -> Step B) (w : list Reply) :
  run w (bindS m f) =
    match result (run w m) with
    | Return a => after (trace (run w m)) (run (rest (run w m)) (f a (final (run w m))))
    | Throw e => MkRun (Throw e) (final (run w m)) (trace (run w m)) (rest (run w m))
    end.
Proof.
  revert w. induction m as [[a|e] s|op s k IH]; intros w; cbn.
  - destruct (run w (f a s)); reflexivity.
  - reflexivity.
  - rewrite IH. destruct (result (run _ (k _ _))); reflexivity.
Qed.

Lemma run_catchS (m : Step A) (h : Err -> State -> Step A) (w : list Reply) :
  run w (catchS m h) =
    match result (run w m) with
    | Return a => run w m
    | Throw e => after (trace (run w m)) (run (rest (run w m)) (h e (final (run w m))))
    end.
Proof.
  revert w. induction m as [[a|e] s|op s k IH]; intros w; cbn.
  - reflexivity.
  - destruct (run w (h e s)); reflexivity.
  - rewrite IH. destruct (result (run _ (k _ _))) eqn:E.
    + rewrite <- E. reflexivity.
    + reflexivity.
Qed.
End RunLaws.

(** ** The store of pool objects *)

Lemma heap_alloc_lookup (hp : list PoolObj) (p : PoolObj) :
  (hp ++ [p])%list !! length hp = Some p.
Proof. rewrite lookup_app_r by lia. rewrite Nat.sub_diag. reflexivity. Qed.

Lemma alter_alloc (f : PoolObj -> PoolObj) (hp : list PoolObj) (p : PoolObj) :
  alter f (length hp) (hp ++ [p])%list = (hp ++ [f p])%list.
Proof.
  replace (length hp) with (length hp + 0)%nat at 1 by lia.
  rewrite alter_app_r. reflexivity.
Qed.

Lemma pool_created_heap (config : Config) (s : State) :
  heap (pool_created config s)
    = (heap s ++ [MkPoolObj (build_sqlConfig config) false true])%list.
Proof. unfold pool_created, drv_issue, alter_pool. cbn. apply alter_alloc. Qed.

Lemma pool_created_pool (config : Config) (s : State) :
  connectionPool (pool_created config s) = Some (length (heap s)).
Proof. reflexivity. Qed.

Lemma pool_created_stats (config : Config) (s : State) :
  connectionStats (pool_created config s) = connectionStats s.
Proof. reflexivity. Qed.

(** ** The connection manager, part by part *)

Lemma forget_session_pool (s : State) : connectionPool (forget_session s) = None.
Proof.
  unfold forget_session, stopHeartbeat. cbn.
  destruct (autoDisconnectTimer s); cbn; destruct (heartbeatTimer s); reflexivity.
Qed.

Lemma forget_session_config (s : State) : connectionConfig (forget_session s) = None.
Proof.
  unfold forget_session, stopHeartbeat. cbn.
  destruct (autoDisconnectTimer s); cbn; destruct (heartbeatTimer s); reflexivity.
Qed.

Lemma forget_session_stats (s : State) :
  connectionStats (forget_session s) = connectionStats s.
Proof.
  unfold forget_session, stopHeartbeat. cbn.
  destruct (autoDisconnectTimer s); cbn; destruct (heartbeatTimer s); reflexivity.
Qed.

Lemma forget_session_heap (s : State) : heap (forget_session s) = heap s.
Proof.
  unfold forget_session, stopHeartbeat. cbn.
  destruct (autoDisconnectTimer s); cbn; destruct (heartbeatTimer s); reflexivity.
Qed.

Lemma forget_session_not_active (s : State) : isConnectionActive (forget_session s) = false.
Proof. unfold isConnectionActive. rewrite forget_session_pool. reflexivity. Qed.

Lemma drv_settle_stats (op : Op) (o : Outcome) (s : State) :
  connectionStats (drv_settle op o s) = connectionStats s.
Proof. destruct op, o; reflexivity. Qed.

Lemma drv_settle_pool (op : Op) (o : Outcome) (s : State) :
  connectionPool (drv_settle op o s) = connectionPool s.
Proof. destruct op, o; reflexivity. Qed.

Lemma drv_settle_config (op : Op) (o : Outcome) (s : State) :
  connectionConfig (drv_settle op o s) = connectionConfig s.
Proof. destruct op, o; reflexivity. Qed.

Lemma disconnectDatabase_no_pool (s : State) :
  connectionPool s = None ->
  disconnectDatabase s = Done (Return false) s.
Proof.
  intros Hp. unfold disconnectDatabase. unfold_async. cbn. rewrite Hp. reflexivity.
Qed.

(** What [disconnectDatabase] does on a session that holds a pool, by the
    outcome of [close()]. *)
Lemma run_disconnectDatabase (s : State) (h : nat) (w : list Reply) :
  connectionPool s = Some h ->
  let rw := next_reply w (OpClose h) s in
  run w (disconnectDatabase s) =
    match outcome (fst rw) with
    | Resolved v =>
        MkRun (Return true)
              (forget_session (drv_settle (OpClose h) (Resolved v) (set_now (at_time (fst rw)) s)))
              [OpClose h] (snd rw)
    | Rejected e =>
        MkRun (Throw e) (drv_settle (OpClose h) (Rejected e) (set_now (at_time (fst rw)) s))
              [OpClose h] (snd rw)
    end.
Proof.
  intros Hp. cbn zeta. unfold disconnectDatabase, await. unfold_async. cbn. rewrite Hp. cbn.
  destruct (outcome (fst (next_reply w (OpClose h) s))); reflexivity.
Qed.

Lemma connectDatabase_parts (config : Config) (s : State) :
  connectDatabase config s =
    catchS (bindS (close_previous s) (fun _ => open_pool config)) count_failed_connection.
Proof.
  unfold connectDatabase, close_previous. unfold_async. cbn.
  destruct (connectionPool s); reflexivity.
Qed.

Lemma close_previous_none (s : State) :
  connectionPool s = None -> close_previous s = Done (Return tt) s.
Proof. intros Hp. unfold close_previous. unfold_async. cbn. rewrite Hp. reflexivity. Qed.

Lemma run_close_previous (w : list Reply) (s : State) (h : nat) :
  connectionPool s = Some h ->
  let rw := next_reply w (OpClose h) s in
  run w (close_previous s) =
    match outcome (fst rw) with
    | Resolved v =>
        MkRun (Return tt)
          (forget_session (drv_settle (OpClose h) (Resolved v) (set_now (at_time (fst rw)) s)))
          [OpClose h] (snd rw)
    | Rejected e =>
        MkRun (Throw e) (drv_settle (OpClose h) (Rejected e) (set_now (at_time (fst rw)) s))
          [OpClose h] (snd rw)
    end.
Proof.
  intros Hp. cbn zeta. unfold close_previous. unfold_async. cbn. rewrite Hp.
  rewrite run_bindS, (run_disconnectDatabase s h w Hp). cbn zeta.
  destruct (outcome (fst (next_reply w (OpClose h) s))); reflexivity.
Qed.

Lemma open_pool_suspends (config : Config) (s : State) :
  issued (open_pool config s) = [OpConnect (length (heap s))] /\
  state_of (open_pool config s) = pool_created config s.
Proof. split; reflexivity. Qed.

Lemma run_open_pool (config : Config) (w : list Reply) (s : State) :
  let h := length (heap s) in
  let rw := next_reply w (OpConnect h) (pool_created config s) in
  let s' := drv_settle (OpConnect h) (outcome (fst rw))
              (set_now (at_time (fst rw)) (pool_created config s)) in
  run w (open_pool config s) =
    match outcome (fst rw) with
    | Resolved _ => MkRun (Return true) (session_opened config s') [OpConnect h] (snd rw)
    | Rejected e => MkRun (Throw e) s' [OpConnect h] (snd rw)
    end.
Proof.
  cbn zeta. unfold open_pool, new_ConnectionPool, await, pool_created. unfold_async. cbn.
  destruct (outcome (fst (next_reply w _ _))); reflexivity.
Qed.

(** A refused open leaves the new pool object neither connected nor
    connecting, under the handle in [connectionPool]. *)
Lemma refused_open_not_active (config : Config) (s : State) (e : Err) (t : Z) :
  let s' := drv_settle (OpConnect (length (heap s))) (Rejected e)
              (set_now t (pool_created config s)) in
  connectionPool s' = Some (length (heap s)) /\
  isConnectionActive s' = false /\
  connectionStats s' = connectionStats s.
Proof.
  cbn zeta. unfold isConnectionActive, drv_settle, alter_pool. cbn -[pool_created].
  change (heap (set_now t (pool_created config s))) with (heap (pool_created config s)).
  rewrite pool_created_heap, alter_alloc, pool_created_pool, heap_alloc_lookup. splits.
Qed.

Lemma reconnectIfNeeded_nothing_retained (s : State) :
  isConnectionActive s = false ->
  connectionConfig s = None ->
  reconnectIfNeeded s = Done (Return false) s.
Proof.
  intros Ha Hc. unfold reconnectIfNeeded. unfold_async. cbn.
  rewrite Ha, Hc. cbn. rewrite Ha. reflexivity.
Qed.

(** A query on a session that is not active and retains nothing is
    refused before anything is awaited. *)
Lemma executeQuery_nothing_retained (sqlText : string) (params : list Param) (s : State) :
  isConnectionActive s = false ->
  connectionConfig s = None ->
  executeQuery sqlText params s = Done (Throw not_connected_error) s.
Proof.
  intros Ha Hc. unfold executeQuery. unfold_async.
  rewrite (reconnectIfNeeded_nothing_retained s Ha Hc). reflexivity.
Qed.

Lemma reconnectIfNeeded_active (s : State) :
  isConnectionActive s = true ->
  reconnectIfNeeded s = Done (Return true) s.
Proof.
  intros Ha. unfold reconnectIfNeeded. unfold_async. cbn.
  rewrite Ha. cbn. rewrite Ha. reflexivity.
Qed.

Lemma isConnectionActive_pool (s : State) :
  isConnectionActive s = true -> exists h, connectionPool s = Some h.
Proof.
  unfold isConnectionActive. destruct (connectionPool s) as [h|]; [eauto|discriminate].
Qed.

Lemma on_stats_stats (f : Stats -> Stats) (s : State) :
  connectionStats (on_stats f s) = f (connectionStats s).
Proof. reflexivity. Qed.

Lemma on_stats_pool (f : Stats -> Stats) (s : State) :
  connectionPool (on_stats f s) = connectionPool s.
Proof. reflexivity. Qed.

Lemma on_stats_active (f : Stats -> Stats) (s : State) :
  isConnectionActive (on_stats f s) = isConnectionActive s.
Proof. reflexivity. Qed.

Lemma count_failed_connection_eq (e : Err) (s : State) :
  count_failed_connection e s = Done (Throw e) (on_stats stats_connect_failed s).
Proof. reflexivity. Qed.

(** [connectDatabase] on a session that holds no pool. *)
Lemma run_connectDatabase_fresh (config : Config) (w : list Reply) (s : State) :
  connectionPool s = None ->
  let h := length (heap s) in
  let rw := next_reply w (OpConnect h) (pool_created config s) in
  let s' := drv_settle (OpConnect h) (outcome (fst rw))
              (set_now (at_time (fst rw)) (pool_created config s)) in
  run w (connectDatabase config s) =
    match outcome (fst rw) with
    | Resolved _ => MkRun (Return true) (session_opened config s') [OpConnect h] (snd rw)
    | Rejected e =>
        MkRun (Throw e) (on_stats stats_connect_failed s') [OpConnect h] (snd rw)
    end.
Proof.
  intros Hp. cbn zeta.
  rewrite connectDatabase_parts, run_catchS, run_bindS, (close_previous_none s Hp).
  cbn [run result final trace rest after app].
  rewrite run_open_pool. cbn zeta.
  destruct (outcome (fst (next_reply w _ _))); reflexivity.
Qed.

(** ** Failed connects (C2) *)

(** The replies are handed out in order: what is left after one promise
    is the list without its head, and the outcome does not depend on the
    state the promise was awaited in. *)
Lemma next_reply_rest (w : list Reply) (op : Op) (s : State) :
  snd (next_reply w op s) = drop 1 w.
Proof. destruct w; reflexivity. Qed.

Lemma next_reply_outcome (w : list Reply) (op : Op) (s s' : State) :
  outcome (fst (next_reply w op s)) = outcome (fst (next_reply w op s')).
Proof. destruct w; reflexivity. Qed.

(** The pool object a refused open leaves under its handle: created from
    [config], neither connected nor connecting. *)
Lemma refused_open_pool_object (config : Config) (s : State) (e : Err) (t : Z) :
  let s' := drv_settle (OpConnect (length (heap s))) (Rejected e)
              (set_now t (pool_created config s)) in
  heap s' !! length (heap s) = Some (MkPoolObj (build_sqlConfig config) false false).
Proof.
  cbn zeta. unfold drv_settle, alter_pool. cbn -[pool_created].
  change (heap (set_now t (pool_created config s))) with (heap (pool_created config s)).
  rewrite pool_created_heap, alter_alloc, heap_alloc_lookup. reflexivity.
Qed.

Lemma on_stats_heap (f : Stats -> Stats) (s : State) : heap (on_stats f s) = heap s.
Proof. reflexivity. Qed.

(** What a session shows after a refused open, given the handle and the
    pool object under it. *)
Lemma handle_without_connection (s : State) (h : nat) (c : SqlConfig) :
  connectionPool s = Some h ->
  heap s !! h = Some (MkPoolObj c false false) ->
  isConnectionActive s = false /\ isConnected s = false /\
  ~ pool_only_while_connected s.
Proof.
  intros Hp Hh.
  assert (Ha : isConnectionActive s = false).
  { unfold isConnectionActive. rewrite Hp, Hh. reflexivity. }
  split; [exact Ha|]. split.
  - unfold isConnected. rewrite Hp, Hh. reflexivity.
  - unfold pool_only_while_connected. rewrite Hp, Ha. intros H.
    assert (F : false = true) by (apply H; discriminate). discriminate F.
Qed.

(** C2, counterexample: where the pool open is refused, the handle of the
    refused pool stays in [connectionPool]. *)
Lemma C2_counterexample :
  let r := run [refuses 0 1500 "Login failed for user 'app'"]
               (connectDatabase sample_config init_state) in
  result r = Throw (MkErr "ConnectionError" "Login failed for user 'app'") /\
  isConnectionActive (final r) = false /\
  connectionPool (final r) = Some 0%nat /\
  ~ pool_only_while_connected (final r).
Proof.
  cbv zeta. rewrite run_connectDatabase_fresh by reflexivity. cbn.
  repeat split; try reflexivity.
  unfold pool_only_while_connected. cbn. intros H.
  assert (F : false = true) by (apply H; discriminate). discriminate F.
Qed.

(** C2 (amended): a connected session holds a pool handle, but a handle
    is held at other times too.  When [connectDatabase], alone on the
    event loop, throws, [totalConnections] and [failedConnections] have
    gone up by one, [successfulConnections] is unchanged and
    [connectionPool] still holds a handle.  When it is the pool open that
    failed (the last promise the call awaited is the [connect()] of the
    pool [h]), the error thrown is the one the driver rejected that
    [connect()] with (the replies are used one per awaited promise, so
    the reply to the last promise is the first of [w] after those to the
    earlier ones), [connectionPool] holds [h], the pool object under [h]
    is the one created from [config] and is neither connected nor
    connecting, so that the session reads as not connected both to
    [isConnectionActive] and to the status tool. *)
Theorem C2_failed_connect_keeps_pool_handle (config : Config) (w : list Reply)
    (s : State) (e : Err) :
  result (run w (connectDatabase config s)) = Throw e ->
  let r := run w (connectDatabase config s) in
  totalConnections (connectionStats (final r)) = totalConnections (connectionStats s) + 1 /\
  failedConnections (connectionStats (final r)) = failedConnections (connectionStats s) + 1 /\
  successfulConnections (connectionStats (final r))
    = successfulConnections (connectionStats s) /\
  connectionPool (final r) <> None /\
  (forall h, last (trace r) = Some (OpConnect h) ->
     outcome (fst (next_reply (drop (length (trace r) - 1) w) (OpConnect h) s))
       = Rejected e /\
     connectionPool (final r) = Some h /\
     heap (final r) !! h = Some (MkPoolObj (build_sqlConfig config) false false) /\
     isConnectionActive (final r) = false /\
     isConnected (final r) = false /\
     ~ pool_only_while_connected (final r)) /\
  (forall s0, isConnectionActive s0 = true -> connectionPool s0 <> None).
Proof.
  cbv zeta. intros Hres.
  assert (Hconv : forall s0, isConnectionActive s0 = true -> connectionPool s0 <> None).
  { intros s0 Ha. destruct (isConnectionActive_pool s0 Ha) as [h Hh]. congruence. }
  revert Hres. destruct (connectionPool s) as [h0|] eqn:Hp.
  - rewrite connectDatabase_parts, run_catchS, run_bindS, (run_close_previous w s h0 Hp).
    cbv zeta. rewrite next_reply_rest. set (rw := next_reply w (OpClose h0) s).
    destruct (outcome (fst rw)) as [v|e0]; cbn [result final trace rest after app].
    + set (s1 := forget_session _). rewrite run_open_pool. cbv zeta.
      set (rw' := next_reply (drop 1 w) _ _).
      destruct (outcome (fst rw')) as [v'|e1] eqn:Ho;
        cbn [result final trace rest after app]; [discriminate|].
      rewrite count_failed_connection_eq. cbn [run result final trace rest after app].
      intros [= <-].
      destruct (refused_open_not_active config s1 e1 (at_time (fst rw'))) as (Hh & Hna & Hst).
      pose proof (refused_open_pool_object config s1 e1 (at_time (fst rw'))) as Hobj.
      cbv zeta in Hobj.
      assert (Hst1 : connectionStats s1 = connectionStats s).
      { subst s1. rewrite forget_session_stats, drv_settle_stats. reflexivity. }
      rewrite !on_stats_stats, on_stats_pool, Hst, Hh, Hst1. cbn [connectionStats].
      split; [reflexivity|]. split; [reflexivity|]. split; [reflexivity|].
      split; [discriminate|]. split; [|exact Hconv].
      intros h [= <-]. cbn [length Nat.sub].
      split; [rewrite <- Ho; subst rw'; apply next_reply_outcome|].
      split; [reflexivity|]. split; [rewrite on_stats_heap; exact Hobj|].
      apply (handle_without_connection _ (length (heap s1)) (build_sqlConfig config));
        [rewrite on_stats_pool; exact Hh|rewrite on_stats_heap; exact Hobj].
    + rewrite count_failed_connection_eq. cbn [run result final trace rest after app].
      intros _. rewrite !on_stats_stats, on_stats_pool, drv_settle_stats, drv_settle_pool.
      cbn. rewrite Hp. repeat split; try discriminate. exact Hconv.
  - rewrite (run_connectDatabase_fresh config w s Hp). cbv zeta.
    set (rw := next_reply w _ _).
    destruct (outcome (fst rw)) as [v|e0] eqn:Ho; cbn [result final trace rest];
      [discriminate|].
    intros [= <-].
    destruct (refused_open_not_active config s e0 (at_time (fst rw))) as (Hh & Hna & Hst).
    pose proof (refused_open_pool_object config s e0 (at_time (fst rw))) as Hobj.
    cbv zeta in Hobj.
    rewrite !on_stats_stats, on_stats_pool, Hst, Hh. cbn [connectionStats].
    split; [reflexivity|]. split; [reflexivity|]. split; [reflexivity|].
    split; [discriminate|]. split; [|exact Hconv].
    intros h [= <-]. cbn [length Nat.sub drop].
    split; [rewrite <- Ho; subst rw; apply next_reply_outcome|].
    split; [reflexivity|]. split; [rewrite on_stats_heap; exact Hobj|].
    apply (handle_without_connection _ (length (heap s)) (build_sqlConfig config));
      [rewrite on_stats_pool; exact Hh|rewrite on_stats_heap; exact Hobj].
Qed.

Lemma C2_witness :
  let w := [refuses 0 1500 "Login failed for user 'app'"] in
  let r := run w (connectDatabase sample_config init_state) in
  totalConnections (connectionStats (final r)) = 1 /\
  failedConnections (connectionStats (final r)) = 1 /\
  successfulConnections (connectionStats (final r)) = 0 /\
  connectionPool (final r) <> None /\
  (forall h, last (trace r) = Some (OpConnect h) ->
     outcome (fst (next_reply (drop (length (trace r) - 1) w) (OpConnect h) init_state))
       = Rejected (MkErr "ConnectionError" "Login failed for user 'app'") /\
     connectionPool (final r) = Some h /\
     heap (final r) !! h = Some (MkPoolObj (build_sqlConfig sample_config) false false) /\
     isConnectionActive (final r) = false /\
     isConnected (final r) = false /\
     ~ pool_only_while_connected (final r)) /\
  (forall s0, isConnectionActive s0 = true -> connectionPool s0 <> None).
Proof.
  apply (C2_failed_connect_keeps_pool_handle sample_config
           [refuses 0 1500 "Login failed for user 'app'"] init_state
           (MkErr "ConnectionError" "Login failed for user 'app'")).
  vm_compute. reflexivity.
Defined.

(** ** Pool options (C10) *)

Lemma num_or_zero (d : Z) : num_or (Some 0) d = d.
Proof. reflexivity. Qed.

(** A caller who leaves [minPoolSize] out gets the schema default, 0. *)
Lemma schema_default_minPoolSize_applies (c : Config) :
  minPoolSize c = None ->
  minPoolSize (connect_schema_defaults c) = Some schema_default_minPoolSize.
Proof. intros H. cbn. rewrite H. reflexivity. Qed.

(** C10: with [minPoolSize = 0] the falsy fallback of the pool options
    applies: the pool options get [min = 1], and the pool that
    [connectDatabase] creates and opens carries them. *)
Theorem C10_minPoolSize_zero_opens_with_min_one (config : Config) (s : State) :
  minPoolSize config = Some 0 ->
  connectionPool s = None ->
  pool_min (sql_pool (build_sqlConfig config)) = 1 /\
  issued (connectDatabase config s) = [OpConnect (length (heap s))] /\
  option_map (fun p => pool_min (sql_pool (pool_config p)))
             (heap (state_of (connectDatabase config s)) !! length (heap s)) = Some 1.
Proof.
  intros Hmin Hpool.
  assert (Hone : pool_min (sql_pool (build_sqlConfig config)) = 1).
  { unfold build_sqlConfig; cbn. rewrite Hmin. apply num_or_zero. }
  split; [exact Hone|].
  rewrite connectDatabase_parts, (close_previous_none s Hpool).
  change (state_of _) with (pool_created config s).
  split; [reflexivity|].
  rewrite pool_created_heap, heap_alloc_lookup. cbn [option_map pool_config].
  rewrite Hone. reflexivity.
Qed.

Lemma C10_witness :
  pool_min (sql_pool (build_sqlConfig (connect_schema_defaults sample_config))) = 1 /\
  issued (connectDatabase (connect_schema_defaults sample_config) init_state)
    = [OpConnect 0] /\
  option_map (fun p => pool_min (sql_pool (pool_config p)))
    (heap (state_of (connectDatabase (connect_schema_defaults sample_config) init_state))
       !! 0%nat) = Some 1.
Proof.
  apply (C10_minPoolSize_zero_opens_with_min_one
           (connect_schema_defaults sample_config) init_state); reflexivity.
Defined.

(** ** Queries without a session (C6) *)

(** C6: a query on a session that is not active and retains no
    configuration fails with the not-connected error at once: no driver
    promise is awaited (no pool is opened) and the state, statistics
    included, is unchanged. *)
Theorem C6_query_without_session_fails (sqlText : string) (params : list Param)
    (w : list Reply) (s : State) :
  isConnectionActive s = false ->
  connectionConfig s = None ->
  run w (executeQuery sqlText params s) = MkRun (Throw not_connected_error) s [] w /\
  pool_opens (trace (run w (executeQuery sqlText params s))) = 0%nat /\
  connectionStats (final (run w (executeQuery sqlText params s))) = connectionStats s.
Proof.
  intros Ha Hc.
  rewrite (executeQuery_nothing_retained sqlText params s Ha Hc). cbn. auto.
Qed.

Lemma C6_witness :
  run [resolves 0 10] (executeQuery "SELECT 1" [] init_state)
    = MkRun (Throw not_connected_error) init_state [] [resolves 0 10] /\
  pool_opens (trace (run [resolves 0 10] (executeQuery "SELECT 1" [] init_state))) = 0%nat /\
  connectionStats (final (run [resolves 0 10] (executeQuery "SELECT 1" [] init_state)))
    = connectionStats init_state.
Proof.
  apply (C6_query_without_session_fails "SELECT 1" [] [resolves 0 10] init_state);
    reflexivity.
Defined.

(** ** Disconnecting (C7) *)

(** Without any session the call answers [false] and does nothing. *)
Lemma disconnect_without_session (w : list Reply) (s : State) :
  connectionPool s = None ->
  run w (disconnectDatabase s) = MkRun (Return false) s [] w.
Proof. intros Hp. rewrite (disconnectDatabase_no_pool s Hp). reflexivity. Qed.

(** C7: [disconnectDatabase] reports whether a session was there instead
    of failing: on a session whose pool closes it returns [true], and a
    second call right after returns [false], awaits nothing, throws
    nothing and leaves the state as the first call left it; the tool
    answers that there is no active connection.  On a server that holds
    no pool at all the call returns [false] in the same way. *)
Theorem C7_disconnect_is_idempotent (s : State) (h : nat) (r : Reply) (w : list Reply)
    (v : DrvResult) :
  connectionPool s = Some h ->
  outcome r = Resolved v ->
  let first := run (r :: w) (disconnectDatabase s) in
  let second := run (rest first) (disconnectDatabase (final first)) in
  result first = Return true /\
  connectionPool (final first) = None /\
  result second = Return false /\
  trace second = [] /\
  final second = final first /\
  run (rest first) (disconnect_database (final first))
    = MkRun (Return NoActiveConnection) (final first) [] (rest first) /\
  forall w0 s0, connectionPool s0 = None ->
    run w0 (disconnectDatabase s0) = MkRun (Return false) s0 [] w0.
Proof.
  intros Hp Ho first second. subst second first.
  rewrite (run_disconnectDatabase s h (r :: w) Hp). cbn [next_reply fst snd].
  rewrite Ho. cbn [result final rest].
  set (s1 := forget_session _).
  assert (H1 : connectionPool s1 = None) by apply forget_session_pool.
  unfold disconnect_database. unfold_async.
  rewrite (disconnectDatabase_no_pool s1 H1). cbn. splits.
  intros w0 s0 H0. apply disconnect_without_session, H0.
Qed.

Lemma C7_witness :
  let first := run [resolves 0 2000] (disconnectDatabase connected_state) in
  let second := run (rest first) (disconnectDatabase (final first)) in
  result first = Return true /\
  connectionPool (final first) = None /\
  result second = Return false /\
  trace second = [] /\
  final second = final first /\
  run (rest first) (disconnect_database (final first))
    = MkRun (Return NoActiveConnection) (final first) [] (rest first) /\
  forall w0 s0, connectionPool s0 = None ->
    run w0 (disconnectDatabase s0) = MkRun (Return false) s0 [] w0.
Proof.
  apply (C7_disconnect_is_idempotent connected_state 0 (resolves 0 2000) [] one_row);
    reflexivity.
Defined.



(** ** The idle watchdog (C1) *)

Lemma autoDisconnect_callback_idle (s : State) (h : nat) (t0 : Z) :
  connectionPool s = Some h ->
  lastActivityTime s = Some t0 ->
  t0 <> 0 ->
  300000 <= now s - t0 ->
  autoDisconnect_callback s = bindS (disconnectDatabase s) (fun _ s' => Done (Return tt) s').
Proof.
  intros Hp Hl Hz Hidle. unfold autoDisconnect_callback. unfold_async. cbn.
  rewrite Hp, Hl. cbn.
  destruct (Z.eqb_spec t0 0) as [|_]; [contradiction|]. cbn.
  destruct (Z.leb_spec 300000 (now s - t0)) as [_|]; [reflexivity|lia].
Qed.

(** C1, on the code: the idle check that finds the session idle for five
    minutes runs the very [disconnectDatabase] of the explicit
    disconnect; once the pool has closed, the retained configuration is
    gone with the pool, and every later query fails with the
    not-connected error without any attempt to reconnect. *)
Theorem C1_idle_disconnect_clears_config (s : State) (h : nat) (t0 : Z) (r : Reply)
    (w : list Reply) (v : DrvResult) :
  connectionPool s = Some h ->
  lastActivityTime s = Some t0 ->
  t0 <> 0 ->
  300000 <= now s - t0 ->
  outcome r = Resolved v ->
  let idle := run (r :: w) (autoDisconnect_callback s) in
  result idle = Return tt /\
  trace idle = [OpClose h] /\
  connectionPool (final idle) = None /\
  connectionConfig (final idle) = None /\
  forall sqlText params w',
    run w' (executeQuery sqlText params (final idle))
      = MkRun (Throw not_connected_error) (final idle) [] w'.
Proof.
  intros Hp Hl Hz Hidle Ho idle. subst idle.
  rewrite (autoDisconnect_callback_idle s h t0 Hp Hl Hz Hidle), run_bindS.
  rewrite (run_disconnectDatabase s h (r :: w) Hp). cbn [next_reply fst snd].
  rewrite Ho. cbn [result final trace rest after run app].
  set (s1 := forget_session _).
  split; [reflexivity|]. split; [reflexivity|].
  split; [apply forget_session_pool|]. split; [apply forget_session_config|].
  intros sqlText params w'.
  rewrite (executeQuery_nothing_retained sqlText params s1);
    [reflexivity|apply forget_session_not_active|apply forget_session_config].
Qed.

Lemma C1_witness :
  let idle := run [resolves 0 301350] (autoDisconnect_callback (clearTimeout 5 idle_state)) in
  result idle = Return tt /\
  trace idle = [OpClose 0] /\
  connectionPool (final idle) = None /\
  connectionConfig (final idle) = None /\
  forall sqlText params w',
    run w' (executeQuery sqlText params (final idle))
      = MkRun (Throw not_connected_error) (final idle) [] w'.
Proof.
  apply (C1_idle_disconnect_clears_config (clearTimeout 5 idle_state) 0%nat 1200
           (resolves 0 301350) [] one_row);
    [reflexivity|reflexivity|discriminate|vm_compute; discriminate|reflexivity].
Defined.

(** The whole course of [idle_events]: the last idle check is the
    watchdog callback above, it leaves the server without pool and
    without configuration, and the query that follows is answered with
    the not-connected text; no connection is attempted. *)
Lemma idle_disconnect_scenario :
  fire_timeout 5 idle_state = Some (autoDisconnect_callback (clearTimeout 5 idle_state)) /\
  connectionConfig idle_state = Some (connect_schema_defaults sample_config) /\
  connectionPool idle_disconnected_state = None /\
  connectionConfig idle_disconnected_state = None /\
  (let q := run [resolves 0 400100]
                (execute_sql "SELECT 1" [] (set_now 400000 idle_disconnected_state)) in
   result q = Return (ExecFailed (message not_connected_error)) /\
   trace q = [] /\
   totalConnections (connectionStats (final q)) = 1).
Proof. vm_compute. repeat split; reflexivity. Qed.


(** ** Queries on an active session *)

Lemma updateActivityTime_active (s : State) :
  isConnectionActive (updateActivityTime s) = isConnectionActive s.
Proof.
  unfold updateActivityTime, startAutoDisconnectTimer, isConnectionActive. cbn.
  destruct (autoDisconnectTimer s); reflexivity.
Qed.

Lemma updateActivityTime_pool (s : State) :
  connectionPool (updateActivityTime s) = connectionPool s.
Proof.
  unfold updateActivityTime, startAutoDisconnectTimer. cbn.
  destruct (autoDisconnectTimer s); reflexivity.
Qed.

Lemma updateActivityTime_stats (s : State) :
  connectionStats (updateActivityTime s) = connectionStats s.
Proof.
  unfold updateActivityTime, startAutoDisconnectTimer. cbn.
  destruct (autoDisconnectTimer s); reflexivity.
Qed.

Lemma updateActivityTime_config (s : State) :
  connectionConfig (updateActivityTime s) = connectionConfig s.
Proof.
  unfold updateActivityTime, startAutoDisconnectTimer. cbn.
  destruct (autoDisconnectTimer s); reflexivity.
Qed.

Lemma updateActivityTime_heap (s : State) :
  heap (updateActivityTime s) = heap s.
Proof.
  unfold updateActivityTime, startAutoDisconnectTimer. cbn.
  destruct (autoDisconnectTimer s); reflexivity.
Qed.

Lemma set_now_active (t : Z) (s : State) :
  isConnectionActive (set_now t s) = isConnectionActive s.
Proof. reflexivity. Qed.

(** [executeQuery] on an active session: one query is sent; by its
    outcome the result is returned and the activity recorded, or the error
    is counted and rethrown. *)
Lemma run_executeQuery_active (sqlText : string) (params : list Param) (w : list Reply)
    (s : State) (h : nat) :
  isConnectionActive s = true ->
  connectionPool s = Some h ->
  let op := OpQuery h sqlText (List.filter bindable params) in
  let rw := next_reply w op s in
  let t := at_time (fst rw) in
  run w (executeQuery sqlText params s) =
    match outcome (fst rw) with
    | Resolved v =>
        MkRun (Return (query_result v (t - now s)))
              (updateActivityTime (on_stats (stats_query_ok t (t - now s)) (set_now t s)))
              [op] (snd rw)
    | Rejected e =>
        MkRun (Throw e) (on_stats stats_query_failed (set_now t s)) [op] (snd rw)
    end.
Proof.
  intros Ha Hp. cbn zeta. unfold executeQuery. unfold_async.
  rewrite (reconnectIfNeeded_active s Ha). cbn.
  unfold pool_request, await. unfold_async. cbn. rewrite Hp. cbn.
  destruct (outcome (fst (next_reply w _ s))); reflexivity.
Qed.

Lemma executeQuery_keeps_active (sqlText : string) (params : list Param) (w : list Reply)
    (s : State) :
  isConnectionActive s = true ->
  isConnectionActive (final (run w (executeQuery sqlText params s))) = true /\
  connectionPool (final (run w (executeQuery sqlText params s))) = connectionPool s.
Proof.
  intros Ha. destruct (isConnectionActive_pool s Ha) as [h Hp].
  rewrite (run_executeQuery_active sqlText params w s h Ha Hp). cbn zeta.
  destruct (outcome (fst (next_reply w _ s))); cbn [final].
  - rewrite updateActivityTime_active, updateActivityTime_pool. split; [exact Ha|reflexivity].
  - split; [exact Ha|reflexivity].
Qed.

(** ** Default labels of batch items (C3) *)

Lemma id_or_default_given (scope : list (string * Z)) (sqlItem : SqlItem) (id : string)
    (s : State) :
  item_id sqlItem = Some id ->
  str_truthy id = true ->
  id_or_default scope sqlItem s = Done (Return id) s.
Proof. intros Hi Ht. unfold id_or_default. rewrite Hi, Ht. reflexivity. Qed.

(** In the callback of the parallel branch [index] is the parameter. *)
Lemma id_or_default_parallel (sqlItem : SqlItem) (index : Z) (s : State) :
  item_id sqlItem = None ->
  id_or_default [("index", index)] sqlItem s
    = Done (Return (String.append "SQL_" (decimal (index + 1)))) s.
Proof. intros Hi. unfold id_or_default. rewrite Hi. reflexivity. Qed.

(** In the loop of the serial branch the counter is [i]: [index] is bound
    nowhere. *)
Lemma id_or_default_serial (sqlItem : SqlItem) (i : Z) (s : State) :
  item_id sqlItem = None ->
  id_or_default [("i", i)] sqlItem s = Done (Throw index_not_defined) s.
Proof. intros Hi. unfold id_or_default. rewrite Hi. reflexivity. Qed.

(** The parallel branch labels an item without id by its position,
    whatever the query does. *)
Lemma parallel_callback_default_label (sqlItem : SqlItem) (index : Z) (w : list Reply)
    (s : State) :
  item_id sqlItem = None ->
  exists item,
    result (run w (parallel_callback sqlItem index s)) = Return item /\
    r_id item = String.append "SQL_" (decimal (index + 1)) /\
    r_index item = index + 1.
Proof.
  intros Hi. unfold parallel_callback. unfold_async.
  rewrite run_catchS, run_bindS.
  destruct (result (run w (executeQuery _ _ s))) as [qr|e] eqn:E.
  - rewrite (id_or_default_parallel _ _ _ Hi). cbn. eexists; splits.
  - cbn [result final trace rest after]. rewrite (id_or_default_parallel _ _ _ Hi).
    cbn. eexists; splits.
Qed.

(** One round of the serial loop on an item without id: whatever the
    query does, reading [index] throws, in the [try] block and again in
    the [catch] block. *)
Lemma serial_loop_without_id (sqlItem : SqlItem) (items : list SqlItem) (i : Z)
    (stop : bool) (results : list BatchItemResult) (w : list Reply) (s : State) :
  item_id sqlItem = None ->
  let q := run w (executeQuery (item_sql sqlItem) (default [] (item_params sqlItem)) s) in
  run w (serial_loop (sqlItem :: items) i stop results s)
    = MkRun (Throw index_not_defined) (final q) (trace q) (rest q).
Proof.
  intros Hi q. subst q. cbn [serial_loop]. unfold_async.
  rewrite run_bindS, run_catchS, run_bindS.
  destruct (result (run w (executeQuery _ _ s))) as [qr|e] eqn:E.
  - rewrite !id_or_default_serial by exact Hi. cbn. rewrite !app_nil_r. reflexivity.
  - cbn [result final trace rest after]. rewrite !id_or_default_serial by exact Hi.
    cbn. rewrite !app_nil_r. reflexivity.
Qed.

Lemma batch_prologue_active (s : State) :
  isConnectionActive s = true ->
  batch_prologue s = Done (Return (now s)) s.
Proof.
  intros Ha. unfold batch_prologue. unfold_async.
  rewrite (reconnectIfNeeded_active s Ha). reflexivity.
Qed.

(** C3, on the code: a serial batch whose first item carries no id does
    not complete: after the first query has run, building the default
    label reads the unbound [index], and the handler answers with the
    batch failure "index is not defined", whatever the driver replied. *)
Theorem C3_serial_default_label_fails (sqlItem : SqlItem) (items : list SqlItem)
    (stop : bool) (w : list Reply) (s : State) :
  isConnectionActive s = true ->
  item_id sqlItem = None ->
  let r := batch_execute_sql (MkBatchParams (sqlItem :: items) stop false) w s in
  result r = Return (BatchFailed "index is not defined") /\
  queries_sent (trace r) = 1%nat.
Proof.
  intros Ha Hi r. subst r. destruct (isConnectionActive_pool s Ha) as [h Hp].
  unfold batch_execute_sql. cbn [parallel]. unfold batch_serial. unfold_async.
  cbn [sqlList stopOnError].
  rewrite run_catchS, run_bindS, (batch_prologue_active s Ha).
  cbn [run result final trace rest after app].
  rewrite run_bindS, (serial_loop_without_id sqlItem items 0 stop [] w s Hi).
  cbn [result final trace rest after app run].
  rewrite (run_executeQuery_active _ _ w s h Ha Hp). cbn zeta.
  destruct (outcome (fst (next_reply w _ s))); split; reflexivity.
Qed.

Lemma C3_witness :
  let r := batch_execute_sql (MkBatchParams [no_id "SELECT 1"] false false)
             [resolves 0 7000] connected_state in
  result r = Return (BatchFailed "index is not defined") /\
  queries_sent (trace r) = 1%nat.
Proof.
  apply (C3_serial_default_label_fails (no_id "SELECT 1") [] false [resolves 0 7000]
           connected_state); reflexivity.
Defined.

(** ** Stopping a serial batch (C5) *)

(** One round of the serial loop on an item that carries an id, on an
    active session. *)
Lemma run_serial_loop_with_id (sqlItem : SqlItem) (items : list SqlItem) (i : Z)
    (stop : bool) (results : list BatchItemResult) (w : list Reply) (s : State)
    (h : nat) (id : string) :
  item_id sqlItem = Some id ->
  str_truthy id = true ->
  isConnectionActive s = true ->
  connectionPool s = Some h ->
  let op := OpQuery h (item_sql sqlItem) (List.filter bindable (default [] (item_params sqlItem))) in
  let rw := next_reply w op s in
  let t := at_time (fst rw) in
  run w (serial_loop (sqlItem :: items) i stop results s) =
    match outcome (fst rw) with
    | Resolved v =>
        after [op]
          (run (snd rw)
             (serial_loop items (i + 1) stop
                (results ++ [item_succeeded (i + 1) id sqlItem (query_result v (t - now s))])%list
                (updateActivityTime (on_stats (stats_query_ok t (t - now s)) (set_now t s)))))
    | Rejected e =>
        if stop
        then MkRun (Return (results ++ [item_failed (i + 1) id sqlItem e])%list)
                   (on_stats stats_query_failed (set_now t s)) [op] (snd rw)
        else
          after [op]
            (run (snd rw)
               (serial_loop items (i + 1) stop
                  (results ++ [item_failed (i + 1) id sqlItem e])%list
                  (on_stats stats_query_failed (set_now t s))))
    end.
Proof.
  intros Hi Ht Ha Hp. cbn zeta. cbn [serial_loop]. unfold_async.
  rewrite run_bindS, run_catchS, run_bindS.
  rewrite (run_executeQuery_active _ _ w s h Ha Hp). cbn zeta.
  destruct (outcome (fst (next_reply w _ s))) as [v|e];
    cbn [result final trace rest after app].
  - rewrite !(id_or_default_given _ sqlItem id) by assumption.
    cbn [run result final trace rest after app fst snd]. reflexivity.
  - rewrite !(id_or_default_given _ sqlItem id) by assumption.
    cbn [run result final trace rest after app fst snd].
    destruct stop; reflexivity.
Qed.

Lemma query_ok_keeps_active (t d : Z) (s : State) :
  isConnectionActive s = true ->
  isConnectionActive (updateActivityTime (on_stats (stats_query_ok t d) (set_now t s))) = true.
Proof. intros Ha. rewrite updateActivityTime_active. exact Ha. Qed.

Lemma query_ok_keeps_pool (t d : Z) (s : State) :
  connectionPool (updateActivityTime (on_stats (stats_query_ok t d) (set_now t s)))
    = connectionPool s.
Proof. rewrite updateActivityTime_pool. reflexivity. Qed.

(** With ids on the first two items the loop does what is specified:
    the first item succeeds, the second fails and is recorded, the third
    is never sent, and the batch completes with the two entries. *)
Lemma serial_stop_on_error_with_ids (a b c : SqlItem) (ida idb : string)
    (r1 r2 : Reply) (w : list Reply) (s : State) (v : DrvResult) (e : Err) :
  isConnectionActive s = true ->
  item_id a = Some ida -> str_truthy ida = true ->
  item_id b = Some idb -> str_truthy idb = true ->
  outcome r1 = Resolved v ->
  outcome r2 = Rejected e ->
  let r := batch_execute_sql (MkBatchParams [a; b; c] true false) (r1 :: r2 :: w) s in
  exists summary,
    result r = Return (BatchCompleted summary) /\
    b_results summary =
      [item_succeeded 1 ida a (query_result v (at_time r1 - now s));
       item_failed 2 idb b e] /\
    b_successCount summary = 1 /\
    b_errorCount summary = 1 /\
    queries_sent (trace r) = 2%nat /\
    rest r = w.
Proof.
  intros Ha Hia Hta Hib Htb Ho1 Ho2 r. subst r.
  destruct (isConnectionActive_pool s Ha) as [h Hp].
  unfold batch_execute_sql. cbn [parallel]. unfold batch_serial. unfold_async.
  cbn [sqlList stopOnError].
  rewrite run_catchS, run_bindS, (batch_prologue_active s Ha).
  cbn [run result final trace rest after app].
  rewrite run_bindS.
  rewrite (run_serial_loop_with_id a [b; c] 0 true [] _ s h ida Hia Hta Ha Hp).
  cbn [next_reply fst snd]. rewrite Ho1.
  set (s1 := updateActivityTime _).
  assert (Ha1 : isConnectionActive s1 = true) by (apply query_ok_keeps_active; exact Ha).
  assert (Hp1 : connectionPool s1 = Some h) by (subst s1; rewrite query_ok_keeps_pool; exact Hp).
  rewrite (run_serial_loop_with_id b [c] (0 + 1) true _ _ s1 h idb Hib Htb Ha1 Hp1).
  cbn [next_reply fst snd]. rewrite Ho2.
  cbn [result final trace rest after app run].
  eexists. split; [reflexivity|]. cbn. splits.
Qed.

(** C5, on the code: when the failing second item carries no id, the
    [catch] block that should record the failure reads the unbound
    [index]: instead of the partial result with two entries the handler
    answers with the batch failure "index is not defined"; the third item
    is not sent. *)
Theorem C5_stop_on_error_without_id_fails (a b c : SqlItem) (ida : string)
    (r1 r2 : Reply) (w : list Reply) (s : State) (v : DrvResult) (e : Err) :
  isConnectionActive s = true ->
  item_id a = Some ida -> str_truthy ida = true ->
  item_id b = None ->
  outcome r1 = Resolved v ->
  outcome r2 = Rejected e ->
  let r := batch_execute_sql (MkBatchParams [a; b; c] true false) (r1 :: r2 :: w) s in
  result r = Return (BatchFailed "index is not defined") /\
  queries_sent (trace r) = 2%nat.
Proof.
  intros Ha Hia Hta Hib Ho1 Ho2 r. subst r.
  destruct (isConnectionActive_pool s Ha) as [h Hp].
  unfold batch_execute_sql. cbn [parallel]. unfold batch_serial. unfold_async.
  cbn [sqlList stopOnError].
  rewrite run_catchS, run_bindS, (batch_prologue_active s Ha).
  cbn [run result final trace rest after app].
  rewrite run_bindS.
  rewrite (run_serial_loop_with_id a [b; c] 0 true [] _ s h ida Hia Hta Ha Hp).
  cbn [next_reply fst snd]. rewrite Ho1.
  set (s1 := updateActivityTime _).
  assert (Ha1 : isConnectionActive s1 = true) by (apply query_ok_keeps_active; exact Ha).
  assert (Hp1 : connectionPool s1 = Some h) by (subst s1; rewrite query_ok_keeps_pool; exact Hp).
  rewrite (serial_loop_without_id b [c] (0 + 1) true _ _ s1 Hib).
  rewrite (run_executeQuery_active _ _ _ s1 h Ha1 Hp1).
  cbn [next_reply fst snd]. rewrite Ho2.
  cbn [result final trace rest after app run]. split; reflexivity.
Qed.

Lemma C5_witness :
  let r := batch_execute_sql
             (MkBatchParams [with_id "first" "INSERT INTO t VALUES (1)";
                             no_id "INSERT INTO missing VALUES (2)";
                             no_id "INSERT INTO t VALUES (3)"] true false)
             [resolves 0 7000; rejects 0 7100 "Invalid object name 'missing'"]
             connected_state in
  result r = Return (BatchFailed "index is not defined") /\
  queries_sent (trace r) = 2%nat.
Proof.
  apply (C5_stop_on_error_without_id_fails
           (with_id "first" "INSERT INTO t VALUES (1)")
           (no_id "INSERT INTO missing VALUES (2)")
           (no_id "INSERT INTO t VALUES (3)") "first"
           (resolves 0 7000) (rejects 0 7100 "Invalid object name 'missing'") []
           connected_state one_row (MkErr "RequestError" "Invalid object name 'missing'"));
    reflexivity.
Defined.

(** ** The statistics (C9) *)

Lemma stats_step_refl (st : Stats) : stats_step st st.
Proof. unfold stats_step, stats_le. split; [auto|lia]. Qed.

Lemma stats_step_trans (x y z : Stats) :
  stats_step x y -> stats_step y z -> stats_step x z.
Proof. unfold stats_step, stats_le. intros [H1 L1] [H2 L2]. split; [auto|lia]. Qed.

Lemma stats_step_connect_ok (t : Z) (st : Stats) : stats_step st (stats_connect_ok t st).
Proof. unfold stats_step, stats_consistent, stats_le. cbn. lia. Qed.

Lemma stats_step_connect_failed (st : Stats) : stats_step st (stats_connect_failed st).
Proof. unfold stats_step, stats_consistent, stats_le. cbn. lia. Qed.

Lemma stats_step_query_ok (t d : Z) (st : Stats) : stats_step st (stats_query_ok t d st).
Proof. unfold stats_step, stats_consistent, stats_le. cbn. lia. Qed.

Lemma stats_step_query_failed (st : Stats) : stats_step st (stats_query_failed st).
Proof. unfold stats_step, stats_consistent, stats_le. cbn. lia. Qed.

Lemma startHeartbeat_stats (s : State) :
  connectionStats (startHeartbeat s) = connectionStats s.
Proof. unfold startHeartbeat. cbn. destruct (heartbeatTimer s); reflexivity. Qed.

Lemma startAutoDisconnectTimer_stats (s : State) :
  connectionStats (startAutoDisconnectTimer s) = connectionStats s.
Proof. unfold startAutoDisconnectTimer. cbn. destruct (autoDisconnectTimer s); reflexivity. Qed.

Lemma drv_issue_stats (op : Op) (s : State) :
  connectionStats (drv_issue op s) = connectionStats s.
Proof. destruct op; reflexivity. Qed.

Lemma session_opened_stats (config : Config) (s : State) :
  connectionStats (session_opened config s) = stats_connect_ok (now s) (connectionStats s).
Proof.
  unfold session_opened. rewrite startHeartbeat_stats, updateActivityTime_stats. reflexivity.
Qed.

Section Respects.
Context {A : Type}.
Variable R : Stats -> Stats -> Prop.
Hypothesis R_refl : forall x, R x x.
Hypothesis R_trans : forall x y z, R x y -> R y z -> R x z.

(** A stretch can be entered from earlier statistics. *)
Lemma respects_from (s0 s1 : State) (t : Step A) :
  R (connectionStats s0) (connectionStats s1) ->
  respects R s1 t -> respects R s0 t.
Proof.
  intros H01. destruct t as [r s|op s k]; cbn.
  - intros H. eapply R_trans; eassumption.
  - intros [H Hk]. split; [eapply R_trans; eassumption|exact Hk].
Qed.

Lemma respects_same (s0 s1 : State) (t : Step A) :
  connectionStats s0 = connectionStats s1 ->
  respects R s1 t -> respects R s0 t.
Proof. intros E. apply respects_from. rewrite E. apply R_refl. Qed.

Lemma respects_catchS (s0 : State) (m : Step A) (h : Err -> State -> Step A) :
  respects R s0 m ->
  (forall e s, respects R s (h e s)) ->
  respects R s0 (catchS m h).
Proof.
  intros Hm Hh. revert s0 Hm.
  induction m as [[a|e] s|op s k IH]; intros s0 Hm; cbn in *.
  - exact Hm.
  - eapply respects_from; [exact Hm|apply Hh].
  - destruct Hm as [H0 Hk]. split; [exact H0|].
    intros o s'. apply IH, Hk.
Qed.

(** Running a function alone takes the statistics along [R]. *)
Lemma run_respects (w : list Reply) (s0 : State) (t : Step A) :
  respects R s0 t ->
  R (connectionStats s0) (connectionStats (final (run w t))).
Proof.
  revert w s0. induction t as [r s|op s k IH]; intros w s0 Ht; cbn in *.
  - exact Ht.
  - destruct Ht as [H0 Hk]. eapply R_trans; [exact H0|].
    set (rw := next_reply w op s).
    apply (IH (outcome (fst rw)) (set_now (at_time (fst rw)) s) (snd rw)
              (set_now (at_time (fst rw)) s)), Hk.
Qed.
End Respects.

Lemma respects_bindS {A B : Type} (R : Stats -> Stats -> Prop)
    (R_trans : forall x y z, R x y -> R y z -> R x z)
    (s0 : State) (m : Step A) (f : A -> State -> Step B) :
  respects R s0 m ->
  (forall a s, respects R s (f a s)) ->
  respects R s0 (bindS m f).
Proof.
  intros Hm Hf. revert s0 Hm.
  induction m as [[a|e] s|op s k IH]; intros s0 Hm; cbn in *.
  - eapply respects_from; [exact R_trans|exact Hm|apply Hf].
  - exact Hm.
  - destruct Hm as [H0 Hk]. split; [exact H0|].
    intros o s'. apply IH, Hk.
Qed.

Lemma respects_await (R : Stats -> Stats -> Prop) (R_refl : forall x, R x x)
    (op : Op) (s0 s : State) :
  R (connectionStats s0) (connectionStats s) ->
  respects R s0 (await op s).
Proof.
  intros H0. unfold await. cbn. rewrite drv_issue_stats. split; [exact H0|].
  intros o s'. destruct o; cbn; rewrite drv_settle_stats; apply R_refl.
Qed.

(** Comparing the statistics at the two ends of a stretch. *)
Ltac stats_done :=
  cbn [respects];
  repeat first
    [ rewrite on_stats_stats | rewrite updateActivityTime_stats
    | rewrite startHeartbeat_stats | rewrite startAutoDisconnectTimer_stats
    | rewrite forget_session_stats | rewrite drv_settle_stats
    | rewrite drv_issue_stats ];
  cbn [connectionStats set_connectionPool set_lastActivityTime set_connectionConfig
       set_autoDisconnectTimer set_heartbeatTimer set_heap set_timeouts
       set_intervals set_nextTimer set_now];
  first
    [ apply stats_step_refl | apply stats_step_connect_ok
    | apply stats_step_connect_failed | apply stats_step_query_ok
    | apply stats_step_query_failed ].

Ltac respects_step :=
  first
    [ apply (respects_bindS stats_step stats_step_trans); [|intros ? ?]
    | apply (respects_catchS stats_step stats_step_trans); [|intros ? ?]
    | apply (respects_await stats_step stats_step_refl); stats_done
    | stats_done ].

Lemma disconnectDatabase_respects (s : State) :
  respects stats_step s (disconnectDatabase s).
Proof.
  unfold disconnectDatabase. unfold_async. cbn.
  destruct (connectionPool s); repeat respects_step.
Qed.

Lemma connectDatabase_respects (config : Config) (s : State) :
  respects stats_step s (connectDatabase config s).
Proof.
  rewrite connectDatabase_parts.
  apply (respects_catchS stats_step stats_step_trans).
  - apply (respects_bindS stats_step stats_step_trans).
    + unfold close_previous. unfold_async. cbn.
      destruct (connectionPool s); [|stats_done].
      apply (respects_bindS stats_step stats_step_trans);
        [apply disconnectDatabase_respects|intros; stats_done].
    + intros _ s1. unfold open_pool, new_ConnectionPool. unfold_async. cbn.
      repeat respects_step.
  - intros e s1. unfold count_failed_connection. unfold_async. cbn. stats_done.
Qed.

Lemma reconnectIfNeeded_respects (s : State) :
  respects stats_step s (reconnectIfNeeded s).
Proof.
  unfold reconnectIfNeeded. unfold_async. cbn.
  destruct (isConnectionActive s); [stats_done|].
  destruct (connectionConfig s) as [config|]; [|stats_done].
  apply (respects_catchS stats_step stats_step_trans); [|intros; stats_done].
  apply (respects_bindS stats_step stats_step_trans);
    [apply connectDatabase_respects|intros; stats_done].
Qed.

Lemma executeQuery_respects (sqlText : string) (params : list Param) (s : State) :
  respects stats_step s (executeQuery sqlText params s).
Proof.
  unfold executeQuery. unfold_async.
  apply (respects_bindS stats_step stats_step_trans);
    [apply reconnectIfNeeded_respects|].
  intros ok s1. destruct ok; cbn; [|stats_done].
  apply (respects_catchS stats_step stats_step_trans); [|intros; stats_done].
  unfold pool_request. unfold_async. cbn.
  destruct (connectionPool s1); cbn; [|stats_done].
  repeat respects_step.
Qed.

Lemma autoDisconnect_callback_respects (s : State) :
  respects stats_step s (autoDisconnect_callback s).
Proof.
  unfold autoDisconnect_callback. unfold_async. cbn.
  destruct (connectionPool s); [|stats_done].
  destruct (time_truthy (lastActivityTime s)); [|stats_done].
  destruct (300000 <=? _); [|stats_done].
  apply (respects_bindS stats_step stats_step_trans);
    [apply disconnectDatabase_respects|intros; stats_done].
Qed.

Lemma heartbeat_callback_respects (s : State) :
  respects stats_step s (heartbeat_callback s).
Proof.
  unfold heartbeat_callback. unfold_async. cbn.
  destruct (isConnectionActive s); [|stats_done].
  apply (respects_catchS stats_step stats_step_trans); [|intros; stats_done].
  unfold pool_request. unfold_async. cbn.
  destruct (connectionPool s); cbn; [|stats_done].
  repeat respects_step.
Qed.

Lemma connect_database_respects (params : Config) (s : State) :
  respects stats_step s (connect_database params s).
Proof.
  unfold connect_database. unfold_async.
  apply (respects_catchS stats_step stats_step_trans); [|intros; stats_done].
  apply (respects_bindS stats_step stats_step_trans);
    [apply connectDatabase_respects|intros; stats_done].
Qed.

Lemma execute_sql_respects (sqlText : string) (params : list Param) (s : State) :
  respects stats_step s (execute_sql sqlText params s).
Proof.
  unfold execute_sql. unfold_async.
  apply (respects_catchS stats_step stats_step_trans); [|intros; stats_done].
  apply (respects_bindS stats_step stats_step_trans);
    [apply executeQuery_respects|intros; stats_done].
Qed.

Lemma disconnect_database_respects (s : State) :
  respects stats_step s (disconnect_database s).
Proof.
  unfold disconnect_database. unfold_async.
  apply (respects_catchS stats_step stats_step_trans); [|intros; stats_done].
  apply (respects_bindS stats_step stats_step_trans);
    [apply disconnectDatabase_respects|].
  intros d s1. cbn. destruct d; stats_done.
Qed.

Lemma get_connection_status_respects (s : State) :
  respects stats_step s (get_connection_status s).
Proof.
  unfold get_connection_status. unfold_async. cbn.
  destruct (connectionPool s) as [h|]; [|stats_done].
  destruct (heap s !! h) as [p|]; [|stats_done].
  destruct (connected p); [|stats_done].
  destruct (connectionConfig s); stats_done.
Qed.

Lemma id_or_default_respects (scope : list (string * Z)) (sqlItem : SqlItem) (s : State) :
  respects stats_step s (id_or_default scope sqlItem s).
Proof.
  unfold id_or_default, resolve. unfold_async.
  destruct (item_id sqlItem) as [id|]; [destruct (str_truthy id); [stats_done|]|];
    destruct (List.find _ scope); cbn; stats_done.
Qed.

Lemma parallel_callback_respects (sqlItem : SqlItem) (index : Z) (s : State) :
  respects stats_step s (parallel_callback sqlItem index s).
Proof.
  unfold parallel_callback. unfold_async.
  apply (respects_catchS stats_step stats_step_trans).
  - apply (respects_bindS stats_step stats_step_trans);
      [apply executeQuery_respects|intros r s1].
    apply (respects_bindS stats_step stats_step_trans);
      [apply id_or_default_respects|intros; stats_done].
  - intros e s1.
    apply (respects_bindS stats_step stats_step_trans);
      [apply id_or_default_respects|intros; stats_done].
Qed.

Lemma serial_loop_respects (items : list SqlItem) (i : Z) (stop : bool)
    (results : list BatchItemResult) (s : State) :
  respects stats_step s (serial_loop items i stop results s).
Proof.
  revert i results s. induction items as [|sqlItem items IH]; intros i results s.
  - cbn. stats_done.
  - cbn [serial_loop]. unfold_async.
    apply (respects_bindS stats_step stats_step_trans).
    + apply (respects_catchS stats_step stats_step_trans).
      * apply (respects_bindS stats_step stats_step_trans);
          [apply executeQuery_respects|intros r s1].
        apply (respects_bindS stats_step stats_step_trans);
          [apply id_or_default_respects|intros; stats_done].
      * intros e s1.
        apply (respects_bindS stats_step stats_step_trans);
          [apply id_or_default_respects|intros; stats_done].
    + intros [res brk] s1. cbn [fst snd]. destruct brk; [stats_done|apply IH].
Qed.

Lemma batch_prologue_respects (s : State) :
  respects stats_step s (batch_prologue s).
Proof.
  unfold batch_prologue. unfold_async.
  apply (respects_bindS stats_step stats_step_trans);
    [apply reconnectIfNeeded_respects|].
  intros ok s1. destruct ok; cbn; stats_done.
Qed.

Lemma batch_serial_respects (params : BatchParams) (s : State) :
  respects stats_step s (batch_serial params s).
Proof.
  unfold batch_serial. unfold_async.
  apply (respects_catchS stats_step stats_step_trans); [|intros; stats_done].
  apply (respects_bindS stats_step stats_step_trans);
    [apply batch_prologue_respects|intros t0 s1].
  apply (respects_bindS stats_step stats_step_trans);
    [apply serial_loop_respects|intros; stats_done].
Qed.

Section PoolRespects.
Context {A : Type}.
Variable R : Stats -> Stats -> Prop.
Hypothesis R_refl : forall x, R x x.
Hypothesis R_trans : forall x y z, R x y -> R y z -> R x z.

Lemma respects_resumable (s0 : State) (t : Step A) :
  respects R s0 t -> resumable R t.
Proof. destruct t; cbn; [auto|intros [_ H]; exact H]. Qed.

Lemma respects_state_of (s0 : State) (t : Step A) :
  respects R s0 t -> R (connectionStats s0) (connectionStats (state_of t)).
Proof. destruct t; cbn; [auto|intros [H _]; exact H]. Qed.

Lemma resume_respects (t : Step A) (o : Outcome) (cur : State) :
  resumable R t ->
  resumable R (resume t o cur) /\
  (match t with
   | Await _ _ _ => R (connectionStats cur) (connectionStats (state_of (resume t o cur)))
   | Done _ _ => True
   end).
Proof.
  destruct t as [r s|op s k]; cbn; [auto|].
  intros Hk. split.
  - eapply respects_resumable, Hk.
  - apply respects_state_of, Hk.
Qed.

Lemma spawn_all_respects (fs : list (Async A)) (s : State) :
  Forall (fun f => forall s, respects R s (f s)) fs ->
  Forall (resumable R) (spawn_all fs s).1.1 /\
  R (connectionStats s) (connectionStats (spawn_all fs s).1.2).
Proof.
  intros Hfs. revert s. induction Hfs as [|f fs Hf _ IH]; intros s; cbn.
  - split; [constructor|apply R_refl].
  - specialize (IH (state_of (f s))).
    destruct (spawn_all fs (state_of (f s))) as [[ts s'] tr]. cbn in *.
    destruct IH as [IH1 IH2]. split.
    + constructor; [eapply respects_resumable, Hf|exact IH1].
    + eapply R_trans; [apply respects_state_of, Hf|exact IH2].
Qed.

Lemma drain_respects (ts : list (Step A)) (cur : State) :
  Forall (resumable R) ts ->
  R (connectionStats cur) (connectionStats (drain ts cur).1.2).
Proof.
  intros Hts. revert cur. induction Hts as [|t ts Ht _ IH]; intros cur; cbn.
  - apply R_refl.
  - destruct t as [r s|op s k].
    + specialize (IH cur). destruct (drain ts cur) as [[ts' s'] tr]. exact IH.
    + set (r := run [] (k (timeout_outcome op) cur)).
      specialize (IH (final r)). destruct (drain ts (final r)) as [[ts' s'] tr].
      cbn in *. eapply R_trans; [|exact IH].
      apply (run_respects R R_trans), Ht.
Qed.

Lemma first_pending_pending (ts : list (Step A)) (j : nat) :
  first_pending ts = Some j -> exists op s k, ts !! j = Some (Await op s k).
Proof.
  revert j. induction ts as [|t ts IH]; intros j; cbn; [discriminate|].
  destruct t as [c s|op s k].
  - destruct (first_pending ts) as [j'|]; [|discriminate].
    intros [= <-]. apply IH. reflexivity.
  - intros [= <-]. eauto.
Qed.

(** A reply only ever resumes a suspended function. *)
Lemma choose_pending (i : nat) (ts : list (Step A)) (j : nat) :
  choose i ts = Some j -> exists op s k, ts !! j = Some (Await op s k).
Proof.
  unfold choose. destruct (ts !! i) as [[c s|op s k]|] eqn:Hi.
  - apply first_pending_pending.
  - intros [= <-]. eauto.
  - apply first_pending_pending.
Qed.

Lemma run_pool_respects (w : list Reply) (ts : list (Step A)) (cur : State) :
  Forall (resumable R) ts ->
  R (connectionStats cur) (connectionStats (run_pool w ts cur).1.1.2).
Proof.
  revert ts cur. induction w as [|r w IH]; intros ts cur Hts; cbn.
  - pose proof (drain_respects ts cur Hts) as H.
    destruct (drain ts cur) as [[ts' s'] tr]. exact H.
  - destruct (choose (pick r) ts) as [i|] eqn:Hc; [|apply R_refl].
    destruct (choose_pending _ _ _ Hc) as (op & s & k & Hi). rewrite Hi.
    set (t := Await op s k) in *.
    assert (Ht : resumable R t).
    { eapply Forall_lookup_1; eassumption. }
    set (t' := resume t (outcome r) (set_now (at_time r) cur)).
    destruct (resume_respects t (outcome r) (set_now (at_time r) cur) Ht) as [Hr Hs].
    fold t' in Hr, Hs.
    assert (Hts' : Forall (resumable R) (<[i:=t']> ts)).
    { apply Forall_insert; assumption. }
    specialize (IH (<[i:=t']> ts) (state_of t') Hts').
    destruct (run_pool w (<[i:=t']> ts) (state_of t')) as [[[ts'' s''] tr] w''].
    cbn in *. eapply R_trans; [|exact IH]. exact Hs.
Qed.
End PoolRespects.

Lemma imap_respects {X A : Type} (R : Stats -> Stats -> Prop)
    (g : nat -> X -> Async A) (l : list X) :
  (forall i x s, respects R s (g i x s)) ->
  Forall (fun f => forall s, respects R s (f s)) (imap g l).
Proof.
  revert g. induction l as [|x l IH]; intros g Hg; cbn.
  - constructor.
  - constructor; [apply Hg|]. apply IH. intros i y s. apply Hg.
Qed.

Lemma batch_execute_sql_respects (params : BatchParams) (w : list Reply) (s : State) :
  stats_step (connectionStats s) (connectionStats (final (batch_execute_sql params w s))).
Proof.
  unfold batch_execute_sql. destruct (parallel params).
  - pose proof (run_respects stats_step stats_step_trans w s _ (batch_prologue_respects s))
      as H0.
    set (r0 := run w (batch_prologue s)) in *.
    destruct (result r0) as [startTime|e]; [|exact H0].
    set (fs := imap _ (sqlList params)).
    assert (Hfs : Forall (fun f => forall s, respects stats_step s (f s)) fs).
    { apply imap_respects. intros i x s1. apply parallel_callback_respects. }
    destruct (spawn_all_respects stats_step stats_step_refl stats_step_trans fs (final r0) Hfs)
      as [H1 H2].
    destruct (spawn_all fs (final r0)) as [[ts s1] tr1]. cbn in H1, H2.
    pose proof (run_pool_respects stats_step stats_step_refl stats_step_trans
                  (rest r0) ts s1 H1) as H3.
    destruct (run_pool (rest r0) ts s1) as [[[ts' s2] tr2] w']. cbn in H3.
    assert (H : stats_step (connectionStats s) (connectionStats s2)).
    { eapply stats_step_trans; [exact H0|]. eapply stats_step_trans; eassumption. }
    destruct (collect ts'); exact H.
  - apply (run_respects stats_step stats_step_trans), batch_serial_respects.
Qed.

Lemma perform_respects (e : Event) (s : State) :
  stats_step (connectionStats s) (connectionStats (perform e s)).
Proof.
  unfold perform.
  change (connectionStats s) with (connectionStats (set_now (ev_time e) s)).
  set (s0 := set_now (ev_time e) s).
  destruct (ev_op e).
  - apply (run_respects stats_step stats_step_trans), connect_database_respects.
  - apply (run_respects stats_step stats_step_trans), execute_sql_respects.
  - apply (run_respects stats_step stats_step_trans), disconnect_database_respects.
  - apply batch_execute_sql_respects.
  - apply (run_respects stats_step stats_step_trans), get_connection_status_respects.
  - unfold fire_timeout. destruct (List.find _ _); [|apply stats_step_refl].
    eapply stats_step_trans;
      [|apply (run_respects stats_step stats_step_trans), autoDisconnect_callback_respects].
    apply stats_step_refl.
  - unfold fire_interval. destruct (existsb _ _); [|apply stats_step_refl].
    apply (run_respects stats_step stats_step_trans), heartbeat_callback_respects.
  - apply stats_step_refl.
Qed.

Lemma perform_all_respects (es : list Event) (s : State) :
  stats_step (connectionStats s) (connectionStats (perform_all es s)).
Proof.
  revert s. induction es as [|e es IH]; intros s; cbn.
  - apply stats_step_refl.
  - eapply stats_step_trans; [apply perform_respects|apply IH].
Qed.

Lemma init_stats_consistent : stats_consistent init_stats.
Proof. split; reflexivity. Qed.

(** C9: whatever has happened to the server since it started (tool
    calls, timers firing, lost connections, with any replies of the
    driver), the two sums of the statistics hold, they still hold after
    the next operation, and that operation lowers no counter. *)
Theorem C9_statistics_consistent_and_monotone (es : list Event) (e : Event) :
  let s := perform_all es init_state in
  stats_consistent (connectionStats s) /\
  stats_consistent (connectionStats (perform e s)) /\
  stats_le (connectionStats s) (connectionStats (perform e s)).
Proof.
  cbv zeta.
  destruct (perform_all_respects es init_state) as [Hc _].
  specialize (Hc init_stats_consistent).
  destruct (perform_respects e (perform_all es init_state)) as [Hc' Hle].
  auto.
Qed.

(** ** Racing reconnects (C4) *)

Lemma startHeartbeat_pool (s : State) :
  connectionPool (startHeartbeat s) = connectionPool s.
Proof. unfold startHeartbeat. cbn. destruct (heartbeatTimer s); reflexivity. Qed.

Lemma holds_pool_Some (s : State) : holds_pool s -> exists h, connectionPool s = Some h.
Proof.
  unfold holds_pool. destruct (connectionPool s) as [h|]; [eauto|congruence].
Qed.

(** A caller that finds the session not active with a configuration
    retained goes through close, open and query on its own, whatever
    state it is resumed in. *)
Lemma executeQuery_reconnects_alone (sqlText : string) (params : list Param)
    (s : State) (h0 : nat) (config : Config) :
  connectionPool s = Some h0 ->
  isConnectionActive s = false ->
  connectionConfig s = Some config ->
  state_of (executeQuery sqlText params s) = s /\
  issued (executeQuery sqlText params s) = [OpClose h0] /\
  awaits_close (executeQuery sqlText params s).
Proof.
  intros Hp Ha Hc.
  unfold executeQuery, reconnectIfNeeded. unfold_async. cbn.
  rewrite Ha, Hc. cbn. unfold connectDatabase. unfold_async. cbn. rewrite Hp.
  unfold disconnectDatabase. unfold_async. cbn. rewrite Hp. unfold await. cbn.
  split; [reflexivity|]. split; [reflexivity|].
  split; [exact I|]. intros v tm cur Hcur. cbn.
  split; [|split; [unfold holds_pool; cbn; discriminate|split; [|reflexivity]]].
  2:{ unfold conn_total. unfold alter_pool. cbn. rewrite forget_session_stats. cbn. lia. }
  split; [exact I|]. intros v' tm' cur' Hcur'. cbn.
  destruct (holds_pool_Some cur' Hcur') as [h Hh].
  set (s1 := startHeartbeat _).
  assert (Hp1 : connectionPool s1 = Some h).
  { subst s1. rewrite startHeartbeat_pool, updateActivityTime_pool. exact Hh. }
  assert (Hm1 : conn_total s1 = conn_total cur' + 1).
  { subst s1. unfold conn_total.
    rewrite startHeartbeat_stats, updateActivityTime_stats. reflexivity. }
  unfold pool_request. unfold_async. cbn. rewrite Hp1. cbn.
  split; [|split; [unfold holds_pool; rewrite Hp1; discriminate|split; [exact Hm1|reflexivity]]].
  split; [exact I|]. split.
  - intros o s'. destruct o as [v''|e]; cbn.
    + unfold conn_same. rewrite updateActivityTime_stats, on_stats_stats. reflexivity.
    + unfold conn_same. rewrite on_stats_stats. reflexivity.
  - intros o s'. destruct o; exact I.
Qed.

Lemma pool_opens_app (a b : list Op) :
  pool_opens (a ++ b)%list = (pool_opens a + pool_opens b)%nat.
Proof. unfold pool_opens. rewrite List.filter_app, length_app. reflexivity. Qed.

Section Rounds.
Context {A : Type}.

Lemma with_trace_nil (x : list (Step A) * State * list Op * list Reply) :
  with_trace [] x = x.
Proof. destruct x as [[[ts s] tr] w]. reflexivity. Qed.

Lemma with_trace_app (a b : list Op) (x : list (Step A) * State * list Op * list Reply) :
  with_trace a (with_trace b x) = with_trace (a ++ b)%list x.
Proof. destruct x as [[[ts s] tr] w]. cbn. rewrite app_assoc. reflexivity. Qed.

(** One round of a first-come-first-served driver: every function of
    [post], all at the same point of their course, is resumed once. *)
Lemma run_pool_fifo_round (P' : Step A -> Prop) (dm : Z) (dopen : nat) (t : Z)
    (v : DrvResult) (post : list (Step A)) :
  forall (pre : list (Step A)) (cur : State) (w : list Reply),
  Forall (advances P' dm dopen) post ->
  holds_pool cur ->
  exists post' cur' tr,
    run_pool (fifo_round (length pre) (length post) t v ++ w) (pre ++ post) cur
      = with_trace tr (run_pool w (pre ++ post') cur') /\
    Forall P' post' /\
    length post' = length post /\
    holds_pool cur' /\
    conn_total cur' = conn_total cur + Z.of_nat (length post) * dm /\
    pool_opens tr = (length post * dopen)%nat.
Proof.
  induction post as [|t0 post IH]; intros pre cur w Hpost Hcur.
  - exists [], cur, []. cbn [length fifo_round seq map app].
    rewrite with_trace_nil. repeat split; auto. lia.
  - inversion Hpost as [|? ? [Hsus Hadv] Hpost']; subst.
    destruct t0 as [c s0|op s0 k]; [destruct Hsus|].
    specialize (Hadv v t cur Hcur). cbn zeta in Hadv. cbn [resume] in Hadv.
    destruct Hadv as (HP' & Hpool & Hm & Hopen).
    set (t' := k (Resolved v) (set_now t cur)) in *.
    destruct (IH (pre ++ [t'])%list (state_of t') w Hpost' Hpool)
      as (post' & cur' & tr & Hrun & HF & Hlen & Hcur' & Hm' & Hopen').
    exists (t' :: post'), cur', (issued t' ++ tr)%list.
    split; [|repeat split].
    + cbn [length fifo_round seq map app run_pool pick outcome at_time].
      unfold choose. rewrite list_lookup_middle by reflexivity.
      rewrite list_lookup_middle by reflexivity. cbn [resume]. fold t'.
      rewrite insert_app_r_alt by lia. rewrite Nat.sub_diag. cbn [insert list_insert].
      rewrite length_app in Hrun. cbn [length] in Hrun.
      rewrite Nat.add_1_r in Hrun. unfold fifo_round in Hrun.
      rewrite <- !app_assoc in Hrun. cbn [app] in Hrun.
      rewrite Hrun.
      change (with_trace (issued t') (with_trace tr (run_pool w (pre ++ t' :: post')%list cur'))
              = with_trace (issued t' ++ tr) (run_pool w (pre ++ t' :: post')%list cur')).
      apply with_trace_app.
    + constructor; assumption.
    + cbn [length]. rewrite Hlen. reflexivity.
    + exact Hcur'.
    + rewrite Hm', Hm. cbn [length]. lia.
    + rewrite pool_opens_app, Hopen', Hopen. cbn [length]. lia.
Qed.

Lemma pool_opens_cons (op : Op) (tr : list Op) :
  pool_opens (op :: tr) = (pool_opens [op] + pool_opens tr)%nat.
Proof. apply (pool_opens_app [op] tr). Qed.

Lemma run_quiet (w : list Reply) (t : Step A) :
  quiet t -> pool_opens (trace (run w t)) = 0%nat.
Proof.
  revert w. induction t as [r s|op s k IH]; intros w Ht; [reflexivity|].
  destruct Ht as [Hop Hk]. cbn [run trace].
  rewrite pool_opens_cons, Hop, IH by apply Hk. reflexivity.
Qed.

Lemma quiet_issued (t : Step A) : quiet t -> pool_opens (issued t) = 0%nat.
Proof. destruct t; cbn; [reflexivity|intros [H _]; exact H]. Qed.

Lemma quiet_quiet_after (t : Step A) : quiet t -> quiet_after t.
Proof. destruct t; cbn; [auto|intros [_ H]; exact H]. Qed.

Lemma drain_quiet (ts : list (Step A)) (cur : State) :
  Forall quiet_after ts -> pool_opens (drain ts cur).2 = 0%nat.
Proof.
  intros H. revert cur. induction H as [|t ts Ht _ IH]; intros cur; cbn [drain];
    [reflexivity|].
  destruct t as [r s|op s k].
  - specialize (IH cur). destruct (drain ts cur) as [[ts' s'] tr]. exact IH.
  - set (r := run [] (k (timeout_outcome op) cur)).
    specialize (IH (final r)). destruct (drain ts (final r)) as [[ts' s'] tr].
    cbn [fst snd] in *. rewrite pool_opens_app, IH. subst r.
    rewrite run_quiet by apply Ht. reflexivity.
Qed.

(** Functions that open no pool once resumed open none under any
    schedule. *)
Lemma run_pool_quiet (w : list Reply) (ts : list (Step A)) (cur : State) :
  Forall quiet_after ts -> pool_opens (run_pool w ts cur).1.2 = 0%nat.
Proof.
  revert ts cur. induction w as [|r w IH]; intros ts cur H; cbn [run_pool].
  - pose proof (drain_quiet ts cur H) as Hd.
    destruct (drain ts cur) as [[ts' s'] tr]. exact Hd.
  - destruct (choose (pick r) ts) as [i|]; [|reflexivity].
    destruct (ts !! i) as [t|] eqn:Hi; [|reflexivity].
    assert (Ht : quiet_after t) by (eapply Forall_lookup_1; eassumption).
    set (t' := resume t (outcome r) (set_now (at_time r) cur)).
    assert (Hq : quiet t').
    { subst t'. destruct t as [c s|op s k]; cbn [resume quiet]; [exact I|apply Ht]. }
    assert (H' : Forall quiet_after (<[i:=t']> ts)).
    { apply Forall_insert; [exact H|apply quiet_quiet_after, Hq]. }
    specialize (IH (<[i:=t']> ts) (state_of t') H').
    destruct (run_pool w (<[i:=t']> ts) (state_of t')) as [[[ts'' s''] tr] w''].
    cbn [fst snd] in *. rewrite pool_opens_app, IH, (quiet_issued t' Hq). reflexivity.
Qed.

Lemma drain_finishes (ts : list (Step A)) (cur : State) :
  Forall finished (drain ts cur).1.1.
Proof.
  revert cur. induction ts as [|t ts IH]; intros cur; cbn; [constructor|].
  destruct t as [r s|op s k].
  - specialize (IH cur). destruct (drain ts cur) as [[ts' s'] tr].
    constructor; [exact I|exact IH].
  - set (r := run [] (k (timeout_outcome op) cur)).
    specialize (IH (final r)). destruct (drain ts (final r)) as [[ts' s'] tr].
    constructor; [exact I|exact IH].
Qed.

Lemma none_pending_finished (ts : list (Step A)) :
  first_pending ts = None -> Forall finished ts.
Proof.
  induction ts as [|t ts IH]; cbn; [constructor|].
  destruct t as [r s|op s k]; [|discriminate].
  intros H. constructor; [exact I|]. apply IH.
  destruct (first_pending ts); [discriminate|reflexivity].
Qed.

(** The event loop stops only when every function has finished. *)
Lemma run_pool_finishes (w : list Reply) (ts : list (Step A)) (cur : State) :
  Forall finished (run_pool w ts cur).1.1.1.
Proof.
  revert ts cur. induction w as [|r w IH]; intros ts cur; cbn.
  - pose proof (drain_finishes ts cur) as Hd.
    destruct (drain ts cur) as [[ts' s'] tr]. exact Hd.
  - destruct (choose (pick r) ts) as [i|] eqn:Hc.
    + destruct (choose_pending _ _ _ Hc) as (op & s & k & Hk). rewrite Hk.
      specialize (IH (<[i:=resume (Await op s k) (outcome r) (set_now (at_time r) cur)]> ts)
                     (state_of (resume (Await op s k) (outcome r) (set_now (at_time r) cur)))).
      destruct (run_pool w _ _) as [[[ts'' s''] tr] w'']. exact IH.
    + cbn. apply none_pending_finished.
      unfold choose in Hc. destruct (ts !! pick r) as [[c s|op s k]|]; [auto|discriminate|auto].
Qed.

Lemma spawn_all_replicate (f : Async A) (n : nat) (s : State) :
  state_of (f s) = s ->
  exists tr,
    spawn_all (replicate n f) s = (replicate n (f s), s, tr) /\
    pool_opens tr = (n * pool_opens (issued (f s)))%nat.
Proof.
  intros Hs. induction n as [|n [tr [IH Ho]]]; cbn.
  - exists []. split; reflexivity.
  - rewrite Hs, IH. exists (issued (f s) ++ tr)%list. split; [reflexivity|].
    rewrite pool_opens_app, Ho. reflexivity.
Qed.
End Rounds.

(** C4, counterexample: two callers both find the session of
    [dropped_state] not active with its configuration retained, both
    close the stale pool and both open a pool of their own; two pools are
    opened and [totalConnections] goes from 1 to 3.  (The first caller's
    query runs into the second caller's pool, which is still connecting,
    and is rejected.) *)
Lemma C4_counterexample :
  let out := concurrent_queries 2 "SELECT 1" []
               [resolves 0 6010; resolves 1 6020; resolves 0 6100;
                rejects 0 6101 "Connection is closed."; resolves 1 6110;
                resolves 1 6210]
               (set_now 6000 dropped_state) in
  isConnectionActive dropped_state = false /\
  connectionConfig dropped_state = Some (connect_schema_defaults sample_config) /\
  conn_total dropped_state = 1 /\
  pool_opens out.1.2 = 2%nat /\
  conn_total out.1.1.2 = 3 /\
  ~ (pool_opens out.1.2 = 1%nat /\ conn_total out.1.1.2 = conn_total dropped_state + 1).
Proof.
  vm_compute. repeat split; try reflexivity. intros [H _]. discriminate H.
Qed.

(** C4 (amended): [n] callers that arrive together on a session that is
    not active but retains its configuration are not serialized.  With a
    driver that serves them first come first served and lets every close
    and every open succeed, each caller closes the stale pool and opens a
    pool of its own: whatever happens to the queries afterwards, [n]
    pools have been opened, [totalConnections] has gone up by [n], and
    every caller has finished. *)
Theorem C4_racing_callers_each_open_a_pool (n : nat) (sqlText : string)
    (params : list Param) (s : State) (h0 : nat) (config : Config) (t1 t2 : Z)
    (v : DrvResult) (w' : list Reply) :
  connectionPool s = Some h0 ->
  isConnectionActive s = false ->
  connectionConfig s = Some config ->
  let w := (fifo_round 0 n t1 v ++ fifo_round 0 n t2 v ++ w')%list in
  let out := concurrent_queries n sqlText params w s in
  Forall finished out.1.1.1 /\
  pool_opens out.1.2 = n /\
  conn_total out.1.1.2 = conn_total s + Z.of_nat n.
Proof.
  intros Hp Ha Hc w out. subst out w.
  destruct (executeQuery_reconnects_alone sqlText params s h0 config Hp Ha Hc)
    as (Hs & Hi & Hclose).
  unfold concurrent_queries.
  destruct (spawn_all_replicate (executeQuery sqlText params) n s Hs) as (tr0 & -> & Ho0).
  rewrite Hi in Ho0. cbn in Ho0. rewrite Nat.mul_0_r in Ho0.
  assert (Hpool : holds_pool s) by (unfold holds_pool; rewrite Hp; discriminate).
  set (Q := executeQuery sqlText params s) in *.
  assert (Hlen : length (replicate n Q) = n) by apply length_replicate.
  destruct (run_pool_fifo_round awaits_open 0 1 t1 v (replicate n Q) [] s
              (fifo_round 0 n t2 v ++ w')%list
              (Forall_replicate _ n Q Hclose) Hpool)
    as (ts1 & s1 & tr1 & Hrun1 & HF1 & Hlen1 & Hpool1 & Hm1 & Ho1).
  rewrite Hlen in *. cbn [length app] in Hrun1. rewrite Hrun1.
  destruct (run_pool_fifo_round awaits_query 1 0 t2 v ts1 [] s1 w' HF1 Hpool1)
    as (ts2 & s2 & tr2 & Hrun2 & HF2 & Hlen2 & Hpool2 & Hm2 & Ho2).
  rewrite Hlen1 in *. cbn [length app] in Hrun2. rewrite Hrun2.
  assert (Hres : Forall (resumable conn_same) ts2).
  { eapply Forall_impl; [exact HF2|]. intros t (_ & H & _). exact H. }
  assert (Hq : Forall quiet_after ts2).
  { eapply Forall_impl; [exact HF2|]. intros t (_ & _ & H). exact H. }
  pose proof (run_pool_finishes w' ts2 s2) as Hfin.
  pose proof (run_pool_quiet w' ts2 s2 Hq) as Hquiet.
  assert (Hsame : conn_total s2 = conn_total (run_pool w' ts2 s2).1.1.2).
  { apply (run_pool_respects conn_same); [reflexivity| |exact Hres].
    unfold conn_same. intros; congruence. }
  destruct (run_pool w' ts2 s2) as [[[ts3 s3] tr3] w3].
  cbn [with_trace fst snd] in *.
  split; [exact Hfin|]. split.
  - rewrite !pool_opens_app, Ho0, Ho1, Ho2, Hquiet. cbn. lia.
  - rewrite <- Hsame, Hm2, Hm1. lia.
Qed.

Lemma C4_witness :
  let w := (fifo_round 0 3 6010 one_row ++ fifo_round 0 3 6100 one_row
            ++ [rejects 0 6101 "Connection is closed."])%list in
  let out := concurrent_queries 3 "SELECT 1" [] w (set_now 6000 dropped_state) in
  Forall finished out.1.1.1 /\
  pool_opens out.1.2 = 3%nat /\
  conn_total out.1.1.2 = conn_total (set_now 6000 dropped_state) + 3.
Proof.
  apply (C4_racing_callers_each_open_a_pool 3 "SELECT 1" [] (set_now 6000 dropped_state)
           0%nat (connect_schema_defaults sample_config) 6010 6100 one_row
           [rejects 0 6101 "Connection is closed."]);
    reflexivity.
Defined.

(** ** The parallel branch labels by position *)

Section Completes.
Context {A : Type}.

Lemma completes_weaken (P Q : Completion A -> Prop) (t : Step A) :
  (forall r, P r -> Q r) -> completes P t -> completes Q t.
Proof.
  intros HPQ. induction t as [r s|op s k IH]; cbn; [apply HPQ|].
  intros H o s'. apply IH, H.
Qed.

Lemma completes_any (t : Step A) : completes (fun _ => True) t.
Proof. induction t as [r s|op s k IH]; cbn; auto. Qed.

Lemma completes_catchS (P Q : Completion A -> Prop) (m : Step A)
    (h : Err -> State -> Step A) :
  completes P m ->
  (forall a, P (Return a) -> Q (Return a)) ->
  (forall e s, P (Throw e) -> completes Q (h e s)) ->
  completes Q (catchS m h).
Proof.
  intros Hm Hret Hthrow. induction m as [[a|e] s|op s k IH]; cbn in *.
  - apply Hret, Hm.
  - apply Hthrow, Hm.
  - intros o s'. apply IH, Hm.
Qed.

Lemma run_completes (P : Completion A -> Prop) (w : list Reply) (t : Step A) :
  completes P t -> P (result (run w t)).
Proof.
  revert w. induction t as [r s|op s k IH]; intros w Ht; cbn in *; [exact Ht|].
  apply IH, Ht.
Qed.
End Completes.

Lemma completes_bindS {A B : Type} (P : Completion A -> Prop) (Q : Completion B -> Prop)
    (m : Step A) (f : A -> State -> Step B) :
  completes P m ->
  (forall a s, P (Return a) -> completes Q (f a s)) ->
  (forall e, P (Throw e) -> Q (Throw e)) ->
  completes Q (bindS m f).
Proof.
  intros Hm Hret Hthrow. induction m as [[a|e] s|op s k IH]; cbn in *.
  - apply Hret, Hm.
  - apply Hthrow, Hm.
  - intros o s'. apply IH, Hm.
Qed.

(** Under every schedule the callback of the parallel branch ends with an
    entry labelled by position when the item carries no id. *)
Lemma parallel_callback_completes (sqlItem : SqlItem) (index : nat) (s : State) :
  item_id sqlItem = None ->
  completes (returning (entry_labelled index))
            (parallel_callback sqlItem (Z.of_nat index) s).
Proof.
  intros Hi. unfold parallel_callback. unfold_async.
  apply (completes_catchS (fun r => match r with
                                    | Return item => entry_labelled index item
                                    | Throw _ => True
                                    end)).
  - apply (completes_bindS (fun _ => True)); [apply completes_any| |auto].
    intros qr s1 _. rewrite (id_or_default_parallel _ _ _ Hi). cbn. split; reflexivity.
  - intros item H. exists item. auto.
  - intros e s1 _. rewrite (id_or_default_parallel _ _ _ Hi). cbn.
    eexists. split; [reflexivity|]. split; reflexivity.
Qed.

Section PoolCompletes.
Context {A : Type}.

Lemma completes_resume (P : Completion A -> Prop) (t : Step A) (o : Outcome) (cur : State) :
  completes P t -> completes P (resume t o cur).
Proof. destruct t as [r s|op s k]; cbn; auto. Qed.

Lemma completes_ended (q : A -> Prop) (r : Completion A) (s : State) :
  completes (returning q) (Done r s) -> ended_with q (Done r s).
Proof. cbn. intros (a & -> & Ha). exact Ha. Qed.

Lemma spawn_all_completes (qs : list (A -> Prop)) (fs : list (Async A)) (s : State) :
  Forall2 (fun q f => forall s, completes (returning q) (f s)) qs fs ->
  Forall2 (fun q t => completes (returning q) t) qs (spawn_all fs s).1.1.
Proof.
  intros H. revert s. induction H as [|q f qs fs Hf _ IH]; intros s; cbn.
  - constructor.
  - specialize (IH (state_of (f s))).
    destruct (spawn_all fs (state_of (f s))) as [[ts s'] tr]. cbn in *.
    constructor; [apply Hf|exact IH].
Qed.

Lemma drain_ended (qs : list (A -> Prop)) (ts : list (Step A)) (cur : State) :
  Forall2 (fun q t => completes (returning q) t) qs ts ->
  Forall2 ended_with qs (drain ts cur).1.1.
Proof.
  intros H. revert cur. induction H as [|q t qs ts Ht _ IH]; intros cur; cbn.
  - constructor.
  - destruct t as [r s|op s k].
    + specialize (IH cur). destruct (drain ts cur) as [[ts' s'] tr]. cbn in *.
      constructor; [apply completes_ended, Ht|exact IH].
    + set (r := run [] (k (timeout_outcome op) cur)).
      specialize (IH (final r)). destruct (drain ts (final r)) as [[ts' s'] tr]. cbn in *.
      constructor; [|exact IH].
      assert (Hr : returning q (result r)) by (apply run_completes, Ht).
      destruct Hr as (a & -> & Ha). exact Ha.
Qed.

Lemma none_pending_ended (qs : list (A -> Prop)) (ts : list (Step A)) :
  first_pending ts = None ->
  Forall2 (fun q t => completes (returning q) t) qs ts ->
  Forall2 ended_with qs ts.
Proof.
  intros Hn H. induction H as [|q t qs ts Ht _ IH]; [constructor|].
  cbn in Hn. destruct t as [r s|op s k]; [|discriminate].
  constructor; [apply completes_ended, Ht|].
  apply IH. destruct (first_pending ts); [discriminate|reflexivity].
Qed.

Lemma choose_None (i : nat) (ts : list (Step A)) :
  choose i ts = None -> first_pending ts = None.
Proof.
  unfold choose. destruct (ts !! i) as [[r s|op s k]|]; [auto|discriminate|auto].
Qed.

(** When the event loop has nothing left to resume, every function has
    ended the way it was bound to. *)
Lemma run_pool_ended (qs : list (A -> Prop)) (w : list Reply) (ts : list (Step A))
    (cur : State) :
  Forall2 (fun q t => completes (returning q) t) qs ts ->
  Forall2 ended_with qs (run_pool w ts cur).1.1.1.
Proof.
  revert ts cur. induction w as [|r w IH]; intros ts cur H; cbn.
  - pose proof (drain_ended qs ts cur H) as Hd.
    destruct (drain ts cur) as [[ts' s'] tr]. exact Hd.
  - destruct (choose (pick r) ts) as [i|] eqn:Hc.
    + destruct (ts !! i) as [t|] eqn:Hi; [|cbn].
      * destruct (Forall2_lookup_r _ _ _ _ _ H Hi) as (q & Hq & Ht).
        set (t' := resume t (outcome r) (set_now (at_time r) cur)).
        assert (H' : Forall2 (fun q t => completes (returning q) t) qs (<[i:=t']> ts)).
        { rewrite <- (list_insert_id qs i q Hq).
          apply Forall2_insert; [exact H|]. apply completes_resume, Ht. }
        specialize (IH (<[i:=t']> ts) (state_of t') H').
        destruct (run_pool w (<[i:=t']> ts) (state_of t')) as [[[ts'' s''] tr] w''].
        exact IH.
      * destruct (choose_pending _ _ _ Hc) as (op & s & k & Hk). congruence.
    + cbn. apply none_pending_ended; [eapply choose_None, Hc|exact H].
Qed.

Lemma collect_ended (qs : list (A -> Prop)) (ts : list (Step A)) :
  Forall2 ended_with qs ts ->
  exists l, collect ts = Return l /\ Forall2 (fun q a => q a) qs l.
Proof.
  induction 1 as [|q t qs ts Ht _ (l & IH & Hl)]; cbn.
  - exists []. split; [reflexivity|constructor].
  - destruct t as [[a|e] s|op s k]; try destruct Ht.
    rewrite IH. exists (a :: l). split; [reflexivity|]. constructor; assumption.
Qed.
End PoolCompletes.

Lemma parallel_callbacks_complete (items : list SqlItem) (off : nat) :
  Forall (fun sqlItem => item_id sqlItem = None) items ->
  Forall2 (fun q f => forall s, completes (returning q) (f s))
    (map entry_labelled (seq off (length items)))
    (imap (fun i sqlItem => parallel_callback sqlItem (Z.of_nat (off + i))) items).
Proof.
  intros H. revert off. induction H as [|sqlItem items Hi _ IH]; intros off; cbn.
  - constructor.
  - constructor.
    + intros s. rewrite Nat.add_0_r. apply parallel_callback_completes, Hi.
    + specialize (IH (S off)).
      erewrite imap_ext; [exact IH|].
      intros i x _. cbn. rewrite Nat.add_succ_r. reflexivity.
Qed.

(** The parallel branch does what the default label is meant to do: on an
    active session a batch of items without ids completes, under every
    schedule of the driver, with one entry per item, in input order, the
    entry at position [k] labelled [SQL_k]. *)
Lemma parallel_batch_labels_by_position (items : list SqlItem) (stop : bool)
    (w : list Reply) (s : State) :
  isConnectionActive s = true ->
  Forall (fun sqlItem => item_id sqlItem = None) items ->
  exists summary,
    result (batch_execute_sql (MkBatchParams items stop true) w s)
      = Return (BatchCompleted summary) /\
    Forall2 entry_labelled (seq 0 (length items)) (b_results summary).
Proof.
  intros Ha Hitems. unfold batch_execute_sql. cbn [parallel sqlList].
  rewrite (batch_prologue_active s Ha). cbn [run result final trace rest].
  pose proof (parallel_callbacks_complete items 0 Hitems) as Hfs. cbn [Nat.add] in Hfs.
  pose proof (spawn_all_completes _ _ s Hfs) as Hts.
  destruct (spawn_all _ s) as [[ts s1] tr1]. cbn [fst snd] in Hts.
  pose proof (run_pool_ended _ w ts s1 Hts) as Hend.
  destruct (run_pool w ts s1) as [[[ts' s2] tr2] w']. cbn [fst snd] in Hend.
  destruct (collect_ended _ _ Hend) as (l & -> & Hl).
  eexists. split; [reflexivity|]. cbn [b_results].
  apply Forall2_fmap_l in Hl. exact Hl.
Qed.

(** ** A failing query after a reconnect on demand *)

Lemma executeQuery_parts (sqlText : string) (params : list Param) (s : State) :
  executeQuery sqlText params s =
    bindS (reconnectIfNeeded s)
      (fun ok => if negb ok then throw not_connected_error
                 else query_on_pool sqlText params).
Proof. reflexivity. Qed.

Lemma reconnectIfNeeded_retained (s : State) (config : Config) :
  isConnectionActive s = false ->
  connectionConfig s = Some config ->
  reconnectIfNeeded s =
    catchS (bindS (connectDatabase config s) (fun _ s' => Done (Return true) s'))
           (fun _ s' => Done (Return false) s').
Proof.
  intros Ha Hc. unfold reconnectIfNeeded. unfold_async. cbn.
  rewrite Ha, Hc. reflexivity.
Qed.

Lemma run_query_on_pool (sqlText : string) (params : list Param) (w : list Reply)
    (s : State) (h : nat) :
  connectionPool s = Some h ->
  let op := OpQuery h sqlText (List.filter bindable params) in
  let rw := next_reply w op s in
  let t := at_time (fst rw) in
  run w (query_on_pool sqlText params s) =
    match outcome (fst rw) with
    | Resolved v =>
        MkRun (Return (query_result v (t - now s)))
              (updateActivityTime (on_stats (stats_query_ok t (t - now s)) (set_now t s)))
              [op] (snd rw)
    | Rejected e =>
        MkRun (Throw e) (on_stats stats_query_failed (set_now t s)) [op] (snd rw)
    end.
Proof.
  intros Hp. cbn zeta. unfold query_on_pool, pool_request, await. unfold_async. cbn.
  rewrite Hp. cbn. destruct (outcome (fst (next_reply w _ s))); reflexivity.
Qed.

Lemma set_now_stats (t : Z) (s : State) :
  connectionStats (set_now t s) = connectionStats s.
Proof. reflexivity. Qed.

Lemma startHeartbeat_lastActivity (s : State) :
  lastActivityTime (startHeartbeat s) = lastActivityTime s.
Proof. unfold startHeartbeat. cbn. destruct (heartbeatTimer s); reflexivity. Qed.

Lemma updateActivityTime_lastActivity (s : State) :
  lastActivityTime (updateActivityTime s) = Some (now s).
Proof.
  unfold updateActivityTime, startAutoDisconnectTimer. cbn.
  destruct (autoDisconnectTimer s); reflexivity.
Qed.

Lemma session_opened_lastActivity (config : Config) (s : State) :
  lastActivityTime (session_opened config s) = Some (now s).
Proof.
  unfold session_opened.
  rewrite startHeartbeat_lastActivity, updateActivityTime_lastActivity. reflexivity.
Qed.

Lemma session_opened_pool (config : Config) (s : State) :
  connectionPool (session_opened config s) = connectionPool s.
Proof.
  unfold session_opened. rewrite startHeartbeat_pool, updateActivityTime_pool. reflexivity.
Qed.

(** [connectDatabase] on a session that holds a stale pool, when the
    close and the open both succeed. *)
Lemma run_connectDatabase_stale (config : Config) (s : State) (h0 : nat)
    (r0 r1 : Reply) (w : list Reply) (v0 v1 : DrvResult) :
  connectionPool s = Some h0 ->
  outcome r0 = Resolved v0 ->
  outcome r1 = Resolved v1 ->
  let s1 := forget_session (drv_settle (OpClose h0) (Resolved v0) (set_now (at_time r0) s)) in
  let hn := length (heap s1) in
  run (r0 :: r1 :: w) (connectDatabase config s) =
    MkRun (Return true)
      (session_opened config
         (drv_settle (OpConnect hn) (Resolved v1) (set_now (at_time r1) (pool_created config s1))))
      [OpClose h0; OpConnect hn] w.
Proof.
  intros Hp H0 H1. cbn zeta.
  rewrite connectDatabase_parts, run_catchS, run_bindS.
  rewrite (run_close_previous _ s h0 Hp). cbn [next_reply fst snd]. rewrite H0.
  cbn [result final trace rest after app].
  rewrite run_open_pool. cbn [next_reply fst snd]. rewrite H1. reflexivity.
Qed.

Lemma run_reconnectIfNeeded_stale (config : Config) (s : State) (h0 : nat)
    (r0 r1 : Reply) (w : list Reply) (v0 v1 : DrvResult) :
  connectionPool s = Some h0 ->
  isConnectionActive s = false ->
  connectionConfig s = Some config ->
  outcome r0 = Resolved v0 ->
  outcome r1 = Resolved v1 ->
  let s1 := forget_session (drv_settle (OpClose h0) (Resolved v0) (set_now (at_time r0) s)) in
  let hn := length (heap s1) in
  run (r0 :: r1 :: w) (reconnectIfNeeded s) =
    MkRun (Return true)
      (session_opened config
         (drv_settle (OpConnect hn) (Resolved v1) (set_now (at_time r1) (pool_created config s1))))
      [OpClose h0; OpConnect hn] w.
Proof.
  intros Hp Ha Hc H0 H1. cbn zeta.
  rewrite (reconnectIfNeeded_retained s config Ha Hc), run_catchS, run_bindS.
  rewrite (run_connectDatabase_stale config s h0 r0 r1 w v0 v1 Hp H0 H1). reflexivity.
Qed.

(** The failure path when the query comes after a reconnect on demand:
    the session is not active but retains its configuration, the stale
    pool closes, the new pool opens at the time of [r1], and the query is
    rejected.  The last activity is the connect; the failing query has
    not moved it. *)
Lemma failed_query_after_reconnect (sqlText : string) (params : list Param)
    (s : State) (h0 : nat) (config : Config) (r0 r1 r2 : Reply)
    (v0 v1 : DrvResult) (e : Err) (w : list Reply) :
  connectionPool s = Some h0 ->
  isConnectionActive s = false ->
  connectionConfig s = Some config ->
  outcome r0 = Resolved v0 ->
  outcome r1 = Resolved v1 ->
  outcome r2 = Rejected e ->
  let r := run (r0 :: r1 :: r2 :: w) (executeQuery sqlText params s) in
  result r = Throw e /\
  lastActivityTime (final r) = Some (at_time r1) /\
  pool_opens (trace r) = 1%nat.
Proof.
  intros Hp Ha Hc H0 H1 H2 r. subst r.
  rewrite executeQuery_parts, run_bindS.
  rewrite (run_reconnectIfNeeded_stale config s h0 r0 r1 (r2 :: w) v0 v1 Hp Ha Hc H0 H1).
  cbn [result final trace rest negb].
  set (s1 := forget_session _). set (s2 := session_opened config _).
  assert (Hp2 : connectionPool s2 = Some (length (heap s1))).
  { subst s2. rewrite session_opened_pool, drv_settle_pool. reflexivity. }
  assert (Hl2 : lastActivityTime s2 = Some (at_time r1)).
  { subst s2. rewrite session_opened_lastActivity. reflexivity. }
  rewrite (run_query_on_pool sqlText params (r2 :: w) s2 _ Hp2).
  cbn [next_reply fst snd]. rewrite H2. cbn [result final trace rest after app].
  split; [reflexivity|]. split; [exact Hl2|]. reflexivity.
Qed.

(** * Further properties of the server *)

(** ** Invariants of the module state *)

Section Keeps.
Context {A : Type}.
Variable I : State -> Prop.
Hypothesis I_now : forall t s, I s -> I (set_now t s).

Lemma keeps_catchS (m : Step A) (h : Err -> State -> Step A) :
  keeps I m ->
  (forall e s, I s -> keeps I (h e s)) ->
  keeps I (catchS m h).
Proof.
  intros Hm Hh. induction m as [[a|e] s|op s k IH]; cbn in *.
  - exact Hm.
  - apply Hh, Hm.
  - destruct Hm as [H0 Hk]. split; [exact H0|].
    intros o s' Hs'. apply IH, Hk, Hs'.
Qed.

Lemma keeps_state_of (t : Step A) : keeps I t -> I (state_of t).
Proof. destruct t; cbn; [auto|intros [H _]; exact H]. Qed.

Lemma keeps_keeps_after (t : Step A) : keeps I t -> keeps_after I t.
Proof. destruct t; cbn; [auto|intros [_ H]; exact H]. Qed.

(** A function run alone leaves the state satisfying [I]. *)
Lemma run_keeps (w : list Reply) (t : Step A) :
  keeps I t -> I (final (run w t)).
Proof.
  revert w. induction t as [r s|op s k IH]; intros w Ht; cbn in *.
  - exact Ht.
  - destruct Ht as [H0 Hk]. apply IH, Hk, I_now, H0.
Qed.

Lemma spawn_all_keeps (fs : list (Async A)) (s : State) :
  Forall (fun f => forall s, I s -> keeps I (f s)) fs ->
  I s ->
  Forall (keeps_after I) (spawn_all fs s).1.1 /\ I (spawn_all fs s).1.2.
Proof.
  intros Hfs. revert s. induction Hfs as [|f fs Hf _ IH]; intros s Hs; cbn.
  - split; [constructor|exact Hs].
  - specialize (IH (state_of (f s)) (keeps_state_of _ (Hf s Hs))).
    destruct (spawn_all fs (state_of (f s))) as [[ts s'] tr]. cbn in *.
    destruct IH as [IH1 IH2]. split; [|exact IH2].
    constructor; [apply keeps_keeps_after, Hf, Hs|exact IH1].
Qed.

Lemma drain_keeps (ts : list (Step A)) (cur : State) :
  Forall (keeps_after I) ts -> I cur -> I (drain ts cur).1.2.
Proof.
  intros Hts. revert cur. induction Hts as [|t ts Ht _ IH]; intros cur Hcur; cbn.
  - exact Hcur.
  - destruct t as [r s|op s k].
    + specialize (IH cur Hcur). destruct (drain ts cur) as [[ts' s'] tr]. exact IH.
    + set (r := run [] (k (timeout_outcome op) cur)).
      assert (Hr : I (final r)) by (apply run_keeps, Ht, Hcur).
      specialize (IH (final r) Hr). destruct (drain ts (final r)) as [[ts' s'] tr].
      exact IH.
Qed.

(** Functions in flight, resumed in any order, leave the state satisfying
    [I]. *)
Lemma run_pool_keeps (w : list Reply) (ts : list (Step A)) (cur : State) :
  Forall (keeps_after I) ts -> I cur -> I (run_pool w ts cur).1.1.2.
Proof.
  revert ts cur. induction w as [|r w IH]; intros ts cur Hts Hcur; cbn.
  - pose proof (drain_keeps ts cur Hts Hcur) as H.
    destruct (drain ts cur) as [[ts' s'] tr]. exact H.
  - destruct (choose (pick r) ts) as [i|] eqn:Hc; [|exact Hcur].
    destruct (choose_pending _ _ _ Hc) as (op & s & k & Hi). rewrite Hi.
    assert (Ht : keeps_after I (Await op s k)).
    { eapply Forall_lookup_1; eassumption. }
    cbn [resume]. cbn [keeps_after] in Ht.
    specialize (Ht (outcome r) (set_now (at_time r) cur) (I_now _ _ Hcur)).
    set (t' := k (outcome r) (set_now (at_time r) cur)) in *.
    assert (Hts' : Forall (keeps_after I) (<[i:=t']> ts)).
    { apply Forall_insert; [exact Hts|apply keeps_keeps_after, Ht]. }
    specialize (IH (<[i:=t']> ts) (state_of t') Hts' (keeps_state_of _ Ht)).
    destruct (run_pool w (<[i:=t']> ts) (state_of t')) as [[[ts'' s''] tr] w''].
    exact IH.
Qed.
End Keeps.

Lemma keeps_bindS {A B : Type} (I : State -> Prop) (m : Step A)
    (f : A -> State -> Step B) :
  keeps I m ->
  (forall a s, I s -> keeps I (f a s)) ->
  keeps I (bindS m f).
Proof.
  intros Hm Hf. induction m as [[a|e] s|op s k IH]; cbn in *.
  - apply Hf, Hm.
  - exact Hm.
  - destruct Hm as [H0 Hk]. split; [exact H0|].
    intros o s' Hs'. apply IH, Hk, Hs'.
Qed.

Lemma imap_keeps {X A : Type} (I : State -> Prop)
    (g : nat -> X -> Async A) (l : list X) :
  (forall i x s, I s -> keeps I (g i x s)) ->
  Forall (fun f => forall s, I s -> keeps I (f s)) (imap g l).
Proof.
  revert g. induction l as [|x l IH]; intros g Hg; cbn.
  - constructor.
  - constructor; [apply Hg|]. apply IH. intros i y s. apply Hg.
Qed.

(** *** The timers *)

Lemma timers_tidy_same (s s' : State) :
  timeouts s' = timeouts s -> autoDisconnectTimer s' = autoDisconnectTimer s ->
  intervals s' = intervals s -> heartbeatTimer s' = heartbeatTimer s ->
  timers_tidy s -> timers_tidy s'.
Proof. unfold timers_tidy. intros -> -> -> ->. auto. Qed.

Lemma tidy_timeouts_cleared (s : State) (t : nat) :
  timers_tidy s -> autoDisconnectTimer s = Some t ->
  timeouts (clearTimeout t s) = [].
Proof.
  intros (H1 & H2 & _) Ht. unfold clearTimeout. cbn [timeouts set_timeouts].
  destruct (timeouts s) as [|p [|q l]]; [reflexivity| |cbn [length] in H2; lia].
  assert (E : Some t = Some p.1) by (rewrite <- Ht; apply H1; left; reflexivity).
  injection E as ->. rewrite filter_cons_False by tauto. reflexivity.
Qed.

Lemma tidy_intervals_cleared (s : State) (t : nat) :
  timers_tidy s -> heartbeatTimer s = Some t ->
  intervals (clearInterval t s) = [].
Proof.
  intros (_ & _ & H1 & H2) Ht. unfold clearInterval. cbn [intervals set_intervals].
  destruct (intervals s) as [|p [|q l]]; [reflexivity| |cbn [length] in H2; lia].
  assert (E : Some t = Some p) by (rewrite <- Ht; apply H1; left; reflexivity).
  injection E as ->. rewrite filter_cons_False by tauto. reflexivity.
Qed.

Lemma tidy_no_timeouts (s : State) :
  timers_tidy s -> autoDisconnectTimer s = None -> timeouts s = [].
Proof.
  intros (H1 & _) Ht. destruct (timeouts s) as [|p l]; [reflexivity|].
  specialize (H1 p (or_introl eq_refl)). congruence.
Qed.

Lemma tidy_no_intervals (s : State) :
  timers_tidy s -> heartbeatTimer s = None -> intervals s = [].
Proof.
  intros (_ & _ & H1 & _) Ht. destruct (intervals s) as [|p l]; [reflexivity|].
  specialize (H1 p (or_introl eq_refl)). congruence.
Qed.

(** Arming the idle check leaves exactly that one check pending. *)
Lemma startAutoDisconnectTimer_timeouts (s : State) :
  timers_tidy s ->
  timeouts (startAutoDisconnectTimer s) = [(nextTimer s, now s + 60000)] /\
  autoDisconnectTimer (startAutoDisconnectTimer s) = Some (nextTimer s) /\
  intervals (startAutoDisconnectTimer s) = intervals s /\
  heartbeatTimer (startAutoDisconnectTimer s) = heartbeatTimer s.
Proof.
  intros Hs. unfold startAutoDisconnectTimer.
  destruct (autoDisconnectTimer s) as [t|] eqn:Ht.
  - pose proof (tidy_timeouts_cleared s t Hs Ht) as E.
    unfold setTimeout. cbn. unfold clearTimeout in E. cbn in E. rewrite E. auto.
  - pose proof (tidy_no_timeouts s Hs Ht) as E.
    unfold setTimeout. cbn. rewrite E. auto.
Qed.

Lemma startHeartbeat_intervals (s : State) :
  timers_tidy s ->
  intervals (startHeartbeat s) = [nextTimer s] /\
  heartbeatTimer (startHeartbeat s) = Some (nextTimer s) /\
  timeouts (startHeartbeat s) = timeouts s /\
  autoDisconnectTimer (startHeartbeat s) = autoDisconnectTimer s.
Proof.
  intros Hs. unfold startHeartbeat.
  destruct (heartbeatTimer s) as [t|] eqn:Ht.
  - pose proof (tidy_intervals_cleared s t Hs Ht) as E.
    unfold setInterval. cbn. unfold clearInterval in E. cbn in E. rewrite E. auto.
  - pose proof (tidy_no_intervals s Hs Ht) as E.
    unfold setInterval. cbn. rewrite E. auto.
Qed.

Lemma stopHeartbeat_intervals (s : State) :
  timers_tidy s ->
  intervals (stopHeartbeat s) = [] /\
  heartbeatTimer (stopHeartbeat s) = None /\
  timeouts (stopHeartbeat s) = timeouts s /\
  autoDisconnectTimer (stopHeartbeat s) = autoDisconnectTimer s.
Proof.
  intros Hs. unfold stopHeartbeat.
  destruct (heartbeatTimer s) as [t|] eqn:Ht.
  - pose proof (tidy_intervals_cleared s t Hs Ht) as E.
    unfold clearInterval in *. cbn in *. rewrite E. auto.
  - pose proof (tidy_no_intervals s Hs Ht) as E. auto.
Qed.

Lemma tidy_one_timeout (s : State) (t : nat) (due : Z) (i : option nat) (l : list nat) :
  timeouts s = [(t, due)] -> autoDisconnectTimer s = Some t ->
  intervals s = l -> heartbeatTimer s = i ->
  (forall j, In j l -> i = Some j) -> (length l <= 1)%nat ->
  timers_tidy s.
Proof.
  intros E1 E2 E3 E4 H1 H2. unfold timers_tidy. rewrite E1, E2, E3, E4. cbn.
  repeat split; auto. intros p [<-|[]]. reflexivity.
Qed.

Lemma startAutoDisconnectTimer_tidy (s : State) :
  timers_tidy s -> timers_tidy (startAutoDisconnectTimer s).
Proof.
  intros Hs. destruct (startAutoDisconnectTimer_timeouts s Hs) as (E1 & E2 & E3 & E4).
  destruct Hs as (_ & _ & H3 & H4).
  apply (tidy_one_timeout _ _ _ _ _ E1 E2 E3 E4); assumption.
Qed.

Lemma updateActivityTime_tidy (s : State) :
  timers_tidy s -> timers_tidy (updateActivityTime s).
Proof. intros Hs. unfold updateActivityTime. apply startAutoDisconnectTimer_tidy, Hs. Qed.

Lemma startHeartbeat_tidy (s : State) :
  timers_tidy s -> timers_tidy (startHeartbeat s).
Proof.
  intros Hs. destruct (startHeartbeat_intervals s Hs) as (E1 & E2 & E3 & E4).
  destruct Hs as (H1 & H2 & _ & _).
  unfold timers_tidy. rewrite E1, E2, E3, E4. cbn. repeat split; auto.
  intros i [<-|[]]. reflexivity.
Qed.

Lemma stopHeartbeat_tidy (s : State) :
  timers_tidy s -> timers_tidy (stopHeartbeat s).
Proof.
  intros Hs. destruct (stopHeartbeat_intervals s Hs) as (E1 & E2 & E3 & E4).
  destruct Hs as (H1 & H2 & _ & _).
  unfold timers_tidy. rewrite E1, E2, E3, E4. cbn.
  repeat split; auto; try lia; try (intros ? []).
Qed.

(** Firing or clearing a timeout removes entries only. *)
Lemma clearTimeout_tidy (t : nat) (s : State) :
  timers_tidy s -> timers_tidy (clearTimeout t s).
Proof.
  intros (H1 & H2 & H3 & H4). unfold timers_tidy, clearTimeout. cbn.
  repeat split; auto.
  - intros p Hp. apply H1. apply list_elem_of_In in Hp.
    apply list_elem_of_filter in Hp as [_ Hp]. apply list_elem_of_In, Hp.
  - etransitivity; [apply length_filter|exact H2].
Qed.

(** After [disconnectDatabase] no timer is pending. *)
Lemma forget_session_timers (s : State) :
  timers_tidy s ->
  timeouts (forget_session s) = [] /\ intervals (forget_session s) = [] /\
  autoDisconnectTimer (forget_session s) = None /\
  heartbeatTimer (forget_session s) = None.
Proof.
  intros Hs. unfold forget_session.
  set (s1 := set_lastActivityTime None _).
  assert (Hs1 : timers_tidy s1) by (revert Hs; apply timers_tidy_same; reflexivity).
  destruct (autoDisconnectTimer s1) as [t|] eqn:Ht.
  - pose proof (tidy_timeouts_cleared s1 t Hs1 Ht) as E.
    set (s2 := set_autoDisconnectTimer None _).
    assert (Hs2 : timers_tidy s2).
    { destruct Hs1 as (_ & _ & H3 & H4). unfold timers_tidy. subst s2. cbn.
      unfold clearTimeout in E. cbn in E. rewrite E. cbn.
      repeat split; auto; try (intros ? []). }
    destruct (stopHeartbeat_intervals s2 Hs2) as (E1 & E2 & E3 & E4).
    rewrite E1, E2, E3, E4. subst s2. cbn. unfold clearTimeout in E. cbn in E. auto.
  - pose proof (tidy_no_timeouts s1 Hs1 Ht) as E.
    destruct (stopHeartbeat_intervals s1 Hs1) as (E1 & E2 & E3 & E4).
    rewrite E1, E2, E3, E4. auto.
Qed.

Lemma forget_session_tidy (s : State) :
  timers_tidy s -> timers_tidy (forget_session s).
Proof.
  intros Hs. destruct (forget_session_timers s Hs) as (E1 & E2 & E3 & E4).
  unfold timers_tidy. rewrite E1, E2. cbn. repeat split; try lia; try (intros ? []).
Qed.

Lemma alter_pool_tidy (f : PoolObj -> PoolObj) (h : nat) (s : State) :
  timers_tidy s -> timers_tidy (alter_pool f h s).
Proof. apply timers_tidy_same; reflexivity. Qed.

Lemma drv_issue_tidy (op : Op) (s : State) :
  timers_tidy s -> timers_tidy (drv_issue op s).
Proof. destruct op; cbn; auto using alter_pool_tidy. Qed.

Lemma drv_settle_tidy (op : Op) (o : Outcome) (s : State) :
  timers_tidy s -> timers_tidy (drv_settle op o s).
Proof. destruct op, o; cbn; auto using alter_pool_tidy. Qed.

Lemma pool_created_tidy (config : Config) (s : State) :
  timers_tidy s -> timers_tidy (pool_created config s).
Proof. apply timers_tidy_same; reflexivity. Qed.

Lemma session_opened_tidy (config : Config) (s : State) :
  timers_tidy s -> timers_tidy (session_opened config s).
Proof.
  intros Hs. unfold session_opened.
  apply startHeartbeat_tidy, updateActivityTime_tidy.
  revert Hs. apply timers_tidy_same; reflexivity.
Qed.

(** *** The configuration of a connected session *)

Lemma isConnected_same (s s' : State) :
  connectionPool s' = connectionPool s -> heap s' = heap s ->
  isConnected s' = isConnected s.
Proof. unfold isConnected. intros -> ->. reflexivity. Qed.

Lemma config_while_connected_same (s s' : State) :
  connectionPool s' = connectionPool s -> heap s' = heap s ->
  connectionConfig s' = connectionConfig s ->
  config_while_connected s -> config_while_connected s'.
Proof.
  unfold config_while_connected. intros Hp Hh Hc.
  rewrite (isConnected_same s s' Hp Hh), Hc. auto.
Qed.

Lemma isConnected_alter (f : PoolObj -> PoolObj) (h : nat) (s : State) :
  (forall p, connected (f p) = true -> connected p = true) ->
  isConnected (alter_pool f h s) = true -> isConnected s = true.
Proof.
  intros Hf. unfold isConnected, alter_pool. cbn.
  destruct (connectionPool s) as [h'|]; [|auto].
  destruct (decide (h' = h)) as [->|Hne].
  - rewrite list_lookup_alter_eq. destruct (heap s !! h) as [p|]; cbn; auto.
  - rewrite list_lookup_alter_ne by congruence. auto.
Qed.

Lemma alter_pool_config_while_connected (f : PoolObj -> PoolObj) (h : nat) (s : State) :
  (forall p, connected (f p) = true -> connected p = true) ->
  config_while_connected s -> config_while_connected (alter_pool f h s).
Proof.
  intros Hf Hs Hc. apply (isConnected_alter f h s Hf) in Hc. apply Hs, Hc.
Qed.

Lemma startAutoDisconnectTimer_session (s : State) :
  connectionPool (startAutoDisconnectTimer s) = connectionPool s /\
  heap (startAutoDisconnectTimer s) = heap s /\
  connectionConfig (startAutoDisconnectTimer s) = connectionConfig s /\
  lastActivityTime (startAutoDisconnectTimer s) = lastActivityTime s /\
  connectionStats (startAutoDisconnectTimer s) = connectionStats s.
Proof.
  unfold startAutoDisconnectTimer. cbn. destruct (autoDisconnectTimer s); auto.
Qed.

Lemma startHeartbeat_session (s : State) :
  connectionPool (startHeartbeat s) = connectionPool s /\
  heap (startHeartbeat s) = heap s /\
  connectionConfig (startHeartbeat s) = connectionConfig s /\
  lastActivityTime (startHeartbeat s) = lastActivityTime s /\
  connectionStats (startHeartbeat s) = connectionStats s.
Proof. unfold startHeartbeat. cbn. destruct (heartbeatTimer s); auto. Qed.

Lemma stopHeartbeat_session (s : State) :
  connectionPool (stopHeartbeat s) = connectionPool s /\
  heap (stopHeartbeat s) = heap s /\
  connectionConfig (stopHeartbeat s) = connectionConfig s /\
  lastActivityTime (stopHeartbeat s) = lastActivityTime s /\
  connectionStats (stopHeartbeat s) = connectionStats s.
Proof. unfold stopHeartbeat. cbn. destruct (heartbeatTimer s); auto. Qed.

Lemma not_connected_config_while_connected (s : State) :
  isConnected s = false -> config_while_connected s.
Proof. unfold config_while_connected. intros ->. discriminate. Qed.

Lemma pool_created_not_connected (config : Config) (s : State) :
  isConnected (pool_created config s) = false.
Proof.
  unfold isConnected. rewrite pool_created_pool, pool_created_heap, heap_alloc_lookup.
  reflexivity.
Qed.

Lemma forget_session_not_connected (s : State) :
  isConnected (forget_session s) = false.
Proof. unfold isConnected. rewrite forget_session_pool. reflexivity. Qed.

Lemma session_opened_config (config : Config) (s : State) :
  connectionConfig (session_opened config s) = Some config.
Proof.
  unfold session_opened.
  destruct (startHeartbeat_session
              (updateActivityTime (on_stats (stats_connect_ok (now s))
                 (set_connectionConfig (Some config) s)))) as (_ & _ & -> & _).
  rewrite updateActivityTime_config. reflexivity.
Qed.

(** *** The two together *)

Lemma server_invariant_init : server_invariant init_state.
Proof.
  split.
  - unfold timers_tidy. cbn. repeat split; try lia; intros ? [].
  - apply not_connected_config_while_connected. reflexivity.
Qed.

Lemma server_invariant_same (s s' : State) :
  timeouts s' = timeouts s -> autoDisconnectTimer s' = autoDisconnectTimer s ->
  intervals s' = intervals s -> heartbeatTimer s' = heartbeatTimer s ->
  connectionPool s' = connectionPool s -> heap s' = heap s ->
  connectionConfig s' = connectionConfig s ->
  server_invariant s -> server_invariant s'.
Proof.
  intros E1 E2 E3 E4 E5 E6 E7 [H1 H2]. split.
  - exact (timers_tidy_same s s' E1 E2 E3 E4 H1).
  - exact (config_while_connected_same s s' E5 E6 E7 H2).
Qed.

Lemma set_now_invariant (t : Z) (s : State) :
  server_invariant s -> server_invariant (set_now t s).
Proof. apply server_invariant_same; reflexivity. Qed.

Lemma on_stats_invariant (f : Stats -> Stats) (s : State) :
  server_invariant s -> server_invariant (on_stats f s).
Proof. apply server_invariant_same; reflexivity. Qed.

Lemma startAutoDisconnectTimer_invariant (s : State) :
  server_invariant s -> server_invariant (startAutoDisconnectTimer s).
Proof.
  intros [H1 H2]. split; [apply startAutoDisconnectTimer_tidy, H1|].
  destruct (startAutoDisconnectTimer_session s) as (E1 & E2 & E3 & _).
  exact (config_while_connected_same _ _ E1 E2 E3 H2).
Qed.

Lemma updateActivityTime_invariant (s : State) :
  server_invariant s -> server_invariant (updateActivityTime s).
Proof.
  intros H. unfold updateActivityTime. apply startAutoDisconnectTimer_invariant.
  revert H. apply server_invariant_same; reflexivity.
Qed.

Lemma stopHeartbeat_invariant (s : State) :
  server_invariant s -> server_invariant (stopHeartbeat s).
Proof.
  intros [H1 H2]. split; [apply stopHeartbeat_tidy, H1|].
  destruct (stopHeartbeat_session s) as (E1 & E2 & E3 & _).
  exact (config_while_connected_same _ _ E1 E2 E3 H2).
Qed.

Lemma forget_session_invariant (s : State) :
  server_invariant s -> server_invariant (forget_session s).
Proof.
  intros [H1 _]. split; [apply forget_session_tidy, H1|].
  apply not_connected_config_while_connected, forget_session_not_connected.
Qed.

Lemma clearTimeout_invariant (t : nat) (s : State) :
  server_invariant s -> server_invariant (clearTimeout t s).
Proof.
  intros [H1 H2]. split; [apply clearTimeout_tidy, H1|].
  revert H2. apply config_while_connected_same; reflexivity.
Qed.

Lemma pool_created_invariant (config : Config) (s : State) :
  server_invariant s -> server_invariant (pool_created config s).
Proof.
  intros [H1 _]. split; [apply pool_created_tidy, H1|].
  apply not_connected_config_while_connected, pool_created_not_connected.
Qed.

Lemma session_opened_invariant (config : Config) (s : State) :
  timers_tidy s -> server_invariant (session_opened config s).
Proof.
  intros H1. split; [apply session_opened_tidy, H1|].
  intros _. rewrite session_opened_config. discriminate.
Qed.

(** Settling a promise keeps the invariant, except that a resolved
    [connect()] makes the pool connected before the configuration is
    recorded: the timers are all that is known then. *)
Lemma drv_settle_invariant (op : Op) (o : Outcome) (s : State) :
  match op, o with OpConnect _, Resolved _ => False | _, _ => True end ->
  server_invariant s -> server_invariant (drv_settle op o s).
Proof.
  intros Hop [H1 H2]. split; [apply drv_settle_tidy, H1|].
  destruct op, o; cbn; try exact H2; try destruct Hop.
  - apply alter_pool_config_while_connected; [|exact H2]. intros p H. exact H.
  - apply alter_pool_config_while_connected; [|exact H2]. intros p H. discriminate H.
Qed.

Lemma drv_issue_invariant (op : Op) (s : State) :
  server_invariant s -> server_invariant (drv_issue op s).
Proof.
  intros [H1 H2]. split; [apply drv_issue_tidy, H1|].
  destruct op; cbn; try exact H2.
  apply alter_pool_config_while_connected; [|exact H2]. intros p H. exact H.
Qed.

Lemma connection_lost_invariant (h : nat) (s : State) :
  server_invariant s -> server_invariant (connection_lost h s).
Proof.
  intros [H1 H2]. split; [apply alter_pool_tidy, H1|].
  apply alter_pool_config_while_connected; [|exact H2]. intros p H. discriminate H.
Qed.

Create HintDb inv.

#[local] Hint Resolve set_now_invariant on_stats_invariant
  startAutoDisconnectTimer_invariant updateActivityTime_invariant
  stopHeartbeat_invariant forget_session_invariant clearTimeout_invariant
  pool_created_invariant drv_issue_invariant connection_lost_invariant : inv.

(** *** The functions keep the invariant *)

(** Awaiting a close or a query. *)
Lemma await_keeps (op : Op) (s : State) :
  match op with OpConnect _ => False | _ => True end ->
  server_invariant s ->
  keeps server_invariant (await op s).
Proof.
  intros Hop Hs. unfold await. cbn [keeps]. split; [apply drv_issue_invariant, Hs|].
  intros o s' Hs'.
  assert (H : server_invariant (drv_settle op o s')).
  { apply drv_settle_invariant; [|exact Hs']. destruct op, o; auto. }
  destruct o; exact H.
Qed.

Ltac inv_done := cbn [keeps]; eauto 6 with inv.

Ltac keeps_step :=
  first
    [ apply keeps_bindS; [|intros ? ? ?]
    | apply keeps_catchS; [|intros ? ? ?]
    | apply await_keeps; [exact I|]
    | inv_done ].

Lemma disconnectDatabase_keeps (s : State) :
  server_invariant s -> keeps server_invariant (disconnectDatabase s).
Proof.
  intros Hs. unfold disconnectDatabase. unfold_async. cbn.
  destruct (connectionPool s); repeat keeps_step.
Qed.

Lemma close_previous_keeps (s : State) :
  server_invariant s -> keeps server_invariant (close_previous s).
Proof.
  intros Hs. unfold close_previous. unfold_async. cbn.
  destruct (connectionPool s); [|inv_done].
  apply keeps_bindS; [apply disconnectDatabase_keeps, Hs|intros; inv_done].
Qed.

Lemma open_pool_keeps (config : Config) (s : State) :
  server_invariant s -> keeps server_invariant (open_pool config s).
Proof.
  intros Hs. unfold open_pool, new_ConnectionPool, await. unfold_async. cbn [bindS keeps].
  split; [apply (pool_created_invariant config s), Hs|].
  intros o s' Hs'. destruct o as [v|e]; cbn [bindS keeps].
  - change (server_invariant
              (session_opened config
                 (drv_settle (OpConnect (length (heap s))) (Resolved v) s'))).
    apply session_opened_invariant, drv_settle_tidy, Hs'.
  - apply drv_settle_invariant; [exact I|exact Hs'].
Qed.

Lemma connectDatabase_keeps (config : Config) (s : State) :
  server_invariant s -> keeps server_invariant (connectDatabase config s).
Proof.
  intros Hs. rewrite connectDatabase_parts.
  apply keeps_catchS.
  - apply keeps_bindS; [apply close_previous_keeps, Hs|].
    intros _ s1 Hs1. apply open_pool_keeps, Hs1.
  - intros e s1 Hs1. rewrite count_failed_connection_eq. inv_done.
Qed.

Lemma reconnectIfNeeded_keeps (s : State) :
  server_invariant s -> keeps server_invariant (reconnectIfNeeded s).
Proof.
  intros Hs. unfold reconnectIfNeeded. unfold_async. cbn.
  destruct (isConnectionActive s); [inv_done|].
  destruct (connectionConfig s) as [config|]; [|inv_done].
  apply keeps_catchS; [|intros; inv_done].
  apply keeps_bindS; [apply connectDatabase_keeps, Hs|intros; inv_done].
Qed.

Lemma query_on_pool_keeps (sqlText : string) (params : list Param) (s : State) :
  server_invariant s -> keeps server_invariant (query_on_pool sqlText params s).
Proof.
  intros Hs. unfold query_on_pool, pool_request. unfold_async. cbn.
  apply keeps_catchS; [|intros; inv_done].
  destruct (connectionPool s); cbn; [|inv_done].
  repeat keeps_step.
Qed.

Lemma executeQuery_keeps (sqlText : string) (params : list Param) (s : State) :
  server_invariant s -> keeps server_invariant (executeQuery sqlText params s).
Proof.
  intros Hs. rewrite executeQuery_parts.
  apply keeps_bindS; [apply reconnectIfNeeded_keeps, Hs|].
  intros ok s1 Hs1. destruct ok; cbn [negb]; [apply query_on_pool_keeps, Hs1|inv_done].
Qed.

Lemma autoDisconnect_callback_keeps (s : State) :
  server_invariant s -> keeps server_invariant (autoDisconnect_callback s).
Proof.
  intros Hs. unfold autoDisconnect_callback. unfold_async. cbn.
  destruct (connectionPool s); [|inv_done].
  destruct (time_truthy (lastActivityTime s)); [|inv_done].
  destruct (300000 <=? _); [|inv_done].
  apply keeps_bindS; [apply disconnectDatabase_keeps, Hs|intros; inv_done].
Qed.

Lemma heartbeat_callback_keeps (s : State) :
  server_invariant s -> keeps server_invariant (heartbeat_callback s).
Proof.
  intros Hs. unfold heartbeat_callback, pool_request. unfold_async. cbn.
  destruct (isConnectionActive s); [|inv_done].
  apply keeps_catchS; [|intros; inv_done].
  destruct (connectionPool s); cbn; [|inv_done].
  repeat keeps_step.
Qed.

Lemma connect_database_keeps (params : Config) (s : State) :
  server_invariant s -> keeps server_invariant (connect_database params s).
Proof.
  intros Hs. unfold connect_database. unfold_async.
  apply keeps_catchS; [|intros; inv_done].
  apply keeps_bindS; [apply connectDatabase_keeps, Hs|intros; inv_done].
Qed.

Lemma execute_sql_keeps (sqlText : string) (params : list Param) (s : State) :
  server_invariant s -> keeps server_invariant (execute_sql sqlText params s).
Proof.
  intros Hs. unfold execute_sql. unfold_async.
  apply keeps_catchS; [|intros; inv_done].
  apply keeps_bindS; [apply executeQuery_keeps, Hs|intros; inv_done].
Qed.

Lemma disconnect_database_keeps (s : State) :
  server_invariant s -> keeps server_invariant (disconnect_database s).
Proof.
  intros Hs. unfold disconnect_database. unfold_async.
  apply keeps_catchS; [|intros; inv_done].
  apply keeps_bindS; [apply disconnectDatabase_keeps, Hs|].
  intros d s1 Hs1. cbn. destruct d; inv_done.
Qed.

Lemma get_connection_status_keeps (s : State) :
  server_invariant s -> keeps server_invariant (get_connection_status s).
Proof.
  intros Hs. unfold get_connection_status. unfold_async. cbn.
  destruct (connectionPool s) as [h|]; [|inv_done].
  destruct (heap s !! h) as [p|]; [|inv_done].
  destruct (connected p); [|inv_done].
  destruct (connectionConfig s); inv_done.
Qed.

Lemma id_or_default_keeps (scope : list (string * Z)) (sqlItem : SqlItem) (s : State) :
  server_invariant s -> keeps server_invariant (id_or_default scope sqlItem s).
Proof.
  intros Hs. unfold id_or_default, resolve. unfold_async.
  destruct (item_id sqlItem) as [id|]; [destruct (str_truthy id); [inv_done|]|];
    destruct (List.find _ scope); cbn; inv_done.
Qed.

Lemma parallel_callback_keeps (sqlItem : SqlItem) (index : Z) (s : State) :
  server_invariant s -> keeps server_invariant (parallel_callback sqlItem index s).
Proof.
  intros Hs. unfold parallel_callback. unfold_async.
  apply keeps_catchS.
  - apply keeps_bindS; [apply executeQuery_keeps, Hs|intros r s1 Hs1].
    apply keeps_bindS; [apply id_or_default_keeps, Hs1|intros; inv_done].
  - intros e s1 Hs1.
    apply keeps_bindS; [apply id_or_default_keeps, Hs1|intros; inv_done].
Qed.

Lemma serial_loop_keeps (items : list SqlItem) (i : Z) (stop : bool)
    (results : list BatchItemResult) (s : State) :
  server_invariant s -> keeps server_invariant (serial_loop items i stop results s).
Proof.
  revert i results s. induction items as [|sqlItem items IH]; intros i results s Hs.
  - cbn. inv_done.
  - cbn [serial_loop]. unfold_async.
    apply keeps_bindS.
    + apply keeps_catchS.
      * apply keeps_bindS; [apply executeQuery_keeps, Hs|intros r s1 Hs1].
        apply keeps_bindS; [apply id_or_default_keeps, Hs1|intros; inv_done].
      * intros e s1 Hs1.
        apply keeps_bindS; [apply id_or_default_keeps, Hs1|intros; inv_done].
    + intros [res brk] s1 Hs1. cbn [fst snd]. destruct brk; [inv_done|apply IH, Hs1].
Qed.

Lemma batch_prologue_keeps (s : State) :
  server_invariant s -> keeps server_invariant (batch_prologue s).
Proof.
  intros Hs. unfold batch_prologue. unfold_async.
  apply keeps_bindS; [apply reconnectIfNeeded_keeps, Hs|].
  intros ok s1 Hs1. destruct ok; cbn; inv_done.
Qed.

Lemma batch_serial_keeps (params : BatchParams) (s : State) :
  server_invariant s -> keeps server_invariant (batch_serial params s).
Proof.
  intros Hs. unfold batch_serial. unfold_async.
  apply keeps_catchS; [|intros; inv_done].
  apply keeps_bindS; [apply batch_prologue_keeps, Hs|intros t0 s1 Hs1].
  apply keeps_bindS; [apply serial_loop_keeps, Hs1|intros; inv_done].
Qed.

Lemma batch_execute_sql_invariant (params : BatchParams) (w : list Reply) (s : State) :
  server_invariant s -> server_invariant (final (batch_execute_sql params w s)).
Proof.
  intros Hs. unfold batch_execute_sql. destruct (parallel params).
  - pose proof (run_keeps server_invariant set_now_invariant w _ (batch_prologue_keeps s Hs))
      as H0.
    set (r0 := run w (batch_prologue s)) in *.
    destruct (result r0) as [startTime|e]; [|exact H0].
    set (fs := imap _ (sqlList params)).
    assert (Hfs : Forall (fun f => forall s, server_invariant s -> keeps server_invariant (f s)) fs).
    { apply imap_keeps. intros i x s1. apply parallel_callback_keeps. }
    destruct (spawn_all_keeps server_invariant fs (final r0) Hfs H0) as [H1 H2].
    destruct (spawn_all fs (final r0)) as [[ts s1] tr1]. cbn in H1, H2.
    pose proof (run_pool_keeps server_invariant set_now_invariant (rest r0) ts s1 H1 H2) as H3.
    destruct (run_pool (rest r0) ts s1) as [[[ts' s2] tr2] w']. cbn in H3.
    destruct (collect ts'); exact H3.
  - apply (run_keeps server_invariant set_now_invariant), batch_serial_keeps, Hs.
Qed.

Lemma perform_invariant (e : Event) (s : State) :
  server_invariant s -> server_invariant (perform e s).
Proof.
  intros Hs. unfold perform.
  assert (Hs0 : server_invariant (set_now (ev_time e) s)) by apply set_now_invariant, Hs.
  set (s0 := set_now (ev_time e) s) in *.
  destruct (ev_op e).
  - apply (run_keeps server_invariant set_now_invariant), connect_database_keeps, Hs0.
  - apply (run_keeps server_invariant set_now_invariant), execute_sql_keeps, Hs0.
  - apply (run_keeps server_invariant set_now_invariant), disconnect_database_keeps, Hs0.
  - apply batch_execute_sql_invariant, Hs0.
  - apply (run_keeps server_invariant set_now_invariant), get_connection_status_keeps, Hs0.
  - unfold fire_timeout. destruct (List.find _ _); [|exact Hs0].
    apply (run_keeps server_invariant set_now_invariant), autoDisconnect_callback_keeps.
    apply clearTimeout_invariant, Hs0.
  - unfold fire_interval. destruct (existsb _ _); [|exact Hs0].
    apply (run_keeps server_invariant set_now_invariant), heartbeat_callback_keeps, Hs0.
  - apply connection_lost_invariant, Hs0.
Qed.

Lemma perform_all_invariant (es : list Event) (s : State) :
  server_invariant s -> server_invariant (perform_all es s).
Proof.
  revert s. induction es as [|e es IH]; intros s Hs; cbn.
  - exact Hs.
  - apply IH, perform_invariant, Hs.
Qed.

(** The invariant holds in every state the server reaches. *)
Lemma reachable_invariant (es : list Event) :
  server_invariant (perform_all es init_state).
Proof. apply perform_all_invariant, server_invariant_init. Qed.

(** X15: whatever has happened to the server since it started, at most
    one idle check is pending and at most one heartbeat interval is live,
    and they are the ones [autoDisconnectTimer] and [heartbeatTimer]
    name: re-arming and disconnecting never leave a timer behind. *)
Theorem X15_timers_never_leak (es : list Event) :
  let s := perform_all es init_state in
  (length (timeouts s) <= 1)%nat /\
  (length (intervals s) <= 1)%nat /\
  (forall t due, In (t, due) (timeouts s) -> autoDisconnectTimer s = Some t) /\
  (forall t, In t (intervals s) -> heartbeatTimer s = Some t).
Proof.
  cbv zeta. destruct (reachable_invariant es) as [(H1 & H2 & H3 & H4) _].
  repeat split; auto. intros t due Hin. apply (H1 (t, due) Hin).
Qed.

Lemma get_connection_status_isConnected (s : State) :
  isConnected s = false ->
  exists r, get_connection_status s = Done (Return (Status r)) s /\
            st_isConnected r = false /\ st_stats r = connectionStats s.
Proof.
  intros Hc. unfold get_connection_status. unfold_async. cbn.
  unfold isConnected in Hc. rewrite Hc. eexists. split; [reflexivity|]. split; reflexivity.
Qed.

Lemma get_connection_status_connected (s : State) (c : Config) :
  isConnected s = true ->
  connectionConfig s = Some c ->
  exists r, get_connection_status s = Done (Return (Status r)) s /\
            st_isConnected r = true /\ st_stats r = connectionStats s /\
            st_server r = Some (server c) /\ st_database r = Some (database c) /\
            st_user r = Some (user c) /\ st_port r = port c.
Proof.
  intros Hc Hcfg. unfold get_connection_status. unfold_async. cbn.
  unfold isConnected in Hc. rewrite Hc, Hcfg. eexists. split; [reflexivity|]. splits.
Qed.

(** X16: [get_connection_status] has no [try], and it reads the server
    name off [connectionConfig] whenever the pool reads as connected; on a
    connected pool without configuration that read throws.  No state the
    server reaches is of that kind: in every reachable state the tool
    answers with a status, awaits nothing and changes nothing. *)
Theorem X16_status_never_throws (es : list Event) (w : list Reply) :
  let s := perform_all es init_state in
  (exists r, run w (get_connection_status s) = MkRun (Return (Status r)) s [] w /\
             st_isConnected r = isConnected s /\ st_stats r = connectionStats s) /\
  (forall s', isConnected s' = true -> connectionConfig s' = None ->
     exists e, run w (get_connection_status s') = MkRun (Throw e) s' [] w /\
               err_name e = "TypeError").
Proof.
  cbv zeta. split.
  - destruct (reachable_invariant es) as [_ Hcfg].
    set (s := perform_all es init_state) in *.
    destruct (isConnected s) eqn:Hc.
    + destruct (connectionConfig s) as [c|] eqn:Hcc; [|exfalso; apply (Hcfg Hc Hcc)].
      destruct (get_connection_status_connected s c Hc Hcc) as (r & -> & H1 & H2 & _).
      exists r. cbn. auto.
    + destruct (get_connection_status_isConnected s Hc) as (r & -> & H1 & H2).
      exists r. cbn. auto.
  - intros s' Hc Hcc. unfold get_connection_status. unfold_async. cbn.
    unfold isConnected in Hc. rewrite Hc, Hcc. cbn. eexists. split; reflexivity.
Qed.

(** ** Opening and closing the session *)

Lemma startAutoDisconnectTimer_arms (s : State) :
  exists tm, autoDisconnectTimer (startAutoDisconnectTimer s) = Some tm /\
             In (tm, now s + 60000) (timeouts (startAutoDisconnectTimer s)) /\
             now (startAutoDisconnectTimer s) = now s.
Proof.
  unfold startAutoDisconnectTimer, setTimeout.
  destruct (autoDisconnectTimer s) as [t|]; cbn; eexists; (split; [reflexivity|]);
    (split; [apply in_or_app; right; left; reflexivity|reflexivity]).
Qed.

Lemma updateActivityTime_arms (s : State) :
  exists tm, autoDisconnectTimer (updateActivityTime s) = Some tm /\
             In (tm, now s + 60000) (timeouts (updateActivityTime s)) /\
             now (updateActivityTime s) = now s.
Proof. unfold updateActivityTime. apply (startAutoDisconnectTimer_arms (set_lastActivityTime _ s)). Qed.

Lemma startHeartbeat_arms (s : State) :
  exists i, heartbeatTimer (startHeartbeat s) = Some i /\
            In i (intervals (startHeartbeat s)) /\
            now (startHeartbeat s) = now s /\
            autoDisconnectTimer (startHeartbeat s) = autoDisconnectTimer s /\
            timeouts (startHeartbeat s) = timeouts s.
Proof.
  unfold startHeartbeat, setInterval.
  destruct (heartbeatTimer s) as [t|]; cbn; eexists; (split; [reflexivity|]);
    (split; [apply in_or_app; right; left; reflexivity|splits]).
Qed.

Lemma session_opened_heap (config : Config) (s : State) :
  heap (session_opened config s) = heap s.
Proof.
  unfold session_opened.
  destruct (startHeartbeat_session
              (updateActivityTime (on_stats (stats_connect_ok (now s))
                 (set_connectionConfig (Some config) s)))) as (_ & -> & _).
  rewrite updateActivityTime_heap. reflexivity.
Qed.

Lemma session_opened_arms (config : Config) (s : State) :
  now (session_opened config s) = now s /\
  (exists tm, autoDisconnectTimer (session_opened config s) = Some tm /\
              In (tm, now s + 60000) (timeouts (session_opened config s))) /\
  (exists i, heartbeatTimer (session_opened config s) = Some i /\
             In i (intervals (session_opened config s))).
Proof.
  unfold session_opened.
  set (s0 := on_stats _ (set_connectionConfig (Some config) s)).
  destruct (updateActivityTime_arms s0) as (tm & T1 & T2 & T3).
  destruct (startHeartbeat_arms (updateActivityTime s0)) as (i & I1 & I2 & I3 & I4 & I5).
  rewrite I3, T3. split; [reflexivity|]. split.
  - exists tm. rewrite I4, I5. auto.
  - exists i. auto.
Qed.

(** The state a resolved [connect()] leaves, seen from the state [s1] in
    which the pool object was created. *)
Lemma opened_state (config : Config) (s1 : State) (t : Z) (v : DrvResult) :
  let h := length (heap s1) in
  let s' := session_opened config
              (drv_settle (OpConnect h) (Resolved v) (set_now t (pool_created config s1))) in
  now s' = t /\
  connectionPool s' = Some h /\
  heap s' !! h = Some (MkPoolObj (build_sqlConfig config) true false) /\
  isConnectionActive s' = true /\
  connectionConfig s' = Some config /\
  lastActivityTime s' = Some t /\
  connectionStats s' = stats_connect_ok t (connectionStats s1) /\
  (exists tm, autoDisconnectTimer s' = Some tm /\ In (tm, t + 60000) (timeouts s')) /\
  (exists i, heartbeatTimer s' = Some i /\ In i (intervals s')).
Proof.
  cbn zeta. set (h := length (heap s1)).
  set (s0 := drv_settle (OpConnect h) (Resolved v) (set_now t (pool_created config s1))).
  assert (Hn : now s0 = t) by reflexivity.
  assert (Hp : connectionPool s0 = Some h) by reflexivity.
  assert (Hh : heap s0 !! h = Some (MkPoolObj (build_sqlConfig config) true false)).
  { subst s0. unfold drv_settle, alter_pool. cbn [heap set_heap].
    change (heap (set_now t (pool_created config s1))) with (heap (pool_created config s1)).
    rewrite pool_created_heap. subst h. rewrite alter_alloc, heap_alloc_lookup. reflexivity. }
  assert (Hst : connectionStats s0 = connectionStats s1) by reflexivity.
  destruct (session_opened_arms config s0) as (A1 & A2 & A3). rewrite Hn in *.
  split; [exact A1|]. split; [rewrite session_opened_pool; exact Hp|].
  split; [rewrite session_opened_heap; exact Hh|].
  split.
  { unfold isConnectionActive. rewrite session_opened_pool, Hp, session_opened_heap, Hh.
    reflexivity. }
  split; [apply session_opened_config|].
  split; [rewrite session_opened_lastActivity, Hn; reflexivity|].
  split; [rewrite session_opened_stats, Hn, Hst; reflexivity|].
  split; assumption.
Qed.

(** The counters a successful connect moves, one by one. *)
Lemma stats_connect_ok_counts (t : Z) (st : Stats) :
  let st' := stats_connect_ok t st in
  totalConnections st' = totalConnections st + 1 /\
  successfulConnections st' = successfulConnections st + 1 /\
  failedConnections st' = failedConnections st /\
  lastConnectionTime st' = Some t /\
  totalQueries st' = totalQueries st /\
  successfulQueries st' = successfulQueries st /\
  failedQueries st' = failedQueries st /\
  lastQueryTime st' = lastQueryTime st /\
  totalQueryTime st' = totalQueryTime st /\
  averageQueryTime st' = averageQueryTime st.
Proof. cbn. splits. Qed.

(** A call of [connectDatabase] that returns, alone on the event loop:
    the session it leaves, and the one pool it has opened. *)
Lemma connectDatabase_returned (config : Config) (w : list Reply) (s : State) (b : bool) :
  result (run w (connectDatabase config s)) = Return b ->
  let r := run w (connectDatabase config s) in
  let t := now (final r) in
  b = true /\
  (exists h, last (trace r) = Some (OpConnect h) /\
             connectionPool (final r) = Some h /\
             heap (final r) !! h = Some (MkPoolObj (build_sqlConfig config) true false)) /\
  pool_opens (trace r) = 1%nat /\
  isConnectionActive (final r) = true /\
  connectionConfig (final r) = Some config /\
  lastActivityTime (final r) = Some t /\
  connectionStats (final r) = stats_connect_ok t (connectionStats s) /\
  (exists tm, autoDisconnectTimer (final r) = Some tm /\
              In (tm, t + 60000) (timeouts (final r))) /\
  (exists i, heartbeatTimer (final r) = Some i /\ In i (intervals (final r))).
Proof.
  cbv zeta. destruct (connectionPool s) as [h0|] eqn:Hp.
  - rewrite connectDatabase_parts, run_catchS, run_bindS, (run_close_previous w s h0 Hp).
    cbv zeta. set (rw := next_reply w (OpClose h0) s).
    destruct (outcome (fst rw)) as [v|e0]; cbn [result final trace rest after app].
    + set (s1 := forget_session _). rewrite run_open_pool. cbv zeta.
      set (rw' := next_reply (snd rw) _ _).
      destruct (outcome (fst rw')) as [v'|e1]; cbn [result final trace rest after app].
      * intros [= <-].
        destruct (opened_state config s1 (at_time (fst rw')) v')
          as (Hn & Hpool & Hheap & Ha & Hc & Hl & Hst & Ht & Hi).
        rewrite Hn. split; [reflexivity|].
        split; [eexists; split; [reflexivity|split; eassumption]|].
        split; [reflexivity|].
        split; [exact Ha|]. split; [exact Hc|]. split; [exact Hl|].
        split; [|split; assumption].
        rewrite Hst. subst s1. rewrite forget_session_stats, drv_settle_stats. reflexivity.
      * rewrite count_failed_connection_eq. cbn [run result]. discriminate.
    + rewrite count_failed_connection_eq. cbn [run result]. discriminate.
  - rewrite (run_connectDatabase_fresh config w s Hp). cbv zeta.
    set (rw := next_reply w _ _).
    destruct (outcome (fst rw)) as [v|e0]; cbn [result final trace rest]; [|discriminate].
    intros [= <-].
    destruct (opened_state config s (at_time (fst rw)) v)
      as (Hn & Hpool & Hheap & Ha & Hc & Hl & Hst & Ht & Hi).
    rewrite Hn. split; [reflexivity|].
    split; [eexists; split; [reflexivity|split; eassumption]|].
    splits.
Qed.

(** X1: a call of [connectDatabase] that runs with no other call in
    flight and returns has returned [true] and has opened a session: the
    pool it created last is the one in [connectionPool], carries the
    options built from [config] and is active; the configuration is
    retained for reconnects; the connect counts as the last activity;
    [totalConnections] and [successfulConnections] are up by one,
    [lastConnectionTime] is the time of the connect and the other
    counters are as before; the idle check is armed one minute ahead and
    the heartbeat is live.  This holds from any prior state, a session
    still open included (that one is closed first). *)
Theorem X1_connect_success_opens_session (config : Config) (w : list Reply)
    (s : State) (b : bool) :
  result (run w (connectDatabase config s)) = Return b ->
  let r := run w (connectDatabase config s) in
  let t := now (final r) in
  let st := connectionStats s in
  let st' := connectionStats (final r) in
  b = true /\
  (exists h, last (trace r) = Some (OpConnect h) /\
             connectionPool (final r) = Some h /\
             heap (final r) !! h = Some (MkPoolObj (build_sqlConfig config) true false)) /\
  isConnectionActive (final r) = true /\
  connectionConfig (final r) = Some config /\
  lastActivityTime (final r) = Some t /\
  connectionStats (final r) = stats_connect_ok t (connectionStats s) /\
  (exists tm, autoDisconnectTimer (final r) = Some tm /\
              In (tm, t + 60000) (timeouts (final r))) /\
  (exists i, heartbeatTimer (final r) = Some i /\ In i (intervals (final r))) /\
  totalConnections st' = totalConnections st + 1 /\
  successfulConnections st' = successfulConnections st + 1 /\
  failedConnections st' = failedConnections st /\
  lastConnectionTime st' = Some t /\
  totalQueries st' = totalQueries st /\
  successfulQueries st' = successfulQueries st /\
  failedQueries st' = failedQueries st /\
  lastQueryTime st' = lastQueryTime st /\
  totalQueryTime st' = totalQueryTime st /\
  averageQueryTime st' = averageQueryTime st.
Proof.
  intros Hres. cbv zeta.
  destruct (connectDatabase_returned config w s b Hres)
    as (Hb & Hpool & _ & Ha & Hc & Hl & Hst & Ht & Hi).
  cbv zeta in Hst. rewrite Hst.
  split; [exact Hb|]. split; [exact Hpool|]. split; [exact Ha|]. split; [exact Hc|].
  split; [exact Hl|]. split; [reflexivity|]. split; [exact Ht|]. split; [exact Hi|].
  apply stats_connect_ok_counts.
Qed.

Lemma X1_witness :
  let r := run [resolves 0 1200] (connectDatabase sample_config init_state) in
  let t := now (final r) in
  let st := connectionStats init_state in
  let st' := connectionStats (final r) in
  true = true /\
  (exists h, last (trace r) = Some (OpConnect h) /\
             connectionPool (final r) = Some h /\
             heap (final r) !! h = Some (MkPoolObj (build_sqlConfig sample_config) true false)) /\
  isConnectionActive (final r) = true /\
  connectionConfig (final r) = Some sample_config /\
  lastActivityTime (final r) = Some t /\
  connectionStats (final r) = stats_connect_ok t (connectionStats init_state) /\
  (exists tm, autoDisconnectTimer (final r) = Some tm /\
              In (tm, t + 60000) (timeouts (final r))) /\
  (exists i, heartbeatTimer (final r) = Some i /\ In i (intervals (final r))) /\
  totalConnections st' = totalConnections st + 1 /\
  successfulConnections st' = successfulConnections st + 1 /\
  failedConnections st' = failedConnections st /\
  lastConnectionTime st' = Some t /\
  totalQueries st' = totalQueries st /\
  successfulQueries st' = successfulQueries st /\
  failedQueries st' = failedQueries st /\
  lastQueryTime st' = lastQueryTime st /\
  totalQueryTime st' = totalQueryTime st /\
  averageQueryTime st' = averageQueryTime st.
Proof.
  apply (X1_connect_success_opens_session sample_config [resolves 0 1200] init_state true).
  reflexivity.
Defined.

(** X2: a [close()] that fails changes nothing but a counter.  On a
    session that holds a pool, when the close is rejected:
    [disconnectDatabase] rethrows the error and the session stays exactly
    as it was (pool, configuration, last activity and both timers are
    untouched; only the clock has moved), and the tool answers with the
    disconnect failure and the message; [connectDatabase], which closes
    the old pool first, gives up before creating any pool, throws the
    same error and counts it as a failed connection, the old pool and the
    old configuration staying in place, and the tool reports the connect
    as failed with the message of the close. *)
Theorem X2_failed_close_keeps_the_session (config : Config) (s : State) (h0 : nat)
    (r0 : Reply) (e : Err) (w : list Reply) :
  connectionPool s = Some h0 ->
  outcome r0 = Rejected e ->
  run (r0 :: w) (disconnectDatabase s)
    = MkRun (Throw e) (set_now (at_time r0) s) [OpClose h0] w /\
  run (r0 :: w) (disconnect_database s)
    = MkRun (Return (DisconnectFailed (message e))) (set_now (at_time r0) s)
            [OpClose h0] w /\
  run (r0 :: w) (connectDatabase config s)
    = MkRun (Throw e) (on_stats stats_connect_failed (set_now (at_time r0) s))
            [OpClose h0] w /\
  run (r0 :: w) (connect_database config s)
    = MkRun (Return (ConnectFailed (message e)))
            (on_stats stats_connect_failed (set_now (at_time r0) s)) [OpClose h0] w.
Proof.
  intros Hp Ho.
  assert (Hd : run (r0 :: w) (disconnectDatabase s)
               = MkRun (Throw e) (set_now (at_time r0) s) [OpClose h0] w).
  { rewrite (run_disconnectDatabase s h0 _ Hp). cbn [next_reply fst snd]. rewrite Ho.
    reflexivity. }
  assert (Hc : run (r0 :: w) (connectDatabase config s)
               = MkRun (Throw e) (on_stats stats_connect_failed (set_now (at_time r0) s))
                       [OpClose h0] w).
  { rewrite connectDatabase_parts, run_catchS, run_bindS, (run_close_previous _ s h0 Hp).
    cbn [next_reply fst snd]. rewrite Ho. cbn [result final trace rest after app].
    rewrite count_failed_connection_eq. reflexivity. }
  split; [exact Hd|]. split; [|split; [exact Hc|]].
  - unfold disconnect_database. unfold_async. rewrite run_catchS, run_bindS, Hd. reflexivity.
  - unfold connect_database. unfold_async. rewrite run_catchS, run_bindS, Hc. reflexivity.
Qed.

Lemma X2_witness :
  run [refuses 0 2000 "socket hang up"] (disconnectDatabase connected_state)
    = MkRun (Throw (MkErr "ConnectionError" "socket hang up"))
            (set_now 2000 connected_state) [OpClose 0] [] /\
  run [refuses 0 2000 "socket hang up"] (disconnect_database connected_state)
    = MkRun (Return (DisconnectFailed "socket hang up"))
            (set_now 2000 connected_state) [OpClose 0] [] /\
  run [refuses 0 2000 "socket hang up"] (connectDatabase sample_config connected_state)
    = MkRun (Throw (MkErr "ConnectionError" "socket hang up"))
            (on_stats stats_connect_failed (set_now 2000 connected_state))
            [OpClose 0] [] /\
  run [refuses 0 2000 "socket hang up"] (connect_database sample_config connected_state)
    = MkRun (Return (ConnectFailed "socket hang up"))
            (on_stats stats_connect_failed (set_now 2000 connected_state)) [OpClose 0] [].
Proof.
  apply (X2_failed_close_keeps_the_session sample_config connected_state 0
           (refuses 0 2000 "socket hang up") (MkErr "ConnectionError" "socket hang up") []);
    reflexivity.
Defined.

Lemma forget_session_lastActivity (s : State) :
  lastActivityTime (forget_session s) = None.
Proof.
  unfold forget_session, stopHeartbeat. cbn.
  destruct (autoDisconnectTimer s); cbn; destruct (heartbeatTimer s); reflexivity.
Qed.

Lemma run_disconnect_database_closed (s : State) (h : nat) (r0 : Reply) (v : DrvResult)
    (w : list Reply) :
  connectionPool s = Some h ->
  outcome r0 = Resolved v ->
  run (r0 :: w) (disconnect_database s)
    = MkRun (Return (DisconnectDone (connectionStats s)))
            (forget_session (drv_settle (OpClose h) (Resolved v) (set_now (at_time r0) s)))
            [OpClose h] w.
Proof.
  intros Hp Ho. unfold disconnect_database. unfold_async.
  rewrite run_catchS, run_bindS, (run_disconnectDatabase s h _ Hp).
  cbn [next_reply fst snd]. rewrite Ho. cbn [result final trace rest after app run bindS].
  rewrite forget_session_stats. reflexivity.
Qed.

(** X4: a disconnect that succeeds, in whatever state the server has
    reached, leaves nothing scheduled: no idle check is pending, no
    heartbeat interval is live, the three session variables and the two
    timer variables are [null].  The statistics survive the disconnect
    and are what the tool reports. *)
Theorem X4_disconnect_leaves_nothing_scheduled (es : list Event) (h : nat) (r0 : Reply)
    (v : DrvResult) (w : list Reply) :
  let s := perform_all es init_state in
  connectionPool s = Some h ->
  outcome r0 = Resolved v ->
  let r := run (r0 :: w) (disconnect_database s) in
  result r = Return (DisconnectDone (connectionStats s)) /\
  trace r = [OpClose h] /\
  timeouts (final r) = [] /\
  intervals (final r) = [] /\
  autoDisconnectTimer (final r) = None /\
  heartbeatTimer (final r) = None /\
  connectionPool (final r) = None /\
  connectionConfig (final r) = None /\
  lastActivityTime (final r) = None /\
  connectionStats (final r) = connectionStats s.
Proof.
  intros s Hp Ho r. subst r.
  pose proof (reachable_invariant es) as [Htidy _]. fold s in Htidy.
  rewrite (run_disconnect_database_closed s h r0 v w Hp Ho). cbn [result final trace].
  set (s0 := drv_settle _ _ _).
  assert (H0 : timers_tidy s0).
  { subst s0. apply drv_settle_tidy. revert Htidy. apply timers_tidy_same; reflexivity. }
  destruct (forget_session_timers s0 H0) as (E1 & E2 & E3 & E4).
  rewrite forget_session_stats, forget_session_pool, forget_session_config,
    forget_session_lastActivity, E1, E2, E3, E4.
  splits.
Qed.

Lemma X4_witness :
  let s := perform_all
             [MkEvent 1000 (Call_connect_database (connect_schema_defaults sample_config))
                      [resolves 0 1200]] init_state in
  let r := run [resolves 0 2000] (disconnect_database s) in
  result r = Return (DisconnectDone (connectionStats s)) /\
  trace r = [OpClose 0] /\
  timeouts (final r) = [] /\
  intervals (final r) = [] /\
  autoDisconnectTimer (final r) = None /\
  heartbeatTimer (final r) = None /\
  connectionPool (final r) = None /\
  connectionConfig (final r) = None /\
  lastActivityTime (final r) = None /\
  connectionStats (final r) = connectionStats s.
Proof.
  apply (X4_disconnect_leaves_nothing_scheduled
           [MkEvent 1000 (Call_connect_database (connect_schema_defaults sample_config))
                    [resolves 0 1200]] 0 (resolves 0 2000) one_row []);
    reflexivity.
Defined.

(** ** Reconnecting on demand *)

Lemma queries_sent_app (a b : list Op) :
  queries_sent (a ++ b)%list = (queries_sent a + queries_sent b)%nat.
Proof. unfold queries_sent. rewrite List.filter_app, length_app. reflexivity. Qed.

(** What a call of [connectDatabase] amounts to, however it ends: it sends
    no query, opens at most one pool, leaves the query counters alone, and
    the session is active afterwards exactly when the call returned
    (given that it was not active before). *)
Lemma connectDatabase_outcome (config : Config) (w : list Reply) (s : State) :
  let r := run w (connectDatabase config s) in
  queries_sent (trace r) = 0%nat /\
  (pool_opens (trace r) <= 1)%nat /\
  totalQueries (connectionStats (final r)) = totalQueries (connectionStats s) /\
  match result r with
  | Return _ => isConnectionActive (final r) = true
  | Throw _ => isConnectionActive s = false -> isConnectionActive (final r) = false
  end.
Proof.
  cbv zeta. destruct (connectionPool s) as [h0|] eqn:Hp.
  - rewrite connectDatabase_parts, run_catchS, run_bindS, (run_close_previous w s h0 Hp).
    cbv zeta. set (rw := next_reply w (OpClose h0) s).
    destruct (outcome (fst rw)) as [v|e0]; cbn [result final trace rest after app].
    + set (s1 := forget_session _). rewrite run_open_pool. cbv zeta.
      set (rw' := next_reply (snd rw) _ _).
      assert (Hst1 : connectionStats s1 = connectionStats s).
      { subst s1. rewrite forget_session_stats, drv_settle_stats. reflexivity. }
      destruct (outcome (fst rw')) as [v'|e1]; cbn [result final trace rest after app].
      * destruct (opened_state config s1 (at_time (fst rw')) v')
          as (_ & _ & _ & Ha & _ & _ & Hst & _).
        rewrite Hst, Hst1. splits.
      * rewrite count_failed_connection_eq. cbn [run result final trace rest after app].
        destruct (refused_open_not_active config s1 e1 (at_time (fst rw'))) as (_ & Hna & Hst).
        rewrite on_stats_stats, on_stats_active, Hst, Hst1, Hna. splits.
    + rewrite count_failed_connection_eq. cbn [run result final trace rest after app].
      rewrite on_stats_stats, on_stats_active, drv_settle_stats. splits.
  - rewrite (run_connectDatabase_fresh config w s Hp). cbv zeta.
    set (rw := next_reply w _ _).
    destruct (outcome (fst rw)) as [v|e0]; cbn [result final trace rest].
    + destruct (opened_state config s (at_time (fst rw)) v)
        as (_ & _ & _ & Ha & _ & _ & Hst & _).
      rewrite Hst. splits.
    + destruct (refused_open_not_active config s e0 (at_time (fst rw))) as (_ & Hna & Hst).
      rewrite on_stats_stats, on_stats_active, Hst, Hna. splits.
Qed.

Lemma reconnectIfNeeded_outcome (w : list Reply) (s : State) :
  let r := run w (reconnectIfNeeded s) in
  result r = Return (isConnectionActive (final r)) /\
  queries_sent (trace r) = 0%nat /\
  (pool_opens (trace r) <= 1)%nat /\
  totalQueries (connectionStats (final r)) = totalQueries (connectionStats s).
Proof.
  cbv zeta. destruct (isConnectionActive s) eqn:Ha.
  - rewrite (reconnectIfNeeded_active s Ha). cbn. rewrite Ha. splits.
  - destruct (connectionConfig s) as [config|] eqn:Hc.
    + rewrite (reconnectIfNeeded_retained s config Ha Hc), run_catchS, run_bindS.
      destruct (connectDatabase_outcome config w s) as (Hq & Ho & Ht & Hr).
      destruct (run w (connectDatabase config s)) as [res fin tr rst].
      cbn [result final trace rest] in *.
      destruct res as [b|e]; cbn [run result final trace rest after app].
      * rewrite Hr, app_nil_r. splits.
      * rewrite (Hr Ha), app_nil_r. splits.
    + rewrite (reconnectIfNeeded_nothing_retained s Ha Hc). cbn. rewrite Ha. splits.
Qed.

(** X5: a call of [reconnectIfNeeded] that runs with no other call in
    flight never throws, whatever the driver does, and the boolean it
    returns is exactly whether the session is active when it returns:
    [true] after a reconnect that succeeded or on a session that was
    active all along, [false] after a reconnect that failed or when there
    is nothing to reconnect with.  It sends no query and opens at most
    one pool. *)
Theorem X5_reconnectIfNeeded_reports_liveness (w : list Reply) (s : State) :
  let r := run w (reconnectIfNeeded s) in
  result r = Return (isConnectionActive (final r)) /\
  queries_sent (trace r) = 0%nat /\
  (pool_opens (trace r) <= 1)%nat /\
  (isConnectionActive s = true -> run w (reconnectIfNeeded s) = MkRun (Return true) s [] w) /\
  (isConnectionActive s = false -> connectionConfig s = None ->
   run w (reconnectIfNeeded s) = MkRun (Return false) s [] w).
Proof.
  cbv zeta. destruct (reconnectIfNeeded_outcome w s) as (H1 & H2 & H3 & _).
  split; [exact H1|]. split; [exact H2|]. split; [exact H3|]. split.
  - intros Ha. rewrite (reconnectIfNeeded_active s Ha). reflexivity.
  - intros Ha Hc. rewrite (reconnectIfNeeded_nothing_retained s Ha Hc). reflexivity.
Qed.

(** X6: for a call of [executeQuery] that runs with no other call in
    flight, the query counter counts exactly the queries it sends.
    However the call ends (result, driver error, failed reconnect, no
    session), [totalQueries] has gone up by the number of queries sent to
    the driver, which is at most one; at most one pool has been opened on
    the way; and a call that sent no query has thrown the not-connected
    error. *)
Theorem X6_executeQuery_counts_what_it_sends (sqlText : string) (params : list Param)
    (w : list Reply) (s : State) :
  let r := run w (executeQuery sqlText params s) in
  totalQueries (connectionStats (final r))
    = totalQueries (connectionStats s) + Z.of_nat (queries_sent (trace r)) /\
  (queries_sent (trace r) <= 1)%nat /\
  (pool_opens (trace r) <= 1)%nat /\
  (queries_sent (trace r) = 0%nat -> result r = Throw not_connected_error).
Proof.
  cbv zeta. rewrite executeQuery_parts, run_bindS.
  destruct (reconnectIfNeeded_outcome w s) as (Hres & Hq & Ho & Ht).
  destruct (run w (reconnectIfNeeded s)) as [res fin tr rst].
  cbn [result final trace rest] in *. subst res.
  destruct (isConnectionActive fin) eqn:Ha; cbn [negb].
  - destruct (isConnectionActive_pool fin Ha) as [h Hp].
    rewrite (run_query_on_pool sqlText params rst fin h Hp). cbv zeta.
    destruct (outcome (fst (next_reply rst _ fin))) as [v|e];
      cbn [after result final trace rest];
      rewrite queries_sent_app, pool_opens_app, Hq; cbn [queries_sent pool_opens
        List.filter length app Nat.add].
    + rewrite updateActivityTime_stats, on_stats_stats. cbn. rewrite Ht.
      repeat split; try lia; try discriminate.
    + rewrite on_stats_stats. cbn. rewrite Ht. repeat split; try lia; try discriminate.
  - unfold throw. cbn [run after result final trace rest].
    rewrite app_nil_r, Hq, Ht. repeat split; try lia.
Qed.

(** ** Failing queries (C8) *)

(** The check [executeQuery] opens with, when it lets the query through:
    on an active session it changes nothing; otherwise it has reconnected,
    which counts as the last activity and re-arms the idle check. *)
Lemma reconnectIfNeeded_let_through (w : list Reply) (s : State) :
  result (run w (reconnectIfNeeded s)) = Return true ->
  let c := run w (reconnectIfNeeded s) in
  let t := now (final c) in
  isConnectionActive (final c) = true /\
  (isConnectionActive s = true -> c = MkRun (Return true) s [] w) /\
  (isConnectionActive s = false ->
     pool_opens (trace c) = 1%nat /\
     lastActivityTime (final c) = Some t /\
     connectionStats (final c) = stats_connect_ok t (connectionStats s) /\
     exists tm, autoDisconnectTimer (final c) = Some tm /\
                In (tm, t + 60000) (timeouts (final c))).
Proof.
  cbv zeta. destruct (isConnectionActive s) eqn:Ha.
  - rewrite (reconnectIfNeeded_active s Ha). cbn [run result final].
    intros _. split; [exact Ha|]. split; [reflexivity|discriminate].
  - destruct (connectionConfig s) as [config|] eqn:Hc.
    + rewrite (reconnectIfNeeded_retained s config Ha Hc), run_catchS, run_bindS.
      pose proof (connectDatabase_returned config w s) as Hret. cbv zeta in Hret.
      destruct (run w (connectDatabase config s)) as [res fin tr rst].
      cbn [result final trace rest] in *.
      destruct res as [b|e]; cbn [run result final trace rest after app]; [|discriminate].
      intros _. destruct (Hret b eq_refl) as (_ & _ & Ho & Hact & _ & Hl & Hst & Ht & _).
      rewrite app_nil_r. split; [exact Hact|]. split; [discriminate|].
      intros _. split; [exact Ho|]. split; [exact Hl|]. split; [exact Hst|exact Ht].
    + rewrite (reconnectIfNeeded_nothing_retained s Ha Hc). cbn. discriminate.
Qed.

Lemma on_stats_set_now (f : Stats -> Stats) (t : Z) (s : State) :
  now (on_stats f (set_now t s)) = t /\
  lastActivityTime (on_stats f (set_now t s)) = lastActivityTime s /\
  autoDisconnectTimer (on_stats f (set_now t s)) = autoDisconnectTimer s /\
  timeouts (on_stats f (set_now t s)) = timeouts s /\
  connectionStats (on_stats f (set_now t s)) = f (connectionStats s).
Proof. splits. Qed.

(** The counters a failed query moves, one by one. *)
Lemma stats_query_failed_counts (st : Stats) :
  let st' := stats_query_failed st in
  totalQueries st' = totalQueries st + 1 /\
  failedQueries st' = failedQueries st + 1 /\
  successfulQueries st' = successfulQueries st /\
  lastQueryTime st' = lastQueryTime st /\
  totalQueryTime st' = totalQueryTime st /\
  averageQueryTime st' = averageQueryTime st /\
  totalConnections st' = totalConnections st /\
  successfulConnections st' = successfulConnections st /\
  failedConnections st' = failedConnections st /\
  lastConnectionTime st' = lastConnectionTime st.
Proof. cbn. splits. Qed.

Lemma forget_session_autoDisconnectTimer (s : State) :
  autoDisconnectTimer (forget_session s) = None.
Proof.
  unfold forget_session, stopHeartbeat. cbn.
  destruct (autoDisconnectTimer s) eqn:E; cbn; destruct (heartbeatTimer s); cbn;
    rewrite ?E; reflexivity.
Qed.

(** The last activity and the idle timer of a state. *)
Lemma on_stats_idle (f : Stats -> Stats) (s : State) :
  lastActivityTime (on_stats f s) = lastActivityTime s /\
  autoDisconnectTimer (on_stats f s) = autoDisconnectTimer s /\
  timeouts (on_stats f s) = timeouts s.
Proof. splits. Qed.

(** A refused open, from the creation of the pool object to the count of
    the failure, touches neither the last activity nor the idle timer. *)
Lemma refused_open_idle (config : Config) (s : State) (e : Err) (t : Z) :
  let s' := on_stats stats_connect_failed
              (drv_settle (OpConnect (length (heap s))) (Rejected e)
                 (set_now t (pool_created config s))) in
  lastActivityTime s' = lastActivityTime s /\
  autoDisconnectTimer s' = autoDisconnectTimer s /\
  timeouts s' = timeouts s /\
  connectionStats s' = stats_connect_failed (connectionStats s).
Proof. splits. Qed.

(** A call of [connectDatabase] that throws, alone on the event loop: it
    has sent no query and counted one failed connection.  When it had a
    pool to close and got as far as opening the new one, the close has
    cleared the last activity and the idle timer; otherwise both are as
    they were. *)
Lemma connectDatabase_threw (config : Config) (w : list Reply) (s : State) (e : Err) :
  result (run w (connectDatabase config s)) = Throw e ->
  let r := run w (connectDatabase config s) in
  queries_sent (trace r) = 0%nat /\
  connectionStats (final r) = stats_connect_failed (connectionStats s) /\
  (connectionPool s <> None -> pool_opens (trace r) = 1%nat ->
     lastActivityTime (final r) = None /\ autoDisconnectTimer (final r) = None) /\
  (connectionPool s = None \/ pool_opens (trace r) = 0%nat ->
     lastActivityTime (final r) = lastActivityTime s /\
     autoDisconnectTimer (final r) = autoDisconnectTimer s /\
     timeouts (final r) = timeouts s).
Proof.
  cbv zeta. destruct (connectionPool s) as [h0|] eqn:Hp.
  - rewrite connectDatabase_parts, run_catchS, run_bindS, (run_close_previous w s h0 Hp).
    cbv zeta. set (rw := next_reply w (OpClose h0) s).
    destruct (outcome (fst rw)) as [v|e0]; cbn [result final trace rest after app].
    + set (s1 := forget_session _).
      assert (Hst1 : connectionStats s1 = connectionStats s).
      { subst s1. rewrite forget_session_stats, drv_settle_stats. reflexivity. }
      assert (Hl1 : lastActivityTime s1 = None) by apply forget_session_lastActivity.
      assert (Ht1 : autoDisconnectTimer s1 = None)
        by apply forget_session_autoDisconnectTimer.
      clearbody s1. rewrite run_open_pool. cbv zeta.
      set (rw' := next_reply (snd rw) _ _).
      destruct (outcome (fst rw')) as [v'|e1]; cbn [result final trace rest after app];
        [discriminate|].
      rewrite count_failed_connection_eq. cbn [run result final trace rest after app].
      intros _.
      destruct (refused_open_idle config s1 e1 (at_time (fst rw'))) as (I1 & I2 & _ & I4).
      cbv zeta in I1, I2, I4. rewrite I1, I2, I4, Hl1, Ht1, Hst1.
      split; [reflexivity|]. split; [reflexivity|]. split; [intros _ _; split; reflexivity|].
      intros [H|H]; discriminate H.
    + rewrite count_failed_connection_eq. cbn [run result final trace rest after app].
      intros _. split; [reflexivity|].
      split; [rewrite on_stats_stats, drv_settle_stats; reflexivity|].
      split; [intros _ H; discriminate H|].
      intros _. destruct (on_stats_idle stats_connect_failed
        (drv_settle (OpClose h0) (Rejected e0) (set_now (at_time (fst rw)) s)))
        as (I1 & I2 & I3).
      rewrite I1, I2, I3. splits.
  - rewrite (run_connectDatabase_fresh config w s Hp). cbv zeta.
    set (rw := next_reply w _ _).
    destruct (outcome (fst rw)) as [v|e0]; cbn [result final trace rest]; [discriminate|].
    intros _.
    destruct (refused_open_idle config s e0 (at_time (fst rw))) as (I1 & I2 & I3 & I4).
    cbv zeta in I1, I2, I3, I4. rewrite I1, I2, I3, I4.
    split; [reflexivity|]. split; [reflexivity|].
    split; [intros H; contradiction|]. intros _. splits.
Qed.

(** The opening check of [executeQuery], when it refuses the query: the
    session was not active, and either there was nothing to reconnect
    with, and nothing has happened, or the reconnect has failed. *)
Lemma reconnectIfNeeded_refused (w : list Reply) (s : State) :
  result (run w (reconnectIfNeeded s)) = Return false ->
  let c := run w (reconnectIfNeeded s) in
  isConnectionActive s = false /\
  queries_sent (trace c) = 0%nat /\
  (connectionConfig s = None -> c = MkRun (Return false) s [] w) /\
  (connectionConfig s <> None ->
     connectionStats (final c) = stats_connect_failed (connectionStats s) /\
     (connectionPool s <> None -> pool_opens (trace c) = 1%nat ->
        lastActivityTime (final c) = None /\ autoDisconnectTimer (final c) = None) /\
     (connectionPool s = None \/ pool_opens (trace c) = 0%nat ->
        lastActivityTime (final c) = lastActivityTime s /\
        autoDisconnectTimer (final c) = autoDisconnectTimer s /\
        timeouts (final c) = timeouts s)).
Proof.
  cbv zeta. destruct (isConnectionActive s) eqn:Ha.
  - rewrite (reconnectIfNeeded_active s Ha). cbn [run result]. discriminate.
  - destruct (connectionConfig s) as [config|] eqn:Hc.
    + rewrite (reconnectIfNeeded_retained s config Ha Hc), run_catchS, run_bindS.
      pose proof (connectDatabase_threw config w s) as Hthrew. cbv zeta in Hthrew.
      destruct (run w (connectDatabase config s)) as [res fin tr rst].
      cbn [result final trace rest] in *.
      destruct res as [b|e]; cbn [run result final trace rest after app]; [discriminate|].
      intros _. destruct (Hthrew e eq_refl) as (Hq & Hst & Hclosed & Hkept).
      rewrite app_nil_r. split; [reflexivity|]. split; [exact Hq|].
      split; [discriminate|]. intros _. split; [exact Hst|]. split; assumption.
    + rewrite (reconnectIfNeeded_nothing_retained s Ha Hc). cbn [run result final trace].
      intros _. split; [reflexivity|]. split; [reflexivity|]. split; [reflexivity|].
      intros H. contradiction.
Qed.

(** [reconnectIfNeeded] returns; it does not throw. *)
Lemma reconnectIfNeeded_returns (w : list Reply) (s : State) :
  result (run w (reconnectIfNeeded s)) = Return true \/
  result (run w (reconnectIfNeeded s)) = Return false.
Proof.
  destruct (reconnectIfNeeded_outcome w s) as (H & _). cbv zeta in H. rewrite H.
  destruct (isConnectionActive _); auto.
Qed.

(** A call of [executeQuery] whose opening check lets the query through
    and which throws: the query was sent and rejected, and the failure
    path has counted it and rethrown the error. *)
Lemma failed_query_sent (sqlText : string) (params : list Param)
    (s : State) (w : list Reply) (e : Err) :
  result (run w (reconnectIfNeeded s)) = Return true ->
  result (run w (executeQuery sqlText params s)) = Throw e ->
  let c := run w (reconnectIfNeeded s) in
  let r := run w (executeQuery sqlText params s) in
  let st := connectionStats s in
  let st' := connectionStats (final r) in
  (exists h, connectionPool (final c) = Some h /\
     trace r = (trace c ++ [OpQuery h sqlText (List.filter bindable params)])%list /\
     outcome (fst (next_reply (rest c)
                     (OpQuery h sqlText (List.filter bindable params)) (final c)))
       = Rejected e) /\
  final r = on_stats stats_query_failed (set_now (now (final r)) (final c)) /\
  totalQueries st' = totalQueries st + 1 /\
  failedQueries st' = failedQueries st + 1 /\
  successfulQueries st' = successfulQueries st /\
  lastQueryTime st' = lastQueryTime st /\
  totalQueryTime st' = totalQueryTime st /\
  averageQueryTime st' = averageQueryTime st /\
  lastActivityTime (final r) = lastActivityTime (final c) /\
  autoDisconnectTimer (final r) = autoDisconnectTimer (final c) /\
  timeouts (final r) = timeouts (final c) /\
  (isConnectionActive s = true ->
     final c = s /\
     final r = on_stats stats_query_failed (set_now (now (final r)) s) /\
     lastActivityTime (final r) = lastActivityTime s /\
     autoDisconnectTimer (final r) = autoDisconnectTimer s /\
     timeouts (final r) = timeouts s /\
     connectionStats (final r) = stats_query_failed (connectionStats s)) /\
  (isConnectionActive s = false ->
     pool_opens (trace r) = 1%nat /\
     lastActivityTime (final r) = Some (now (final c)) /\
     (exists tm, autoDisconnectTimer (final r) = Some tm /\
                 In (tm, now (final c) + 60000) (timeouts (final r))) /\
     connectionStats (final r)
       = stats_query_failed (stats_connect_ok (now (final c)) (connectionStats s))).
Proof.
  intros Hc. cbv zeta.
  destruct (reconnectIfNeeded_let_through w s Hc) as (Hact & Hon & Hoff).
  cbv zeta in Hon, Hoff.
  rewrite executeQuery_parts, run_bindS.
  destruct (run w (reconnectIfNeeded s)) as [res fin tr rst].
  cbn [result final trace rest] in *. subst res. cbn [negb].
  destruct (isConnectionActive_pool fin Hact) as [h Hp].
  rewrite (run_query_on_pool sqlText params rst fin h Hp). cbv zeta.
  set (op := OpQuery h sqlText (List.filter bindable params)).
  set (rw := next_reply rst op fin).
  destruct (outcome (fst rw)) as [v|e0] eqn:Ho; cbn [after result final trace rest];
    [discriminate|].
  intros [= <-].
  destruct (on_stats_set_now stats_query_failed (at_time (fst rw)) fin)
    as (Hn & Hl & Ht & Hto & Hst).
  rewrite Hn, Hl, Ht, Hto, Hst.
  assert (Hq : connectionStats fin = connectionStats s \/
               connectionStats fin = stats_connect_ok (now fin) (connectionStats s)).
  { destruct (isConnectionActive s).
    - left. injection (Hon eq_refl) as <- _ _. reflexivity.
    - right. destruct (Hoff eq_refl) as (_ & _ & H & _). exact H. }
  split; [exists h; split; [exact Hp|split; [reflexivity|exact Ho]]|].
  split; [reflexivity|].
  destruct (stats_query_failed_counts (connectionStats fin))
    as (Q1 & Q2 & Q3 & Q4 & Q5 & Q6 & _). cbv zeta in *.
  rewrite Q1, Q2, Q3, Q4, Q5, Q6.
  assert (Hsame : totalQueries (connectionStats fin) = totalQueries (connectionStats s) /\
                  failedQueries (connectionStats fin) = failedQueries (connectionStats s) /\
                  successfulQueries (connectionStats fin)
                    = successfulQueries (connectionStats s) /\
                  lastQueryTime (connectionStats fin) = lastQueryTime (connectionStats s) /\
                  totalQueryTime (connectionStats fin) = totalQueryTime (connectionStats s) /\
                  averageQueryTime (connectionStats fin)
                    = averageQueryTime (connectionStats s)).
  { destruct Hq as [-> | ->]; cbn; splits. }
  destruct Hsame as (S1 & S2 & S3 & S4 & S5 & S6). rewrite S1, S2, S3, S4, S5, S6.
  repeat (split; [reflexivity|]).
  split.
  - intros Ha. injection (Hon Ha) as <- _ _. splits.
  - intros Ha. destruct (Hoff Ha) as (O1 & O2 & O3 & O4).
    rewrite pool_opens_app, O1, O2, O3. cbn [pool_opens List.filter length Nat.add].
    splits.
Qed.

(** A call of [executeQuery] whose opening check refuses the query. *)
Lemma failed_query_refused (sqlText : string) (params : list Param)
    (s : State) (w : list Reply) :
  result (run w (reconnectIfNeeded s)) = Return false ->
  let c := run w (reconnectIfNeeded s) in
  let r := run w (executeQuery sqlText params s) in
  let st := connectionStats s in
  let st' := connectionStats (final r) in
  r = MkRun (Throw not_connected_error) (final c) (trace c) (rest c) /\
  isConnectionActive s = false /\
  queries_sent (trace r) = 0%nat /\
  totalQueries st' = totalQueries st /\
  failedQueries st' = failedQueries st /\
  successfulQueries st' = successfulQueries st /\
  (connectionConfig s = None -> final r = s /\ trace r = []) /\
  (connectionConfig s <> None ->
     totalConnections st' = totalConnections st + 1 /\
     failedConnections st' = failedConnections st + 1 /\
     successfulConnections st' = successfulConnections st /\
     (connectionPool s <> None -> pool_opens (trace r) = 1%nat ->
        lastActivityTime (final r) = None /\ autoDisconnectTimer (final r) = None) /\
     (connectionPool s = None \/ pool_opens (trace r) = 0%nat ->
        lastActivityTime (final r) = lastActivityTime s /\
        autoDisconnectTimer (final r) = autoDisconnectTimer s /\
        timeouts (final r) = timeouts s)).
Proof.
  intros Hc. cbv zeta.
  destruct (reconnectIfNeeded_refused w s Hc) as (Ha & Hq & Hnone & Hsome).
  cbv zeta in Hnone, Hsome.
  rewrite executeQuery_parts, run_bindS.
  destruct (run w (reconnectIfNeeded s)) as [res fin tr rst].
  cbn [result final trace rest] in *. subst res. cbn [negb].
  unfold throw, after. cbn [run result final trace rest]. rewrite app_nil_r.
  split; [reflexivity|]. split; [exact Ha|]. split; [exact Hq|].
  assert (Hst : connectionStats fin = connectionStats s \/
                connectionStats fin = stats_connect_failed (connectionStats s)).
  { destruct (connectionConfig s) as [config|].
    - right. apply Hsome. discriminate.
    - left. injection (Hnone eq_refl) as <- _ _. reflexivity. }
  split; [destruct Hst as [-> | ->]; reflexivity|].
  split; [destruct Hst as [-> | ->]; reflexivity|].
  split; [destruct Hst as [-> | ->]; reflexivity|].
  split.
  - intros H. injection (Hnone H) as <- <- _. split; reflexivity.
  - intros H. destruct (Hsome H) as (S1 & S2 & S3). rewrite S1.
    split; [reflexivity|]. split; [reflexivity|]. split; [reflexivity|].
    split; assumption.
Qed.

(** C8, counterexample: failing calls on a session whose connection was
    lost, with the last activity at 1200 and the idle check due at 61200.
    [executeQuery] attempts a reconnect first.  In [r] the stale pool
    closes at 6000, the new one opens at 6500 and the query is rejected
    at 7000: the query is counted as failed, and the last activity is now
    6500 with the check due at 66500.  In [r'] the stale pool closes and
    the new one is refused: the call fails without a query being counted,
    and the last activity and the idle check are gone. *)
Lemma C8_counterexample :
  let r := run [resolves 0 6000; resolves 0 6500; rejects 0 7000 "Invalid object name"]
               (executeQuery "SELECT * FROM missing" [] dropped_state) in
  let r' := run [resolves 0 6000; refuses 0 6500 "Login failed for user 'app'"]
                (executeQuery "SELECT * FROM missing" [] dropped_state) in
  lastActivityTime dropped_state = Some 1200 /\
  map snd (timeouts dropped_state) = [61200] /\
  (result r = Throw (MkErr "RequestError" "Invalid object name") /\
   failedQueries (connectionStats (final r))
     = failedQueries (connectionStats dropped_state) + 1 /\
   lastActivityTime (final r) = Some 6500 /\
   map snd (timeouts (final r)) = [66500] /\
   lastActivityTime (final r) <> lastActivityTime dropped_state) /\
  (result r' = Throw not_connected_error /\
   failedQueries (connectionStats (final r'))
     = failedQueries (connectionStats dropped_state) /\
   lastActivityTime (final r') = None /\
   timeouts (final r') = [] /\
   lastActivityTime (final r') <> lastActivityTime dropped_state).
Proof. vm_compute. repeat split; discriminate. Qed.

(** C8 (amended): a query that fails does not itself touch the last
    activity; what changes it is the reconnect that [executeQuery]
    attempts first on a session that is not active.  A call of
    [executeQuery] that throws, alone on the event loop, has passed its
    opening check ([c], the run of [reconnectIfNeeded]) or was refused by
    it.

    When the check let the query through, the query was sent on the pool
    in [connectionPool] and the error thrown is the one the driver
    rejected it with; the state is the one the check left, but for the
    clock and for [totalQueries] and [failedQueries], which are up by
    one; [lastActivityTime] and the pending idle check are as the check
    left them.  On a session that was active at the call the check
    changes nothing, so they are as before the call; on a session that
    was not, the check has reconnected, the last activity is the time of
    that connect and the idle check is due one minute after it.

    When the check refused, the session was not active, the error is the
    not-connected error and no query was sent or counted.  With no
    configuration retained nothing has changed at all; otherwise the
    reconnect has failed and is counted as a failed connection, and the
    last activity and the idle timer are cleared when the stale pool was
    closed before the open failed, and as before the call when not. *)
Theorem C8_failed_query_keeps_lastActivity (sqlText : string) (params : list Param)
    (s : State) (w : list Reply) (e : Err) :
  result (run w (executeQuery sqlText params s)) = Throw e ->
  let c := run w (reconnectIfNeeded s) in
  let r := run w (executeQuery sqlText params s) in
  let st := connectionStats s in
  let st' := connectionStats (final r) in
  (result c = Return true \/ result c = Return false) /\
  (result c = Return true ->
     (exists h, connectionPool (final c) = Some h /\
        trace r = (trace c ++ [OpQuery h sqlText (List.filter bindable params)])%list /\
        outcome (fst (next_reply (rest c)
                        (OpQuery h sqlText (List.filter bindable params)) (final c)))
          = Rejected e) /\
     final r = on_stats stats_query_failed (set_now (now (final r)) (final c)) /\
     totalQueries st' = totalQueries st + 1 /\
     failedQueries st' = failedQueries st + 1 /\
     successfulQueries st' = successfulQueries st /\
     lastQueryTime st' = lastQueryTime st /\
     totalQueryTime st' = totalQueryTime st /\
     averageQueryTime st' = averageQueryTime st /\
     lastActivityTime (final r) = lastActivityTime (final c) /\
     autoDisconnectTimer (final r) = autoDisconnectTimer (final c) /\
     timeouts (final r) = timeouts (final c) /\
     (isConnectionActive s = true ->
        final c = s /\
        final r = on_stats stats_query_failed (set_now (now (final r)) s) /\
        lastActivityTime (final r) = lastActivityTime s /\
        autoDisconnectTimer (final r) = autoDisconnectTimer s /\
        timeouts (final r) = timeouts s /\
        connectionStats (final r) = stats_query_failed (connectionStats s)) /\
     (isConnectionActive s = false ->
        pool_opens (trace r) = 1%nat /\
        lastActivityTime (final r) = Some (now (final c)) /\
        (exists tm, autoDisconnectTimer (final r) = Some tm /\
                    In (tm, now (final c) + 60000) (timeouts (final r))) /\
        connectionStats (final r)
          = stats_query_failed (stats_connect_ok (now (final c)) (connectionStats s)))) /\
  (result c = Return false ->
     e = not_connected_error /\
     isConnectionActive s = false /\
     queries_sent (trace r) = 0%nat /\
     totalQueries st' = totalQueries st /\
     failedQueries st' = failedQueries st /\
     successfulQueries st' = successfulQueries st /\
     (connectionConfig s = None -> final r = s /\ trace r = []) /\
     (connectionConfig s <> None ->
        totalConnections st' = totalConnections st + 1 /\
        failedConnections st' = failedConnections st + 1 /\
        successfulConnections st' = successfulConnections st /\
        (connectionPool s <> None -> pool_opens (trace r) = 1%nat ->
           lastActivityTime (final r) = None /\ autoDisconnectTimer (final r) = None) /\
        (connectionPool s = None \/ pool_opens (trace r) = 0%nat ->
           lastActivityTime (final r) = lastActivityTime s /\
           autoDisconnectTimer (final r) = autoDisconnectTimer s /\
           timeouts (final r) = timeouts s))).
Proof.
  intros Hr. cbv zeta. split; [apply reconnectIfNeeded_returns|]. split.
  - intros Hc. exact (failed_query_sent sqlText params s w e Hc Hr).
  - intros Hc.
    destruct (failed_query_refused sqlText params s w Hc) as (Hrun & Hrest).
    cbv zeta in Hrun, Hrest. split; [|exact Hrest].
    rewrite Hrun in Hr. cbn [result] in Hr. congruence.
Qed.

Lemma C8_witness :
  let sqlText := "SELECT * FROM missing" in
  let params : list Param := [] in
  let w := [resolves 0 6000; resolves 0 6500; rejects 0 7000 "Invalid object name"] in
  let e := MkErr "RequestError" "Invalid object name" in
  let s := dropped_state in
  let c := run w (reconnectIfNeeded s) in
  let r := run w (executeQuery sqlText params s) in
  let st := connectionStats s in
  let st' := connectionStats (final r) in
  (result c = Return true \/ result c = Return false) /\
  (result c = Return true ->
     (exists h, connectionPool (final c) = Some h /\
        trace r = (trace c ++ [OpQuery h sqlText (List.filter bindable params)])%list /\
        outcome (fst (next_reply (rest c)
                        (OpQuery h sqlText (List.filter bindable params)) (final c)))
          = Rejected e) /\
     final r = on_stats stats_query_failed (set_now (now (final r)) (final c)) /\
     totalQueries st' = totalQueries st + 1 /\
     failedQueries st' = failedQueries st + 1 /\
     successfulQueries st' = successfulQueries st /\
     lastQueryTime st' = lastQueryTime st /\
     totalQueryTime st' = totalQueryTime st /\
     averageQueryTime st' = averageQueryTime st /\
     lastActivityTime (final r) = lastActivityTime (final c) /\
     autoDisconnectTimer (final r) = autoDisconnectTimer (final c) /\
     timeouts (final r) = timeouts (final c) /\
     (isConnectionActive s = true ->
        final c = s /\
        final r = on_stats stats_query_failed (set_now (now (final r)) s) /\
        lastActivityTime (final r) = lastActivityTime s /\
        autoDisconnectTimer (final r) = autoDisconnectTimer s /\
        timeouts (final r) = timeouts s /\
        connectionStats (final r) = stats_query_failed (connectionStats s)) /\
     (isConnectionActive s = false ->
        pool_opens (trace r) = 1%nat /\
        lastActivityTime (final r) = Some (now (final c)) /\
        (exists tm, autoDisconnectTimer (final r) = Some tm /\
                    In (tm, now (final c) + 60000) (timeouts (final r))) /\
        connectionStats (final r)
          = stats_query_failed (stats_connect_ok (now (final c)) (connectionStats s)))) /\
  (result c = Return false ->
     e = not_connected_error /\
     isConnectionActive s = false /\
     queries_sent (trace r) = 0%nat /\
     totalQueries st' = totalQueries st /\
     failedQueries st' = failedQueries st /\
     successfulQueries st' = successfulQueries st /\
     (connectionConfig s = None -> final r = s /\ trace r = []) /\
     (connectionConfig s <> None ->
        totalConnections st' = totalConnections st + 1 /\
        failedConnections st' = failedConnections st + 1 /\
        successfulConnections st' = successfulConnections st /\
        (connectionPool s <> None -> pool_opens (trace r) = 1%nat ->
           lastActivityTime (final r) = None /\ autoDisconnectTimer (final r) = None) /\
        (connectionPool s = None \/ pool_opens (trace r) = 0%nat ->
           lastActivityTime (final r) = lastActivityTime s /\
           autoDisconnectTimer (final r) = autoDisconnectTimer s /\
           timeouts (final r) = timeouts s))).
Proof.
  apply (C8_failed_query_keeps_lastActivity "SELECT * FROM missing" [] dropped_state
           [resolves 0 6000; resolves 0 6500; rejects 0 7000 "Invalid object name"]
           (MkErr "RequestError" "Invalid object name")).
  vm_compute. reflexivity.
Defined.

(** ** Queries *)

(** X7: a query the driver answers, on an active session: the result
    carries the rows (an absent recordset reads as empty, with row count
    0) and the elapsed time; exactly one query has gone to the pool in
    [connectionPool]; the statistics count one more query, a successful
    one, add the elapsed time and set the average to total time over
    total queries; the query is the last activity and the idle check is
    re-armed one minute after it. *)
Theorem X7_answered_query_is_recorded (sqlText : string) (params : list Param)
    (s : State) (r0 : Reply) (v : DrvResult) (w : list Reply) :
  isConnectionActive s = true ->
  outcome r0 = Resolved v ->
  let r := run (r0 :: w) (executeQuery sqlText params s) in
  let t := at_time r0 in
  let st := connectionStats s in
  let st' := connectionStats (final r) in
  (exists q, result r = Return q /\
     success q = true /\
     rowsAffected q = drv_rowsAffected v /\
     recordset q = default [] (drv_recordset v) /\
     rowCount q = Z.of_nat (length (recordset q)) /\
     queryTime q = t - now s) /\
  (exists h, connectionPool s = Some h /\
             trace r = [OpQuery h sqlText (List.filter bindable params)]) /\
  totalQueries st' = totalQueries st + 1 /\
  successfulQueries st' = successfulQueries st + 1 /\
  failedQueries st' = failedQueries st /\
  lastQueryTime st' = Some t /\
  totalQueryTime st' = totalQueryTime st + (t - now s) /\
  averageQueryTime st' = (inject_Z (totalQueryTime st') / inject_Z (totalQueries st'))%Q /\
  lastActivityTime (final r) = Some t /\
  (exists tm, autoDisconnectTimer (final r) = Some tm /\
              In (tm, t + 60000) (timeouts (final r))).
Proof.
  intros Ha Ho. cbv zeta. destruct (isConnectionActive_pool s Ha) as [h Hp].
  rewrite (run_executeQuery_active sqlText params (r0 :: w) s h Ha Hp).
  cbn [next_reply fst snd]. rewrite Ho. cbn [result final trace].
  set (s1 := on_stats _ (set_now (at_time r0) s)).
  destruct (updateActivityTime_arms s1) as (tm & T1 & T2 & _).
  rewrite updateActivityTime_stats, updateActivityTime_lastActivity.
  split.
  { eexists. split; [reflexivity|]. cbn. splits. destruct (drv_recordset v); reflexivity. }
  split; [exists h; split; [exact Hp|reflexivity]|].
  subst s1. rewrite on_stats_stats. cbn. splits. exists tm. auto.
Qed.

Lemma X7_witness :
  let r := run [resolves 0 7000] (executeQuery "SELECT 1" [] connected_state) in
  let t := 7000 in
  let st := connectionStats connected_state in
  let st' := connectionStats (final r) in
  (exists q, result r = Return q /\
     success q = true /\
     rowsAffected q = drv_rowsAffected one_row /\
     recordset q = default [] (drv_recordset one_row) /\
     rowCount q = Z.of_nat (length (recordset q)) /\
     queryTime q = t - now connected_state) /\
  (exists h, connectionPool connected_state = Some h /\
             trace r = [OpQuery h "SELECT 1" (List.filter bindable [])]) /\
  totalQueries st' = totalQueries st + 1 /\
  successfulQueries st' = successfulQueries st + 1 /\
  failedQueries st' = failedQueries st /\
  lastQueryTime st' = Some t /\
  totalQueryTime st' = totalQueryTime st + (t - now connected_state) /\
  averageQueryTime st' = (inject_Z (totalQueryTime st') / inject_Z (totalQueries st'))%Q /\
  lastActivityTime (final r) = Some t /\
  (exists tm, autoDisconnectTimer (final r) = Some tm /\
              In (tm, t + 60000) (timeouts (final r))).
Proof.
  apply (X7_answered_query_is_recorded "SELECT 1" [] connected_state (resolves 0 7000)
           one_row []); reflexivity.
Defined.

Lemma filter_sublist {X : Type} (f : X -> bool) (l : list X) :
  sublist (List.filter f l) l.
Proof.
  induction l as [|x l IH]; cbn; [constructor|].
  destruct (f x); [apply sublist_skip|apply sublist_cons]; exact IH.
Qed.

Lemma bindable_spec (p : Param) :
  bindable p = true <->
  param_name p <> "" /\ truthy (param_type p) = true /\ param_value p <> JUndefined.
Proof.
  unfold bindable, str_truthy. rewrite !andb_true_iff, negb_true_iff.
  rewrite String.eqb_neq. destruct (param_value p); intuition congruence.
Qed.

(** X8: which parameters reach the driver.  [executeQuery] binds a
    parameter on the request exactly when its name is non-empty, its type
    is truthy and its value is not [undefined] ([null] is bound); the
    others are dropped without any error, and the bound ones keep their
    order. *)
Theorem X8_only_complete_params_are_bound (sqlText : string) (params : list Param)
    (w : list Reply) (s : State) :
  isConnectionActive s = true ->
  exists h inputs,
    connectionPool s = Some h /\
    trace (run w (executeQuery sqlText params s)) = [OpQuery h sqlText inputs] /\
    sublist inputs params /\
    forall p, In p inputs <->
      In p params /\ param_name p <> "" /\ truthy (param_type p) = true /\
      param_value p <> JUndefined.
Proof.
  intros Ha. destruct (isConnectionActive_pool s Ha) as [h Hp].
  exists h, (List.filter bindable params). split; [exact Hp|]. split.
  - rewrite (run_executeQuery_active sqlText params w s h Ha Hp). cbv zeta.
    destruct (outcome _); reflexivity.
  - split; [apply filter_sublist|].
    intros p. rewrite filter_In, bindable_spec. reflexivity.
Qed.

Lemma X8_witness :
  exists h inputs,
    connectionPool connected_state = Some h /\
    trace (run [resolves 0 7000]
             (executeQuery "SELECT @a, @b"
                [MkParam "a" (JStr "Int") JNull; MkParam "b" (JStr "Int") JUndefined]
                connected_state))
      = [OpQuery h "SELECT @a, @b" inputs] /\
    sublist inputs [MkParam "a" (JStr "Int") JNull; MkParam "b" (JStr "Int") JUndefined] /\
    forall p, In p inputs <->
      In p [MkParam "a" (JStr "Int") JNull; MkParam "b" (JStr "Int") JUndefined] /\
      param_name p <> "" /\ truthy (param_type p) = true /\
      param_value p <> JUndefined.
Proof.
  apply (X8_only_complete_params_are_bound "SELECT @a, @b"
           [MkParam "a" (JStr "Int") JNull; MkParam "b" (JStr "Int") JUndefined]
           [resolves 0 7000] connected_state).
  reflexivity.
Defined.

Lemma on_stats_config (f : Stats -> Stats) (s : State) :
  connectionConfig (on_stats f s) = connectionConfig s.
Proof. reflexivity. Qed.

Lemma set_now_pool (t : Z) (s : State) : connectionPool (set_now t s) = connectionPool s.
Proof. reflexivity. Qed.

Lemma set_now_config (t : Z) (s : State) :
  connectionConfig (set_now t s) = connectionConfig s.
Proof. reflexivity. Qed.

Lemma length_heap_forget_session (s : State) :
  length (heap (forget_session s)) = length (heap s).
Proof. rewrite forget_session_heap. reflexivity. Qed.

Lemma length_heap_drv_settle (op : Op) (o : Outcome) (s : State) :
  length (heap (drv_settle op o s)) = length (heap s).
Proof.
  destruct op, o; cbn; try reflexivity; unfold alter_pool; cbn; apply length_alter.
Qed.

(** X9: the reconnect on demand that works.  On a session whose pool
    reads as not connected while the configuration is retained (the
    connection was lost), [executeQuery] closes the stale pool, opens a
    new pool from the retained configuration and sends the query to the
    new pool; with the three promises resolved the caller gets its result
    as if nothing had happened.  The elapsed time of the result starts
    after the reconnect; one successful connection and one successful
    query are counted. *)
Theorem X9_query_reconnects_after_connection_loss (sqlText : string)
    (params : list Param) (s : State) (h0 : nat) (config : Config)
    (r0 r1 r2 : Reply) (v0 v1 v2 : DrvResult) (w : list Reply) :
  connectionPool s = Some h0 ->
  isConnectionActive s = false ->
  connectionConfig s = Some config ->
  outcome r0 = Resolved v0 ->
  outcome r1 = Resolved v1 ->
  outcome r2 = Resolved v2 ->
  let r := run (r0 :: r1 :: r2 :: w) (executeQuery sqlText params s) in
  let hn := length (heap s) in
  let st := connectionStats s in
  let st' := connectionStats (final r) in
  result r = Return (query_result v2 (at_time r2 - at_time r1)) /\
  trace r = [OpClose h0; OpConnect hn; OpQuery hn sqlText (List.filter bindable params)] /\
  rest r = w /\
  connectionPool (final r) = Some hn /\
  isConnectionActive (final r) = true /\
  connectionConfig (final r) = Some config /\
  totalConnections st' = totalConnections st + 1 /\
  successfulConnections st' = successfulConnections st + 1 /\
  totalQueries st' = totalQueries st + 1 /\
  successfulQueries st' = successfulQueries st + 1 /\
  lastActivityTime (final r) = Some (at_time r2).
Proof.
  intros Hp Ha Hc H0 H1 H2. cbv zeta.
  rewrite executeQuery_parts, run_bindS.
  rewrite (run_reconnectIfNeeded_stale config s h0 r0 r1 (r2 :: w) v0 v1 Hp Ha Hc H0 H1).
  cbn [result final trace rest negb].
  set (s1 := forget_session _).
  assert (Hlen : length (heap s1) = length (heap s)).
  { subst s1. rewrite length_heap_forget_session, length_heap_drv_settle. reflexivity. }
  assert (Hst1 : connectionStats s1 = connectionStats s).
  { subst s1. rewrite forget_session_stats, drv_settle_stats. reflexivity. }
  destruct (opened_state config s1 (at_time r1) v1)
    as (Hn & Hpool & _ & Hact & Hcfg & _ & Hst & _).
  cbv zeta in Hn, Hpool, Hact, Hcfg, Hst.
  set (s2 := session_opened config _) in *.
  rewrite Hlen in *. rewrite Hst1 in Hst. clearbody s2. clear Hst1 Hlen. clearbody s1.
  rewrite (run_query_on_pool sqlText params (r2 :: w) s2 _ Hpool).
  cbn [next_reply fst snd]. rewrite H2. cbn [result final trace rest after app].
  rewrite updateActivityTime_pool, updateActivityTime_active, updateActivityTime_config,
    updateActivityTime_stats, updateActivityTime_lastActivity, on_stats_stats, Hn.
  rewrite on_stats_pool, on_stats_active, on_stats_config, set_now_pool, set_now_active,
    set_now_config, set_now_stats, Hpool, Hact, Hcfg, Hst.
  cbn. splits.
Qed.

Lemma X9_witness :
  let r := run [resolves 0 6010; resolves 0 6100; resolves 0 6200]
               (executeQuery "SELECT 1" [] (set_now 6000 dropped_state)) in
  let hn := length (heap (set_now 6000 dropped_state)) in
  let st := connectionStats (set_now 6000 dropped_state) in
  let st' := connectionStats (final r) in
  result r = Return (query_result one_row (6200 - 6100)) /\
  trace r = [OpClose 0; OpConnect hn; OpQuery hn "SELECT 1" (List.filter bindable [])] /\
  rest r = [] /\
  connectionPool (final r) = Some hn /\
  isConnectionActive (final r) = true /\
  connectionConfig (final r) = Some (connect_schema_defaults sample_config) /\
  totalConnections st' = totalConnections st + 1 /\
  successfulConnections st' = successfulConnections st + 1 /\
  totalQueries st' = totalQueries st + 1 /\
  successfulQueries st' = successfulQueries st + 1 /\
  lastActivityTime (final r) = Some 6200.
Proof.
  apply (X9_query_reconnects_after_connection_loss "SELECT 1" []
           (set_now 6000 dropped_state) 0 (connect_schema_defaults sample_config)
           (resolves 0 6010) (resolves 0 6100) (resolves 0 6200)
           one_row one_row one_row []); reflexivity.
Defined.

(** X10: when the reconnect on demand fails, the caller does not see why.
    On a session that is not active but retains its configuration,
    whenever the connect attempt throws (whatever error, at the close or
    at the open), [executeQuery] throws the not-connected error instead,
    sends no query and counts none; what the failed attempt left behind
    (the failed connection in the statistics included) is all that has
    changed.  The tool's answer carries the not-connected message. *)
Theorem X10_failed_reconnect_reads_as_not_connected (sqlText : string)
    (params : list Param) (s : State) (config : Config) (w : list Reply) (e : Err) :
  isConnectionActive s = false ->
  connectionConfig s = Some config ->
  result (run w (connectDatabase config s)) = Throw e ->
  let c := run w (connectDatabase config s) in
  run w (executeQuery sqlText params s)
    = MkRun (Throw not_connected_error) (final c) (trace c) (rest c) /\
  run w (execute_sql sqlText params s)
    = MkRun (Return (ExecFailed (message not_connected_error))) (final c) (trace c) (rest c) /\
  queries_sent (trace c) = 0%nat /\
  totalQueries (connectionStats (final c)) = totalQueries (connectionStats s).
Proof.
  intros Ha Hc He. cbv zeta.
  destruct (connectDatabase_outcome config w s) as (Hq & _ & Ht & _).
  assert (H : run w (executeQuery sqlText params s)
              = MkRun (Throw not_connected_error) (final (run w (connectDatabase config s)))
                      (trace (run w (connectDatabase config s)))
                      (rest (run w (connectDatabase config s)))).
  { rewrite executeQuery_parts, run_bindS.
    rewrite (reconnectIfNeeded_retained s config Ha Hc), run_catchS, run_bindS.
    destruct (run w (connectDatabase config s)) as [res fin tr rst].
    cbn [result final trace rest] in *. subst res.
    cbn [run result final trace rest after app negb]. unfold throw, after.
    cbn [run result final trace rest app]. rewrite !app_nil_r. reflexivity. }
  split; [exact H|]. split; [|split; assumption].
  unfold execute_sql. unfold_async. rewrite run_catchS, run_bindS, H.
  unfold after. cbn [run result final trace rest app]. rewrite ?app_nil_r. reflexivity.
Qed.

Lemma X10_witness :
  let c := run [resolves 0 6010; refuses 0 6100 "Login failed for user 'app'"]
               (connectDatabase (connect_schema_defaults sample_config)
                                (set_now 6000 dropped_state)) in
  run [resolves 0 6010; refuses 0 6100 "Login failed for user 'app'"]
      (executeQuery "SELECT 1" [] (set_now 6000 dropped_state))
    = MkRun (Throw not_connected_error) (final c) (trace c) (rest c) /\
  run [resolves 0 6010; refuses 0 6100 "Login failed for user 'app'"]
      (execute_sql "SELECT 1" [] (set_now 6000 dropped_state))
    = MkRun (Return (ExecFailed (message not_connected_error))) (final c) (trace c) (rest c) /\
  queries_sent (trace c) = 0%nat /\
  totalQueries (connectionStats (final c))
    = totalQueries (connectionStats (set_now 6000 dropped_state)).
Proof.
  apply (X10_failed_reconnect_reads_as_not_connected "SELECT 1" []
           (set_now 6000 dropped_state) (connect_schema_defaults sample_config)
           [resolves 0 6010; refuses 0 6100 "Login failed for user 'app'"]
           (MkErr "ConnectionError" "Login failed for user 'app'"));
    reflexivity.
Defined.

(** ** The heartbeat and the idle check *)

Lemma run_heartbeat_callback (s : State) (h : nat) (w : list Reply) :
  isConnectionActive s = true ->
  connectionPool s = Some h ->
  let op := OpQuery h "SELECT 1 as heartbeat" [] in
  let rw := next_reply w op s in
  run w (heartbeat_callback s) =
    match outcome (fst rw) with
    | Resolved _ => MkRun (Return tt) (updateActivityTime (set_now (at_time (fst rw)) s))
                          [op] (snd rw)
    | Rejected _ => MkRun (Return tt) (set_now (at_time (fst rw)) s) [op] (snd rw)
    end.
Proof.
  intros Ha Hp. cbn zeta. unfold heartbeat_callback, pool_request, await. unfold_async. cbn.
  rewrite Ha. cbn. rewrite Hp. cbn.
  destruct (outcome (fst (next_reply w _ s))); reflexivity.
Qed.

Lemma heartbeat_callback_inactive (s : State) :
  isConnectionActive s = false -> heartbeat_callback s = Done (Return tt) s.
Proof.
  intros Ha. unfold heartbeat_callback. unfold_async. cbn. rewrite Ha. reflexivity.
Qed.

(** The idle check on a session whose last activity is less than five
    minutes old, or that has no last activity. *)
Lemma autoDisconnect_callback_not_due (s : State) (h : nat) (t0 : Z) :
  connectionPool s = Some h ->
  lastActivityTime s = Some t0 ->
  now s - t0 < 300000 ->
  autoDisconnect_callback s =
    Done (Return tt) (if t0 =? 0 then s else startAutoDisconnectTimer s).
Proof.
  intros Hp Hl Hidle. unfold autoDisconnect_callback. unfold_async. cbn.
  rewrite Hp, Hl. cbn. destruct (t0 =? 0); cbn; [reflexivity|].
  destruct (Z.leb_spec 300000 (now s - t0)) as [|_]; [lia|reflexivity].
Qed.

(** X11: a heartbeat that succeeds counts as activity but not as a query.
    On an active session the callback sends [SELECT 1 as heartbeat] with
    no inputs to the pool; when it resolves, the time of the answer
    becomes the last activity and the idle check is re-armed one minute
    later, while the statistics stay as they were.  Any idle check that
    runs less than five minutes after it closes nothing: as long as
    heartbeats succeed, the session is not closed for inactivity. *)
Theorem X11_heartbeat_is_activity_but_no_query (s : State) (r0 : Reply) (v : DrvResult)
    (w : list Reply) :
  isConnectionActive s = true ->
  outcome r0 = Resolved v ->
  let r := run (r0 :: w) (heartbeat_callback s) in
  let t := at_time r0 in
  result r = Return tt /\
  (exists h, connectionPool s = Some h /\
             trace r = [OpQuery h "SELECT 1 as heartbeat" []]) /\
  lastActivityTime (final r) = Some t /\
  connectionStats (final r) = connectionStats s /\
  (exists tm, autoDisconnectTimer (final r) = Some tm /\
              In (tm, t + 60000) (timeouts (final r))) /\
  forall t' w', t' - t < 300000 ->
    let r' := run w' (autoDisconnect_callback (set_now t' (final r))) in
    result r' = Return tt /\ trace r' = [] /\
    connectionPool (final r') = connectionPool s /\
    connectionConfig (final r') = connectionConfig s.
Proof.
  intros Ha Ho. cbv zeta. destruct (isConnectionActive_pool s Ha) as [h Hp].
  rewrite (run_heartbeat_callback s h (r0 :: w) Ha Hp). cbn [next_reply fst snd].
  rewrite Ho. cbn [result final trace].
  set (s0 := set_now (at_time r0) s).
  destruct (updateActivityTime_arms s0) as (tm & T1 & T2 & _).
  rewrite updateActivityTime_lastActivity, updateActivityTime_stats.
  split; [reflexivity|]. split; [exists h; auto|]. split; [reflexivity|].
  split; [reflexivity|]. split; [exists tm; auto|].
  intros t' w' Hidle.
  set (s1 := set_now t' (updateActivityTime s0)).
  assert (Hp1 : connectionPool s1 = Some h).
  { subst s1. rewrite set_now_pool, updateActivityTime_pool. exact Hp. }
  assert (Hc1 : connectionConfig s1 = connectionConfig s).
  { subst s1. rewrite set_now_config, updateActivityTime_config. reflexivity. }
  assert (Hl1 : lastActivityTime s1 = Some (at_time r0)).
  { subst s1. change (lastActivityTime (set_now t' ?x)) with (lastActivityTime x).
    apply updateActivityTime_lastActivity. }
  rewrite (autoDisconnect_callback_not_due s1 h (at_time r0) Hp1 Hl1 Hidle).
  cbn [run result final trace]. split; [reflexivity|]. split; [reflexivity|].
  destruct (at_time r0 =? 0).
  - rewrite Hp1, Hc1, Hp. auto.
  - destruct (startAutoDisconnectTimer_session s1) as (E1 & _ & E2 & _).
    rewrite E1, E2, Hp1, Hc1, Hp. auto.
Qed.

Lemma X11_witness :
  let r := run [resolves 0 121300] (heartbeat_callback (set_now 121200 connected_state)) in
  let t := 121300 in
  result r = Return tt /\
  (exists h, connectionPool (set_now 121200 connected_state) = Some h /\
             trace r = [OpQuery h "SELECT 1 as heartbeat" []]) /\
  lastActivityTime (final r) = Some t /\
  connectionStats (final r) = connectionStats (set_now 121200 connected_state) /\
  (exists tm, autoDisconnectTimer (final r) = Some tm /\
              In (tm, t + 60000) (timeouts (final r))) /\
  forall t' w', t' - t < 300000 ->
    let r' := run w' (autoDisconnect_callback (set_now t' (final r))) in
    result r' = Return tt /\ trace r' = [] /\
    connectionPool (final r') = connectionPool (set_now 121200 connected_state) /\
    connectionConfig (final r') = connectionConfig (set_now 121200 connected_state).
Proof.
  apply (X11_heartbeat_is_activity_but_no_query (set_now 121200 connected_state)
           (resolves 0 121300) one_row []); reflexivity.
Defined.

(** X12: the heartbeat never throws and never repairs anything.  Whatever
    the driver does, the callback completes normally.  On a session that
    is not active it awaits nothing and changes nothing; when its query
    is rejected, nothing of the session changes either (only the clock
    has moved): the last activity is not updated, nothing is counted and
    no reconnect is attempted. *)
Theorem X12_heartbeat_never_throws (s : State) (w : list Reply) :
  result (run w (heartbeat_callback s)) = Return tt /\
  pool_opens (trace (run w (heartbeat_callback s))) = 0%nat /\
  (isConnectionActive s = false ->
   run w (heartbeat_callback s) = MkRun (Return tt) s [] w) /\
  (forall r0 w' e, isConnectionActive s = true -> outcome r0 = Rejected e ->
   final (run (r0 :: w') (heartbeat_callback s)) = set_now (at_time r0) s).
Proof.
  destruct (isConnectionActive s) eqn:Ha.
  - destruct (isConnectionActive_pool s Ha) as [h Hp].
    rewrite (run_heartbeat_callback s h w Ha Hp). cbv zeta.
    split; [destruct (outcome _); reflexivity|].
    split; [destruct (outcome _); reflexivity|].
    split; [discriminate|].
    intros r0 w' e _ Ho. rewrite (run_heartbeat_callback s h (r0 :: w') Ha Hp).
    cbn [next_reply fst snd]. rewrite Ho. reflexivity.
  - rewrite (heartbeat_callback_inactive s Ha). cbn. splits. discriminate.
Qed.

(** X13: an idle check that comes before five minutes of inactivity
    closes nothing and re-arms itself: with a pool held and a last
    activity less than 300000 ms old, the callback awaits nothing, leaves
    pool, configuration, last activity and statistics alone and schedules
    the next check 60000 ms later.  So the session is closed by the first
    check at or after the five minutes, up to a minute late. *)
Theorem X13_idle_check_rearms_until_due (s : State) (h : nat) (t0 : Z) (w : list Reply) :
  connectionPool s = Some h ->
  lastActivityTime s = Some t0 ->
  t0 <> 0 ->
  now s - t0 < 300000 ->
  let r := run w (autoDisconnect_callback s) in
  result r = Return tt /\ trace r = [] /\ rest r = w /\
  connectionPool (final r) = Some h /\
  connectionConfig (final r) = connectionConfig s /\
  lastActivityTime (final r) = Some t0 /\
  connectionStats (final r) = connectionStats s /\
  (exists tm, autoDisconnectTimer (final r) = Some tm /\
              In (tm, now s + 60000) (timeouts (final r))) /\
  (now s + 60000) - t0 < 360000.
Proof.
  intros Hp Hl Hz Hidle. cbv zeta.
  rewrite (autoDisconnect_callback_not_due s h t0 Hp Hl Hidle).
  destruct (Z.eqb_spec t0 0) as [|_]; [contradiction|]. cbn [run result final trace rest].
  destruct (startAutoDisconnectTimer_session s) as (E1 & _ & E2 & E3 & E4).
  destruct (startAutoDisconnectTimer_arms s) as (tm & T1 & T2 & _).
  rewrite E1, E2, E3, E4. splits; [exists tm; auto|lia].
Qed.

Lemma X13_witness :
  let s := set_now 61200 (clearTimeout 0 connected_state) in
  let r := run [] (autoDisconnect_callback s) in
  result r = Return tt /\ trace r = [] /\ rest r = [] /\
  connectionPool (final r) = Some 0%nat /\
  connectionConfig (final r) = connectionConfig s /\
  lastActivityTime (final r) = Some 1200 /\
  connectionStats (final r) = connectionStats s /\
  (exists tm, autoDisconnectTimer (final r) = Some tm /\
              In (tm, now s + 60000) (timeouts (final r))) /\
  (now s + 60000) - 1200 < 360000.
Proof.
  apply (X13_idle_check_rearms_until_due (set_now 61200 (clearTimeout 0 connected_state))
           0%nat 1200 []); [reflexivity|reflexivity|discriminate|reflexivity].
Defined.

(** X14: when the idle check finds the session idle and the pool then
    fails to close, the watchdog is gone.  The check that fired is no
    longer pending, the callback throws the error of the close before
    anything is re-armed, and the session stays as it was, pool and
    configuration included: in a state the server has reached, no idle
    check is pending afterwards, so the idle session stays open until
    some later activity arms a new check. *)
Theorem X14_failed_idle_close_stops_the_watchdog (es : list Event) (tm : nat) (now' : Z)
    (h : nat) (t0 : Z) (r0 : Reply) (e : Err) (w : list Reply) (c : Step unit) :
  let s := set_now now' (perform_all es init_state) in
  fire_timeout tm s = Some c ->
  connectionPool s = Some h ->
  lastActivityTime s = Some t0 ->
  t0 <> 0 ->
  300000 <= now' - t0 ->
  outcome r0 = Rejected e ->
  let r := run (r0 :: w) c in
  result r = Throw e /\
  trace r = [OpClose h] /\
  timeouts (final r) = [] /\
  connectionPool (final r) = Some h /\
  connectionConfig (final r) = connectionConfig s /\
  isConnectionActive (final r) = isConnectionActive s.
Proof.
  intros s Hfire Hp Hl Hz Hidle Ho r. subst r.
  unfold fire_timeout in Hfire.
  destruct (List.find _ (timeouts s)) as [[tm' due]|] eqn:Hfind; [|discriminate].
  injection Hfire as <-.
  apply find_some in Hfind as [Hin Hcond]. cbn [fst snd] in Hcond.
  apply andb_true_iff in Hcond as [Htm _]. apply Nat.eqb_eq in Htm. subst tm'.
  assert (Htidy : timers_tidy s).
  { destruct (reachable_invariant es) as [H _]. revert H.
    apply timers_tidy_same; reflexivity. }
  assert (Hvar : autoDisconnectTimer s = Some tm).
  { destruct Htidy as (H1 & _). apply (H1 (tm, due) Hin). }
  pose proof (tidy_timeouts_cleared s tm Htidy Hvar) as Hclear.
  set (s1 := clearTimeout tm s) in *.
  assert (Hp1 : connectionPool s1 = Some h) by exact Hp.
  assert (Hl1 : lastActivityTime s1 = Some t0) by exact Hl.
  assert (Hidle1 : 300000 <= now s1 - t0) by exact Hidle.
  rewrite (autoDisconnect_callback_idle s1 h t0 Hp1 Hl1 Hz Hidle1), run_bindS.
  rewrite (run_disconnectDatabase s1 h (r0 :: w) Hp1). cbn [next_reply fst snd].
  rewrite Ho. cbn [result final trace rest drv_settle].
  splits.
Qed.

Lemma X14_witness :
  let s := set_now 301300 (perform_all (removelast idle_events) init_state) in
  let r := run [refuses 0 301350 "socket hang up"]
               (autoDisconnect_callback (clearTimeout 5 s)) in
  result r = Throw (MkErr "ConnectionError" "socket hang up") /\
  trace r = [OpClose 0] /\
  timeouts (final r) = [] /\
  connectionPool (final r) = Some 0%nat /\
  connectionConfig (final r) = connectionConfig s /\
  isConnectionActive (final r) = isConnectionActive s.
Proof.
  apply (X14_failed_idle_close_stops_the_watchdog (removelast idle_events) 5 301300 0 1200
           (refuses 0 301350 "socket hang up") (MkErr "ConnectionError" "socket hang up") []
           (autoDisconnect_callback
              (clearTimeout 5 (set_now 301300 (perform_all (removelast idle_events) init_state)))));
    [vm_compute; reflexivity|vm_compute; reflexivity|vm_compute; reflexivity|discriminate
    |vm_compute; discriminate|reflexivity].
Defined.

(** ** The status report *)

(** X17: what [get_connection_status] prints about the idle time, on a
    connected session whose last activity lies [d] milliseconds back
    ([d >= 0]): minutes and seconds add up to the whole seconds of [d],
    with the seconds below 60; the countdown is [300] minus those
    seconds, never negative; and the countdown reads 0 exactly when the
    five minutes are over, which is exactly when an idle check run at
    this moment would start closing the pool instead of re-arming.  The
    tool itself awaits nothing and changes nothing: asking for the status
    is not an activity. *)
Theorem X17_status_countdown_agrees_with_idle_check (s : State) (c : Config) (t0 : Z)
    (w : list Reply) :
  isConnected s = true ->
  connectionConfig s = Some c ->
  lastActivityTime s = Some t0 ->
  t0 <> 0 ->
  t0 <= now s ->
  let d := now s - t0 in
  exists r m sec remaining,
    run w (get_connection_status s) = MkRun (Return (Status r)) s [] w /\
    st_minutesSinceActivity r = Some m /\
    st_secondsSinceActivity r = Some sec /\
    st_remainingTime r = Some remaining /\
    0 <= sec < 60 /\
    m * 60 + sec = d / 1000 /\
    remaining = Z.max 0 (300 - d / 1000) /\
    0 <= remaining <= 300 /\
    (remaining = 0 <-> 300000 <= d) /\
    (remaining = 0 <-> issued (autoDisconnect_callback s) <> []).
Proof.
  intros Hc Hcfg Hl Hz Hle d.
  assert (Hd : 0 <= d) by (subst d; lia).
  assert (Hpool : exists h, connectionPool s = Some h).
  { unfold isConnected in Hc. destruct (connectionPool s) as [h|]; [eauto|discriminate]. }
  destruct Hpool as [h Hp].
  exists {| st_isConnected := true;
            st_server := Some (server c);
            st_port := port c;
            st_database := Some (database c);
            st_user := Some (user c);
            st_minutesSinceActivity := Some (d / 60000);
            st_secondsSinceActivity := Some (Z.rem d 60000 / 1000);
            st_remainingTime := Some (Z.max 0 (300 - d / 1000));
            st_stats := connectionStats s;
            st_roundedAverage := round_Q (averageQueryTime (connectionStats s)) |}.
  exists (d / 60000), (Z.rem d 60000 / 1000), (Z.max 0 (300 - d / 1000)).
  split.
  { unfold get_connection_status. unfold_async. cbn.
    unfold isConnected in Hc. rewrite Hc, Hcfg, Hl. cbn.
    destruct (Z.eqb_spec t0 0) as [|_]; [contradiction|]. reflexivity. }
  split; [reflexivity|]. split; [reflexivity|]. split; [reflexivity|].
  rewrite Z.rem_mod_nonneg by lia.
  assert (H1 : 0 <= d mod 60000 < 60000) by (apply Z.mod_pos_bound; lia).
  assert (H2 : d = 60000 * (d / 60000) + d mod 60000) by (apply Z.div_mod; lia).
  assert (H3 : d / 1000 = 60 * (d / 60000) + d mod 60000 / 1000).
  { rewrite H2 at 1. replace (60000 * (d / 60000)) with ((60 * (d / 60000)) * 1000) by lia.
    rewrite Z.add_comm, Z.div_add by lia. lia. }
  assert (H4 : 0 <= d mod 60000 / 1000 < 60).
  { split; [apply Z.div_pos; lia|apply Z.div_lt_upper_bound; lia]. }
  assert (H5 : 0 <= d / 1000) by (apply Z.div_pos; lia).
  assert (H6 : 300 <= d / 1000 <-> 300000 <= d).
  { split; intros H.
    - pose proof (Z.mul_div_le d 1000 ltac:(lia)). lia.
    - apply Z.div_le_lower_bound; lia. }
  split; [exact H4|]. split; [lia|]. split; [reflexivity|]. split; [lia|].
  split; [lia|].
  unfold autoDisconnect_callback. unfold_async. cbn. rewrite Hp, Hl. cbn.
  destruct (Z.eqb_spec t0 0) as [|_]; [contradiction|]. cbn. fold d.
  destruct (Z.leb_spec 300000 d) as [Hge|Hlt].
  - unfold disconnectDatabase, await. unfold_async. cbn. rewrite Hp. cbn.
    split; [discriminate|]. intros _. lia.
  - cbn. split; [lia|]. intros H. contradiction H. reflexivity.
Qed.

Lemma X17_witness :
  let d := now (set_now 125700 connected_state) - 1200 in
  exists r m sec remaining,
    run [] (get_connection_status (set_now 125700 connected_state))
      = MkRun (Return (Status r)) (set_now 125700 connected_state) [] [] /\
    st_minutesSinceActivity r = Some m /\
    st_secondsSinceActivity r = Some sec /\
    st_remainingTime r = Some remaining /\
    0 <= sec < 60 /\
    m * 60 + sec = d / 1000 /\
    remaining = Z.max 0 (300 - d / 1000) /\
    0 <= remaining <= 300 /\
    (remaining = 0 <-> 300000 <= d) /\
    (remaining = 0 <-> issued (autoDisconnect_callback (set_now 125700 connected_state)) <> []).
Proof.
  apply (X17_status_countdown_agrees_with_idle_check (set_now 125700 connected_state)
           (connect_schema_defaults sample_config) 1200 []);
    [reflexivity|reflexivity|reflexivity|discriminate|vm_compute; discriminate].
Defined.

(** ** Batches *)

Lemma queries_sent_cons_query (h : nat) (q : string) (inputs : list Param) (tr : list Op) :
  queries_sent (OpQuery h q inputs :: tr) = S (queries_sent tr).
Proof. reflexivity. Qed.

Lemma pool_opens_cons_query (h : nat) (q : string) (inputs : list Param) (tr : list Op) :
  pool_opens (OpQuery h q inputs :: tr) = pool_opens tr.
Proof. reflexivity. Qed.

Lemma label_of_id (index : nat) (sqlItem : SqlItem) (id : string) :
  item_id sqlItem = Some id -> str_truthy id = true -> label_of index sqlItem = id.
Proof. intros Hi Ht. unfold label_of. rewrite Hi, Ht. reflexivity. Qed.

Lemma entry_of_succeeded (index : nat) (sqlItem : SqlItem) (qr : QueryResult) :
  entry_of index sqlItem
    (item_succeeded (Z.of_nat index + 1) (label_of index sqlItem) sqlItem qr).
Proof. unfold entry_of. cbn. splits. Qed.

Lemma entry_of_failed (index : nat) (sqlItem : SqlItem) (e : Err) :
  entry_of index sqlItem
    (item_failed (Z.of_nat index + 1) (label_of index sqlItem) sqlItem e).
Proof. unfold entry_of. cbn. splits; discriminate. Qed.

(** The serial loop on items that all carry an id, on an active session:
    [done] is what the loop adds to [results]. *)
Lemma run_serial_loop_ids (items : list SqlItem) :
  forall (n : nat) (stop : bool) (results : list BatchItemResult) (w : list Reply)
         (s : State) (h : nat),
  forallb has_id items = true ->
  isConnectionActive s = true ->
  connectionPool s = Some h ->
  let r := run w (serial_loop items (Z.of_nat n) stop results s) in
  exists done,
    result r = Return (results ++ done)%list /\
    isConnectionActive (final r) = true /\
    connectionPool (final r) = Some h /\
    queries_sent (trace r) = length done /\
    pool_opens (trace r) = 0%nat /\
    (length done <= length items)%nat /\
    (forall k item, done !! k = Some item ->
       exists sqlItem, items !! k = Some sqlItem /\ entry_of (n + k) sqlItem item) /\
    (stop = false -> length done = length items) /\
    (stop = true -> forall k item, done !! k = Some item -> (S k < length done)%nat ->
       r_success item = true) /\
    ((length done < length items)%nat ->
       exists item, last done = Some item /\ r_success item = false).
Proof.
  induction items as [|sqlItem items IH]; intros n stop results w s h Hids Ha Hp; cbv zeta.
  - exists []. cbn. rewrite app_nil_r. splits; try lia; try discriminate.
  - cbn [forallb] in Hids. apply andb_true_iff in Hids as [Hid Hids'].
    unfold has_id in Hid. destruct (item_id sqlItem) as [id|] eqn:Hi; [|discriminate].
    rename Hid into Ht.
    rewrite (run_serial_loop_with_id sqlItem items (Z.of_nat n) stop results w s h id
               Hi Ht Ha Hp).
    cbv zeta. set (op := OpQuery h _ _). set (rw := next_reply w op s).
    replace (Z.of_nat n + 1) with (Z.of_nat (S n)) by lia.
    assert (Hlab : label_of n sqlItem = id) by (apply label_of_id; assumption).
    destruct (outcome (fst rw)) as [v|e].
    + set (entry := item_succeeded _ id sqlItem _).
      assert (Hentry : entry_of n sqlItem entry).
      { subst entry. rewrite <- Hlab. replace (Z.of_nat (S n)) with (Z.of_nat n + 1) by lia.
        apply entry_of_succeeded. }
      set (s1 := updateActivityTime _).
      assert (Ha1 : isConnectionActive s1 = true) by (apply query_ok_keeps_active; exact Ha).
      assert (Hp1 : connectionPool s1 = Some h)
        by (subst s1; rewrite query_ok_keeps_pool; exact Hp).
      destruct (IH (S n) stop (results ++ [entry])%list (snd rw) s1 h Hids' Ha1 Hp1)
        as (done & Hres & Hact & Hpool & Hq & Ho & Hlen & Hent & Hall & Hsucc & Hlast).
      destruct (run (snd rw) (serial_loop items (Z.of_nat (S n)) stop _ s1))
        as [res fin tr rst].
      cbn [result final trace rest after app] in *. subst res.
      exists (entry :: done). rewrite <- app_assoc. cbn [app length].
      split; [reflexivity|]. split; [exact Hact|]. split; [exact Hpool|].
      split; [subst op; rewrite queries_sent_cons_query, Hq; reflexivity|].
      split; [subst op; rewrite pool_opens_cons_query; exact Ho|].
      split; [lia|]. split.
      { intros [|k] item Hk; cbn in Hk.
        - injection Hk as <-. exists sqlItem. rewrite Nat.add_0_r. auto.
        - destruct (Hent k item Hk) as (x & Hx & Hex). exists x.
          split; [exact Hx|]. replace (n + S k)%nat with (S n + k)%nat by lia. exact Hex. }
      split; [intros Hs; rewrite (Hall Hs); reflexivity|].
      split.
      { intros Hs [|k] item Hk Hlt; cbn in Hk.
        - injection Hk as <-. reflexivity.
        - apply (Hsucc Hs k item Hk). lia. }
      intros Hlt. destruct Hlast as (item & Hl & Hf); [lia|].
      exists item. split; [|exact Hf].
      destruct done as [|d done']; [discriminate Hl|]. exact Hl.
    + set (entry := item_failed _ id sqlItem e).
      assert (Hentry : entry_of n sqlItem entry).
      { subst entry. rewrite <- Hlab. replace (Z.of_nat (S n)) with (Z.of_nat n + 1) by lia.
        apply entry_of_failed. }
      set (s1 := on_stats stats_query_failed _).
      assert (Ha1 : isConnectionActive s1 = true) by exact Ha.
      assert (Hp1 : connectionPool s1 = Some h) by exact Hp.
      destruct stop.
      * exists [entry]. cbn [result final trace rest length].
        split; [reflexivity|]. split; [exact Ha1|]. split; [exact Hp1|].
        split; [reflexivity|]. split; [reflexivity|]. split; [lia|]. split.
        { intros [|k] item Hk; cbn in Hk; [|discriminate].
          injection Hk as <-. exists sqlItem. rewrite Nat.add_0_r. auto. }
        split; [discriminate|]. split.
        { intros _ k item Hk Hlt. cbn in Hlt. lia. }
        intros _. exists entry. split; reflexivity.
      * destruct (IH (S n) false (results ++ [entry])%list (snd rw) s1 h Hids' Ha1 Hp1)
          as (done & Hres & Hact & Hpool & Hq & Ho & Hlen & Hent & Hall & Hsucc & Hlast).
        destruct (run (snd rw) (serial_loop items (Z.of_nat (S n)) false _ s1))
          as [res fin tr rst].
        cbn [result final trace rest after app] in *. subst res.
        exists (entry :: done). rewrite <- app_assoc. cbn [app length].
        split; [reflexivity|]. split; [exact Hact|]. split; [exact Hpool|].
        split; [subst op; rewrite queries_sent_cons_query, Hq; reflexivity|].
        split; [subst op; rewrite pool_opens_cons_query; exact Ho|].
        split; [lia|]. split.
        { intros [|k] item Hk; cbn in Hk.
          - injection Hk as <-. exists sqlItem. rewrite Nat.add_0_r. auto.
          - destruct (Hent k item Hk) as (x & Hx & Hex). exists x.
            split; [exact Hx|]. replace (n + S k)%nat with (S n + k)%nat by lia. exact Hex. }
        split; [intros _; rewrite (Hall eq_refl); reflexivity|].
        split; [discriminate|].
        intros Hlt. rewrite (Hall eq_refl) in Hlt. lia.
Qed.

Lemma run_batch_serial_active (params : BatchParams) (w : list Reply) (s : State) :
  isConnectionActive s = true ->
  let r := run w (serial_loop (sqlList params) 0 (stopOnError params) [] s) in
  run w (batch_serial params s) =
    match result r with
    | Return results =>
        MkRun (Return (summarize params results (now (final r) - now s)))
              (final r) (trace r) (rest r)
    | Throw e => MkRun (Return (BatchFailed (message e))) (final r) (trace r) (rest r)
    end.
Proof.
  intros Ha. cbv zeta. unfold batch_serial. unfold_async.
  rewrite run_catchS, run_bindS, (batch_prologue_active s Ha).
  cbn [run result final trace rest after app]. rewrite run_bindS.
  destruct (run w (serial_loop (sqlList params) 0 (stopOnError params) [] s))
    as [res fin tr rst].
  destruct res as [results|e]; cbn [run result final trace rest after app bindS];
    unfold after; cbn [run result final trace rest app]; rewrite ?app_nil_r; reflexivity.
Qed.


(** Entries that succeed, except perhaps the last, hold at most one
    failure. *)
Lemma count_failures_at_most_one (l : list BatchItemResult) :
  (forall k item, l !! k = Some item -> (S k < length l)%nat -> r_success item = true) ->
  count_where (fun r => negb (r_success r)) l <= 1.
Proof.
  unfold count_where. induction l as [|x l IH]; intros H; cbn; [lia|].
  destruct l as [|y l].
  - cbn. destruct (r_success x); cbn; lia.
  - assert (Hx : r_success x = true) by (apply (H 0%nat x); [reflexivity|cbn; lia]).
    rewrite Hx. cbn [negb]. apply IH.
    intros k item Hk Hlt. apply (H (S k) item); [exact Hk|cbn in *; lia].
Qed.



(** X19: a serial batch that stops on errors, with an id on every item,
    on an active session: the batch completes with the entries of the
    statements it ran, in input order; every entry but the last is a
    success, so at most one failure is reported; exactly the statements
    with an entry were sent to the driver; and when fewer entries than
    statements come back, the last entry is the failure that stopped the
    batch. *)
Theorem X19_serial_batch_stops_at_first_failure (items : list SqlItem) (w : list Reply)
    (s : State) :
  isConnectionActive s = true ->
  forallb has_id items = true ->
  let r := batch_execute_sql (MkBatchParams items true false) w s in
  exists summary,
    result r = Return (BatchCompleted summary) /\
    (length (b_results summary) <= length items)%nat /\
    (forall k item, b_results summary !! k = Some item ->
       (exists sqlItem, items !! k = Some sqlItem /\ entry_of k sqlItem item) /\
       ((S k < length (b_results summary))%nat -> r_success item = true)) /\
    queries_sent (trace r) = length (b_results summary) /\
    ((length (b_results summary) < length items)%nat ->
       exists item, last (b_results summary) = Some item /\ r_success item = false) /\
    b_errorCount summary <= 1.
Proof.
  intros Ha Hids r. subst r. destruct (isConnectionActive_pool s Ha) as [h Hp].
  unfold batch_execute_sql. cbn [parallel].
  rewrite (run_batch_serial_active _ w s Ha). cbv zeta. cbn [sqlList stopOnError].
  destruct (run_serial_loop_ids items 0 true [] w s h Hids Ha Hp)
    as (done & Hres & _ & _ & Hq & _ & Hlen & Hent & _ & Hsucc & Hlast).
  change (Z.of_nat 0) with 0 in *.
  destruct (run w (serial_loop items 0 true [] s)) as [res fin tr rst].
  cbn [result final trace rest app] in *. subst res.
  eexists. split; [reflexivity|]. cbn [trace b_results b_errorCount].
  split; [exact Hlen|]. split.
  { intros k item Hk. split; [apply (Hent k item Hk)|apply (Hsucc eq_refl k item Hk)]. }
  split; [exact Hq|]. split; [exact Hlast|].
  apply count_failures_at_most_one, (Hsucc eq_refl).
Qed.

Lemma X19_witness :
  let items := [with_id "a" "SELECT 1"; with_id "b" "INSERT INTO missing VALUES (2)";
                with_id "c" "SELECT 3"] in
  let r := batch_execute_sql (MkBatchParams items true false)
             [resolves 0 7000; rejects 0 7100 "Invalid object name 'missing'"]
             connected_state in
  exists summary,
    result r = Return (BatchCompleted summary) /\
    (length (b_results summary) <= length items)%nat /\
    (forall k item, b_results summary !! k = Some item ->
       (exists sqlItem, items !! k = Some sqlItem /\ entry_of k sqlItem item) /\
       ((S k < length (b_results summary))%nat -> r_success item = true)) /\
    queries_sent (trace r) = length (b_results summary) /\
    ((length (b_results summary) < length items)%nat ->
       exists item, last (b_results summary) = Some item /\ r_success item = false) /\
    b_errorCount summary <= 1.
Proof.
  apply (X19_serial_batch_stops_at_first_failure
           [with_id "a" "SELECT 1"; with_id "b" "INSERT INTO missing VALUES (2)";
            with_id "c" "SELECT 3"]
           [resolves 0 7000; rejects 0 7100 "Invalid object name 'missing'"]
           connected_state); reflexivity.
Defined.

Lemma batch_prologue_nothing_retained (s : State) :
  isConnectionActive s = false ->
  connectionConfig s = None ->
  batch_prologue s = Done (Throw not_connected_error) s.
Proof.
  intros Ha Hc. unfold batch_prologue. unfold_async.
  rewrite (reconnectIfNeeded_nothing_retained s Ha Hc). reflexivity.
Qed.

(** X20: a batch on a server without a session is refused as a whole.
    When the session is not active and no configuration is retained, the
    tool answers with the batch failure carrying the not-connected
    message, in serial and in parallel mode alike; no statement is sent,
    nothing is counted and the state is unchanged. *)
Theorem X20_batch_without_session_is_refused (params : BatchParams) (w : list Reply)
    (s : State) :
  isConnectionActive s = false ->
  connectionConfig s = None ->
  batch_execute_sql params w s
    = MkRun (Return (BatchFailed (message not_connected_error))) s [] w.
Proof.
  intros Ha Hc. unfold batch_execute_sql.
  destruct (parallel params).
  - rewrite (batch_prologue_nothing_retained s Ha Hc). reflexivity.
  - unfold batch_serial. unfold_async.
    rewrite (batch_prologue_nothing_retained s Ha Hc). reflexivity.
Qed.

Lemma X20_witness :
  batch_execute_sql (MkBatchParams [no_id "SELECT 1"] false true) [resolves 0 10] init_state
    = MkRun (Return (BatchFailed (message not_connected_error))) init_state []
            [resolves 0 10].
Proof.
  apply (X20_batch_without_session_is_refused
           (MkBatchParams [no_id "SELECT 1"] false true) [resolves 0 10] init_state);
    reflexivity.
Defined.






(** ** Handlers and exceptions *)

Lemma try_catch_answers {A : Type} (m : Step A) (h : Err -> State -> Step A) :
  (forall e s, answers (h e s)) -> answers (catchS m h).
Proof.
  intros Hh. unfold answers.
  apply (completes_catchS (fun _ => True)); [apply completes_any| |].
  - intros a _. exists a. auto.
  - intros e s _. apply Hh.
Qed.

Lemma done_answers {A : Type} (a : A) (s : State) : answers (Done (Return a) s).
Proof. exists a. auto. Qed.

(** X22: no exception escapes the handlers of [connect_database],
    [execute_sql], [disconnect_database] and [batch_execute_sql]:
    whatever the state they start in, whatever the driver answers and
    whatever happens to the state while they are suspended, each of them
    ends by returning a response; every error arrives as the text of a
    response. *)
Theorem X22_tool_handlers_always_answer (config : Config) (sqlText : string)
    (params : list Param) (batch : BatchParams) (w : list Reply) (s : State) :
  answers (connect_database config s) /\
  answers (execute_sql sqlText params s) /\
  answers (disconnect_database s) /\
  answers (batch_serial batch s) /\
  (exists response, result (batch_execute_sql batch w s) = Return response) /\
  (exists response, result (run w (connect_database config s)) = Return response) /\
  (exists response, result (run w (execute_sql sqlText params s)) = Return response) /\
  (exists response, result (run w (disconnect_database s)) = Return response).
Proof.
  assert (H1 : answers (connect_database config s)).
  { unfold connect_database. unfold_async. apply try_catch_answers.
    intros e s1. apply done_answers. }
  assert (H2 : answers (execute_sql sqlText params s)).
  { unfold execute_sql. unfold_async. apply try_catch_answers.
    intros e s1. apply done_answers. }
  assert (H3 : answers (disconnect_database s)).
  { unfold disconnect_database. unfold_async. apply try_catch_answers.
    intros e s1. apply done_answers. }
  assert (H4 : answers (batch_serial batch s)).
  { unfold batch_serial. unfold_async. apply try_catch_answers.
    intros e s1. apply done_answers. }
  assert (Hrun : forall (t : Step ToolResponse), answers t ->
                   exists response, result (run w t) = Return response).
  { intros t Ht. destruct (run_completes _ w t Ht) as (a & Ha & _). eauto. }
  split; [exact H1|]. split; [exact H2|]. split; [exact H3|]. split; [exact H4|].
  split; [|auto].
  unfold batch_execute_sql. destruct (parallel batch); [|apply Hrun, H4].
  destruct (result (run w (batch_prologue s))); [|eauto].
  destruct (spawn_all _ _) as [[ts s1] tr1].
  destruct (run_pool _ ts s1) as [[[ts' s2] tr2] w'].
  destruct (collect ts'); eauto.
Qed.

(** ** The [database-schema] resource *)

Lemma read_database_schema_inactive (uri db objectType : string) (s : State) :
  isConnectionActive s = false ->
  read_database_schema uri db objectType s
    = Done (Return (SchemaNotConnected uri db objectType)) s.
Proof.
  intros Ha. unfold read_database_schema. unfold_async. cbn. rewrite Ha. reflexivity.
Qed.

Lemma read_database_schema_unsupported (uri db objectType : string) (s : State) :
  isConnectionActive s = true ->
  schema_query objectType = None ->
  read_database_schema uri db objectType s
    = Done (Return (SchemaUnsupported objectType schema_objectTypes uri db)) s.
Proof.
  intros Ha Hq. unfold read_database_schema. unfold_async. cbn. rewrite Ha, Hq. reflexivity.
Qed.

Lemma run_read_database_schema (uri db objectType query description : string)
    (s : State) (h : nat) (w : list Reply) :
  isConnectionActive s = true ->
  connectionPool s = Some h ->
  schema_query objectType = Some (query, description) ->
  let op := OpQuery h query [MkParam "database" sql_VarChar (JStr db)] in
  let rw := next_reply w op s in
  let t := at_time (fst rw) in
  run w (read_database_schema uri db objectType s) =
    MkRun
      (Return
         match outcome (fst rw) with
         | Resolved v =>
             match drv_recordset v with
             | Some rows =>
                 SchemaResult (MkSchemaData db objectType description
                                 (Z.of_nat (length rows)) rows t uri)
             | None =>
                 SchemaQueryFailed "Cannot read properties of undefined (reading 'length')"
                                   uri db objectType
             end
         | Rejected e => SchemaQueryFailed (message e) uri db objectType
         end)
      (set_now t s) [op] (snd rw).
Proof.
  intros Ha Hp Hq. cbn zeta.
  unfold read_database_schema, pool_request, await. unfold_async. cbn.
  rewrite Ha, Hq. cbn. rewrite Hp. cbn.
  destruct (outcome (fst (next_reply w _ s))) as [v|e]; cbn; [|reflexivity].
  destruct (drv_recordset v); reflexivity.
Qed.

Lemma executeQuery_starts_reconnect (sqlText : string) (params : list Param) (s : State)
    (config : Config) :
  isConnectionActive s = false ->
  connectionConfig s = Some config ->
  issued (executeQuery sqlText params s) <> [].
Proof.
  intros Ha Hc. destruct (connectionPool s) as [h0|] eqn:Hp.
  - destruct (executeQuery_reconnects_alone sqlText params s h0 config Hp Ha Hc)
      as (_ & -> & _). discriminate.
  - rewrite executeQuery_parts, (reconnectIfNeeded_retained s config Ha Hc),
      connectDatabase_parts, (close_previous_none s Hp).
    cbn [bindS catchS]. unfold open_pool, new_ConnectionPool, await. unfold_async. cbn.
    discriminate.
Qed.

(** X23: reading the [database-schema] resource never reconnects.  On a
    session that is not active the handler answers that there is no
    connection, awaits nothing and changes nothing, also when the
    configuration of a lost connection is retained: in that very state a
    query through [executeQuery] does start the reconnect. *)
Theorem X23_schema_resource_does_not_reconnect (uri db objectType : string)
    (s : State) (config : Config) (w : list Reply) :
  isConnectionActive s = false ->
  connectionConfig s = Some config ->
  run w (read_database_schema uri db objectType s)
    = MkRun (Return (SchemaNotConnected uri db objectType)) s [] w /\
  (forall sqlText params, issued (executeQuery sqlText params s) <> []).
Proof.
  intros Ha Hc. rewrite (read_database_schema_inactive uri db objectType s Ha).
  split; [reflexivity|].
  intros sqlText params. exact (executeQuery_starts_reconnect sqlText params s config Ha Hc).
Qed.

Lemma X23_witness :
  run [resolves 0 6010] (read_database_schema "schema://orders/tables" "orders" "tables"
                           dropped_state)
    = MkRun (Return (SchemaNotConnected "schema://orders/tables" "orders" "tables"))
            dropped_state [] [resolves 0 6010] /\
  (forall sqlText params, issued (executeQuery sqlText params dropped_state) <> []).
Proof.
  apply (X23_schema_resource_does_not_reconnect "schema://orders/tables" "orders" "tables"
           dropped_state (connect_schema_defaults sample_config) [resolves 0 6010]);
    reflexivity.
Defined.

(** X24: reading the schema of a supported object type on an active
    session sends exactly one query, the text of that type with the
    single input [database], straight to the pool.  Whatever the driver
    answers, the handler returns an answer (rows, or the failure with the
    driver's message) and nothing of the server state changes but the
    clock: the read is neither counted in the statistics nor recorded as
    activity, and the pending idle check is not pushed back. *)
Theorem X24_schema_read_is_neither_counted_nor_activity (uri db objectType query
    description : string) (s : State) (r0 : Reply) (w : list Reply) :
  isConnectionActive s = true ->
  schema_query objectType = Some (query, description) ->
  let r := run (r0 :: w) (read_database_schema uri db objectType s) in
  (exists h, connectionPool s = Some h /\
     trace r = [OpQuery h query [MkParam "database" sql_VarChar (JStr db)]]) /\
  final r = set_now (at_time r0) s /\
  connectionStats (final r) = connectionStats s /\
  lastActivityTime (final r) = lastActivityTime s /\
  timeouts (final r) = timeouts s /\
  match outcome r0 with
  | Resolved v =>
      match drv_recordset v with
      | Some rows =>
          result r = Return (SchemaResult (MkSchemaData db objectType description
                                             (Z.of_nat (length rows)) rows (at_time r0) uri))
      | None => exists msg, result r = Return (SchemaQueryFailed msg uri db objectType)
      end
  | Rejected e => result r = Return (SchemaQueryFailed (message e) uri db objectType)
  end.
Proof.
  intros Ha Hq r. subst r. destruct (isConnectionActive_pool s Ha) as [h Hp].
  rewrite (run_read_database_schema uri db objectType query description s h (r0 :: w)
             Ha Hp Hq).
  cbn [next_reply fst snd result final trace].
  split; [exists h; auto|]. split; [reflexivity|]. split; [reflexivity|].
  split; [reflexivity|]. split; [reflexivity|].
  destruct (outcome r0) as [v|e]; [|reflexivity].
  destruct (drv_recordset v); [reflexivity|eexists; reflexivity].
Qed.

Lemma X24_witness :
  let r := run [resolves 0 7000]
               (read_database_schema "schema://orders/tables" "orders" "tables"
                  connected_state) in
  (exists h, connectionPool connected_state = Some h /\
     trace r = [OpQuery h tables_query [MkParam "database" sql_VarChar (JStr "orders")]]) /\
  final r = set_now 7000 connected_state /\
  connectionStats (final r) = connectionStats connected_state /\
  lastActivityTime (final r) = lastActivityTime connected_state /\
  timeouts (final r) = timeouts connected_state /\
  result r = Return (SchemaResult (MkSchemaData "orders" "tables" "数据表"
                                     (Z.of_nat (length [[("n", JNum 1)]]))
                                     [[("n", JNum 1)]] 7000 "schema://orders/tables")).
Proof.
  apply (X24_schema_read_is_neither_counted_nor_activity "schema://orders/tables" "orders"
           "tables" tables_query "数据表" connected_state (resolves 0 7000) []);
    reflexivity.
Defined.

Lemma schema_query_supported (objectType : string) :
  schema_query objectType <> None <-> In objectType schema_objectTypes.
Proof.
  unfold schema_query, schema_objectTypes. cbn [In].
  destruct (String.eqb_spec objectType "tables") as [->|H1];
    [split; [intros _; tauto|discriminate]|].
  destruct (String.eqb_spec objectType "views") as [->|H2];
    [split; [intros _; tauto|discriminate]|].
  destruct (String.eqb_spec objectType "procedures") as [->|H3];
    [split; [intros _; tauto|discriminate]|].
  destruct (String.eqb_spec objectType "functions") as [->|H4];
    [split; [intros _; tauto|discriminate]|].
  destruct (String.eqb_spec objectType "triggers") as [->|H5];
    [split; [intros _; tauto|discriminate]|].
  destruct (String.eqb_spec objectType "indexes") as [->|H6];
    [split; [intros _; tauto|discriminate]|].
  split; [congruence|]. intros H. exfalso. intuition congruence.
Qed.

(** X25: the three places that list the object types agree.  The
    [switch] of the handler knows exactly the six types of the list it
    reports as [supportedTypes]; the completion of [objectType] offers
    exactly the types of that list that start with what was typed (all
    six for the empty prefix), so every completion it offers is a type
    the handler serves; and for any other type an active session gets the
    unsupported-type answer without anything being sent. *)
Theorem X25_schema_object_types_agree (uri db objectType value : string) (s : State)
    (w : list Reply) :
  (schema_query objectType <> None <-> In objectType schema_objectTypes) /\
  (In objectType (complete_objectType value) <->
     In objectType schema_objectTypes /\ String.prefix value objectType = true) /\
  (In objectType (complete_objectType value) -> schema_query objectType <> None) /\
  complete_objectType "" = schema_objectTypes /\
  (isConnectionActive s = true -> ~ In objectType schema_objectTypes ->
   run w (read_database_schema uri db objectType s)
     = MkRun (Return (SchemaUnsupported objectType schema_objectTypes uri db)) s [] w).
Proof.
  split; [apply schema_query_supported|].
  assert (Hc : In objectType (complete_objectType value) <->
               In objectType schema_objectTypes /\ String.prefix value objectType = true).
  { unfold complete_objectType. apply filter_In. }
  split; [exact Hc|]. split.
  { intros H. apply schema_query_supported, Hc, H. }
  split; [reflexivity|].
  intros Ha Hn.
  assert (Hq : schema_query objectType = None).
  { destruct (schema_query objectType) eqn:E; [|reflexivity].
    exfalso. apply Hn, schema_query_supported. rewrite E. discriminate. }
  rewrite (read_database_schema_unsupported uri db objectType s Ha Hq). reflexivity.
Qed.

(** ** The [query-history] resource *)

Lemma history_queries_cases (queryType : string) :
  (queryType = "all" /\ length (history_queries queryType) = 5%nat) \/
  (queryType = "select" /\ length (history_queries queryType) = 2%nat) \/
  (queryType = "insert" /\ length (history_queries queryType) = 1%nat) \/
  (queryType = "update" /\ length (history_queries queryType) = 1%nat) \/
  (queryType = "delete" /\ length (history_queries queryType) = 1%nat) \/
  (~ In queryType history_queryTypes /\ history_queries queryType = []).
Proof.
  unfold history_queryTypes. cbn [In].
  destruct (String.eqb_spec queryType "all") as [->|H1]; [left; split; reflexivity|].
  destruct (String.eqb_spec queryType "select") as [->|H2];
    [right; left; split; reflexivity|].
  destruct (String.eqb_spec queryType "insert") as [->|H3];
    [right; right; left; split; reflexivity|].
  destruct (String.eqb_spec queryType "update") as [->|H4];
    [right; right; right; left; split; reflexivity|].
  destruct (String.eqb_spec queryType "delete") as [->|H5];
    [right; right; right; right; left; split; reflexivity|].
  right; right; right; right; right. split; [intuition congruence|].
  unfold history_queries.
  apply String.eqb_neq in H1, H2, H3, H4, H5. rewrite H1, H2, H3, H4, H5. reflexivity.
Qed.

Lemma history_all_succeed (queryType : string) :
  Forall (fun q => he_status q = "success") (history_queries queryType).
Proof.
  unfold history_queries.
  destruct (String.eqb queryType "all"), (String.eqb queryType "select"),
    (String.eqb queryType "insert"), (String.eqb queryType "update"),
    (String.eqb queryType "delete"); cbn; repeat constructor.
Qed.

Lemma count_status_all (status : string) (queries : list HistoryEntry) :
  Forall (fun q => he_status q = status) queries ->
  count_status status queries = Z.of_nat (length queries).
Proof.
  unfold count_status. induction 1 as [|q l Hq _ IH]; cbn; [reflexivity|].
  rewrite Hq, String.eqb_refl. cbn [length]. lia.
Qed.

Lemma count_status_none (status other : string) (queries : list HistoryEntry) :
  status <> other ->
  Forall (fun q => he_status q = other) queries ->
  count_status status queries = 0.
Proof.
  intros Hne. unfold count_status. induction 1 as [|q l Hq _ IH]; cbn; [reflexivity|].
  rewrite Hq. destruct (String.eqb_spec other status) as [E|_]; [congruence|]. exact IH.
Qed.

(** X26: the [query-history] resource answers from its built-in sample,
    for every query type and every date, without touching the server
    state: the totals are those of the entries it returns, every entry is
    a success, so the successes equal the total and the failures are 0;
    the date plays no part; the answer for [all] is the answers for
    [select], [insert], [update] and [delete] put together; every query
    type the completion offers has entries; and any other query type gets
    an empty history with average 0 instead of an error. *)
Theorem X26_query_history_is_a_consistent_sample (uri queryType date : string) :
  exists d,
    read_query_history uri queryType date = HistoryResult d /\
    hd_queryType d = queryType /\ hd_date d = date /\
    hd_queries d = history_queries queryType /\
    hd_totalQueries d = Z.of_nat (length (hd_queries d)) /\
    hd_successfulQueries d = hd_totalQueries d /\
    hd_failedQueries d = 0 /\
    0 <= hd_totalQueries d <= 5 /\
    (hd_totalQueries d = 0 <-> ~ In queryType history_queryTypes) /\
    (forall value, In queryType (complete_queryType value) -> 0 < hd_totalQueries d) /\
    (~ In queryType history_queryTypes -> hd_queries d = [] /\ hd_averageQueryTime d = 0) /\
    history_queries "all"
      = (history_queries "select" ++ history_queries "insert" ++
         history_queries "update" ++ history_queries "delete")%list /\
    (forall uri' date' d',
       read_query_history uri' queryType date' = HistoryResult d' ->
       hd_queries d' = hd_queries d /\ hd_averageQueryTime d' = hd_averageQueryTime d).
Proof.
  eexists. split; [reflexivity|].
  cbn [hd_queryType hd_date hd_queries hd_totalQueries hd_successfulQueries
       hd_failedQueries hd_averageQueryTime].
  pose proof (history_all_succeed queryType) as Hall.
  split; [reflexivity|]. split; [reflexivity|]. split; [reflexivity|].
  split; [reflexivity|].
  split; [apply count_status_all, Hall|].
  split; [apply (count_status_none "failed" "success"); [discriminate|exact Hall]|].
  assert (Hcases := history_queries_cases queryType).
  split.
  { destruct Hcases as [[_ ->]|[[_ ->]|[[_ ->]|[[_ ->]|[[_ ->]|[_ ->]]]]]]; cbn; lia. }
  split.
  { unfold history_queryTypes. cbn [In].
    destruct Hcases as [[-> ->]|[[-> ->]|[[-> ->]|[[-> ->]|[[-> ->]|[Hn ->]]]]]]; cbn;
      try (split; [discriminate|intros H; exfalso; apply H; tauto]).
    split; [intros _; exact Hn|reflexivity]. }
  split.
  { intros value Hin. unfold complete_queryType in Hin. apply filter_In in Hin as [Hin _].
    destruct Hcases as [[_ ->]|[[_ ->]|[[_ ->]|[[_ ->]|[[_ ->]|[Hn _]]]]]]; cbn; try lia.
    contradiction. }
  split.
  { intros Hn.
    destruct Hcases as [[-> _]|[[-> _]|[[-> _]|[[-> _]|[[-> _]|[_ ->]]]]]];
      try (exfalso; apply Hn; unfold history_queryTypes; cbn; tauto).
    split; reflexivity. }
  split; [reflexivity|].
  intros uri' date' d' [= <-]. split; reflexivity.
Qed.

(** ** Shutdown *)

Lemma graceful_shutdown_parts (s : State) :
  graceful_shutdown s =
    bindS (match connectionPool s with
           | Some _ => bindS (disconnectDatabase (stopHeartbeat s))
                             (fun _ s' => Done (Return tt) s')
           | None => Done (Return tt) (stopHeartbeat s)
           end)
          (fun _ s' => Done (Return 0) s').
Proof.
  unfold graceful_shutdown. unfold_async. cbn.
  destruct (stopHeartbeat_session s) as (-> & _).
  destruct (connectionPool s); reflexivity.
Qed.

(** X27: [SIGINT] and [SIGTERM] on a server that holds a pool which
    closes: the handler stops the heartbeat, closes the pool and reaches
    [process.exit(0)]; in whatever state the server had reached, nothing
    is scheduled any more by then and the session variables are cleared.
    On a server that holds no pool the handler exits with 0 at once,
    awaiting nothing. *)
Theorem X27_signal_closes_the_session_and_exits (es : list Event) (h : nat) (r0 : Reply)
    (v : DrvResult) (w : list Reply) :
  let s := perform_all es init_state in
  connectionPool s = Some h ->
  outcome r0 = Resolved v ->
  let r := run (r0 :: w) (on_SIGINT s) in
  on_SIGTERM = on_SIGINT /\
  result r = Return 0 /\
  trace r = [OpClose h] /\
  connectionPool (final r) = None /\
  connectionConfig (final r) = None /\
  timeouts (final r) = [] /\
  intervals (final r) = [] /\
  (forall s' w', connectionPool s' = None ->
     run w' (on_SIGINT s') = MkRun (Return 0) (stopHeartbeat s') [] w').
Proof.
  intros s Hp Ho r. subst r. split; [reflexivity|].
  unfold on_SIGINT. rewrite graceful_shutdown_parts, Hp.
  assert (Hinv : timers_tidy (stopHeartbeat s)).
  { apply stopHeartbeat_tidy. destruct (reachable_invariant es) as [H _]. exact H. }
  assert (Hp' : connectionPool (stopHeartbeat s) = Some h).
  { destruct (stopHeartbeat_session s) as (-> & _). exact Hp. }
  rewrite run_bindS, run_bindS, (run_disconnectDatabase (stopHeartbeat s) h _ Hp').
  cbn [next_reply fst snd]. rewrite Ho.
  cbn [result final trace rest after app run].
  set (s0 := drv_settle _ _ _).
  assert (H0 : timers_tidy s0).
  { subst s0. apply drv_settle_tidy. revert Hinv. apply timers_tidy_same; reflexivity. }
  destruct (forget_session_timers s0 H0) as (E1 & E2 & _).
  rewrite forget_session_pool, forget_session_config, E1, E2. splits.
  intros s' w' Hp0. rewrite graceful_shutdown_parts, Hp0. reflexivity.
Qed.

Lemma X27_witness :
  let s := perform_all
             [MkEvent 1000 (Call_connect_database (connect_schema_defaults sample_config))
                      [resolves 0 1200]] init_state in
  let r := run [resolves 0 2000] (on_SIGINT s) in
  on_SIGTERM = on_SIGINT /\
  result r = Return 0 /\
  trace r = [OpClose 0] /\
  connectionPool (final r) = None /\
  connectionConfig (final r) = None /\
  timeouts (final r) = [] /\
  intervals (final r) = [] /\
  (forall s' w', connectionPool s' = None ->
     run w' (on_SIGINT s') = MkRun (Return 0) (stopHeartbeat s') [] w').
Proof.
  apply (X27_signal_closes_the_session_and_exits
           [MkEvent 1000 (Call_connect_database (connect_schema_defaults sample_config))
                    [resolves 0 1200]] 0 (resolves 0 2000) one_row []);
    reflexivity.
Defined.

(** X28: when the pool fails to close on [SIGINT] or [SIGTERM], the
    handler never reaches [process.exit(0)]: the error of the close
    leaves the handler as an exception.  By then the heartbeat has been
    stopped, while the pool, the configuration and the pending idle check
    are still in place. *)
Theorem X28_signal_with_failing_close_does_not_exit (s : State) (h : nat) (r0 : Reply)
    (e : Err) (w : list Reply) :
  connectionPool s = Some h ->
  outcome r0 = Rejected e ->
  let r := run (r0 :: w) (on_SIGINT s) in
  run (r0 :: w) (on_SIGINT s)
    = MkRun (Throw e) (set_now (at_time r0) (stopHeartbeat s)) [OpClose h] w /\
  heartbeatTimer (final r) = None /\
  connectionPool (final r) = Some h /\
  connectionConfig (final r) = connectionConfig s /\
  timeouts (final r) = timeouts s /\
  autoDisconnectTimer (final r) = autoDisconnectTimer s.
Proof.
  intros Hp Ho r. subst r.
  assert (Hp' : connectionPool (stopHeartbeat s) = Some h).
  { destruct (stopHeartbeat_session s) as (-> & _). exact Hp. }
  assert (H : run (r0 :: w) (on_SIGINT s)
              = MkRun (Throw e) (set_now (at_time r0) (stopHeartbeat s)) [OpClose h] w).
  { unfold on_SIGINT. rewrite graceful_shutdown_parts, Hp.
    rewrite run_bindS, run_bindS, (run_disconnectDatabase (stopHeartbeat s) h _ Hp').
    cbn [next_reply fst snd]. rewrite Ho. reflexivity. }
  rewrite H. cbn [final]. split; [reflexivity|].
  destruct (stopHeartbeat_session s) as (_ & _ & E3 & _).
  unfold stopHeartbeat in *. destruct (heartbeatTimer s) as [t|] eqn:Ht; cbn in *;
    rewrite ?Ht; splits.
Qed.

Lemma X28_witness :
  let r := run [refuses 0 2000 "socket hang up"] (on_SIGINT connected_state) in
  run [refuses 0 2000 "socket hang up"] (on_SIGINT connected_state)
    = MkRun (Throw (MkErr "ConnectionError" "socket hang up"))
            (set_now 2000 (stopHeartbeat connected_state)) [OpClose 0] [] /\
  heartbeatTimer (final r) = None /\
  connectionPool (final r) = Some 0%nat /\
  connectionConfig (final r) = connectionConfig connected_state /\
  timeouts (final r) = timeouts connected_state /\
  autoDisconnectTimer (final r) = autoDisconnectTimer connected_state.
Proof.
  apply (X28_signal_with_failing_close_does_not_exit connected_state 0
           (refuses 0 2000 "socket hang up") (MkErr "ConnectionError" "socket hang up") []);
    reflexivity.
Defined.

(** ** What the input schema lets through *)

Lemma number_or_nonzero (x d : Q) : ~ (x == 0)%Q -> number_or x d = x.
Proof.
  intros H. unfold number_or. destruct (Qeq_bool x 0) eqn:E; [|reflexivity].
  apply Qeq_bool_eq in E. contradiction.
Qed.

Lemma number_or_zero (x d : Q) : (x == 0)%Q -> number_or x d = d.
Proof.
  intros H. unfold number_or. destruct (Qeq_bool x 0) eqn:E; [reflexivity|].
  apply Qeq_bool_neq in E. contradiction.
Qed.

(** A range that starts above 0 lets no falsy number through. *)
Lemma number_within_positive (lo : Z) (hi : option Z) (x : Q) :
  0 < lo -> number_within lo hi x = true -> ~ (x == 0)%Q.
Proof.
  intros Hlo H. unfold number_within in H. apply andb_true_iff in H as [H _].
  apply Qle_bool_iff in H. intros E. rewrite E in H.
  change 0%Q with (inject_Z 0) in H. rewrite <- Zle_Qle in H. lia.
Qed.

(** On whole numbers [number_or] is the [num_or] of [build_sqlConfig]. *)
Lemma number_or_whole (z d : Z) :
  number_or (inject_Z z) (inject_Z d) = inject_Z (num_or (Some z) d).
Proof.
  unfold num_or. destruct (Z.eqb_spec z 0) as [->|Hz].
  - apply number_or_zero. reflexivity.
  - apply number_or_nonzero. change 0%Q with (inject_Z 0). rewrite inject_Z_injective.
    exact Hz.
Qed.

Lemma sqlConfig_property_build (p : NumberProperty) (c : Config) :
  sqlConfig_property p (build_sqlConfig c)
    = num_or (config_property p c) (sqlConfig_fallback p).
Proof. destruct p; reflexivity. Qed.

Lemma schema_min_positive (p : NumberProperty) :
  p <> MinPoolSize -> 0 < schema_min p.
Proof. destruct p; cbn; intros H; try lia. contradiction. Qed.

(** X29: of the [||] fallbacks that [connectDatabase] applies to the
    numeric options, only the one for [minPoolSize] can replace a value
    the schema of [connect_database] has accepted.  The schema takes any
    number in the range of the option, whole or not.  For the port, both
    timeouts, the maximum pool size and the idle timeout the range
    excludes 0, so an accepted value reaches [sqlConfig] as it is, and so
    does the schema's default; the minimum pool size reaches it as it is
    unless it is 0, given or defaulted, which becomes 1.  This does not
    keep the minimum at 1 or above: one half is accepted and passed on.
    On whole numbers these are the values [build_sqlConfig] computes, and
    the schema defaults fill in what the caller left out; [encrypt] and
    [trustServerCertificate] arrive as given, or as [true] and [false]. *)
Theorem X29_only_minPoolSize_meets_its_fallback (p : NumberProperty) (x : Q) :
  connect_schema_accepts p x = true ->
  (p <> MinPoolSize -> sqlConfig_number p x = x) /\
  (p = MinPoolSize -> sqlConfig_number p x = if Qeq_bool x 0 then 1%Q else x) /\
  connect_schema_accepts p (inject_Z (schema_default p)) = true /\
  sqlConfig_number p (inject_Z (schema_default p))
    = inject_Z (match p with MinPoolSize => 1 | _ => schema_default p end) /\
  (connect_schema_accepts MinPoolSize (1 # 2) = true /\
   sqlConfig_number MinPoolSize (1 # 2) = (1 # 2)%Q /\
   (1 # 2 < 1)%Q) /\
  (forall c z, config_property p c = Some z ->
     inject_Z (sqlConfig_property p (build_sqlConfig c)) = sqlConfig_number p (inject_Z z)) /\
  (forall c, config_property p (connect_schema_defaults c)
             = Some (default (schema_default p) (config_property p c))) /\
  (forall c, let q := build_sqlConfig (connect_schema_defaults c) in
     opt_encrypt (sql_options q) = default true (encrypt c) /\
     opt_trustServerCertificate (sql_options q)
       = default false (trustServerCertificate c)).
Proof.
  intros Hx. split; [|split; [|split; [|split; [|split; [|split; [|split]]]]]].
  - intros Hp. apply number_or_nonzero.
    apply (number_within_positive (schema_min p) (schema_max p)); [|exact Hx].
    apply schema_min_positive, Hp.
  - intros ->. reflexivity.
  - destruct p; reflexivity.
  - destruct p; reflexivity.
  - split; [reflexivity|]. split; reflexivity.
  - intros c z Hz. rewrite sqlConfig_property_build, Hz. unfold sqlConfig_number.
    symmetry. apply number_or_whole.
  - intros c. destruct p; reflexivity.
  - intros c. cbv zeta. unfold build_sqlConfig, connect_schema_defaults.
    cbn [sql_options opt_encrypt opt_trustServerCertificate encrypt trustServerCertificate].
    split.
    + destruct (encrypt c) as [[|]|]; reflexivity.
    + destruct (trustServerCertificate c) as [[|]|]; reflexivity.
Qed.

Lemma X29_witness :
  (MinPoolSize <> MinPoolSize -> sqlConfig_number MinPoolSize 0 = 0%Q) /\
  (MinPoolSize = MinPoolSize ->
   sqlConfig_number MinPoolSize 0 = if Qeq_bool 0 0 then 1%Q else 0%Q) /\
  connect_schema_accepts MinPoolSize (inject_Z (schema_default MinPoolSize)) = true /\
  sqlConfig_number MinPoolSize (inject_Z (schema_default MinPoolSize)) = inject_Z 1 /\
  (connect_schema_accepts MinPoolSize (1 # 2) = true /\
   sqlConfig_number MinPoolSize (1 # 2) = (1 # 2)%Q /\
   (1 # 2 < 1)%Q) /\
  (forall c z, config_property MinPoolSize c = Some z ->
     inject_Z (sqlConfig_property MinPoolSize (build_sqlConfig c))
       = sqlConfig_number MinPoolSize (inject_Z z)) /\
  (forall c, config_property MinPoolSize (connect_schema_defaults c)
             = Some (default (schema_default MinPoolSize) (config_property MinPoolSize c))) /\
  (forall c, let q := build_sqlConfig (connect_schema_defaults c) in
     opt_encrypt (sql_options q) = default true (encrypt c) /\
     opt_trustServerCertificate (sql_options q)
       = default false (trustServerCertificate c)).
Proof.
  apply (X29_only_minPoolSize_meets_its_fallback MinPoolSize 0). reflexivity.
Defined.

(** ** Tool calls in flight together *)

Lemma handler_keeps (c : ToolCall) (s : State) :
  server_invariant s -> keeps server_invariant (handler c s).
Proof.
  intros Hs. destruct c; cbn [handler].
  - apply connect_database_keeps, Hs.
  - apply execute_sql_keeps, Hs.
  - apply disconnect_database_keeps, Hs.
  - apply batch_serial_keeps, Hs.
  - apply get_connection_status_keeps, Hs.
Qed.

Lemma get_connection_status_answers (s : State) :
  server_invariant s -> answers (get_connection_status s).
Proof.
  intros [_ Hcfg]. destruct (isConnected s) eqn:Hc.
  - destruct (connectionConfig s) as [c|] eqn:Hcc; [|exfalso; apply (Hcfg Hc Hcc)].
    destruct (get_connection_status_connected s c Hc Hcc) as (r & -> & _).
    apply done_answers.
  - destruct (get_connection_status_isConnected s Hc) as (r & -> & _).
    apply done_answers.
Qed.

Lemma handler_answers (c : ToolCall) (s : State) :
  server_invariant s -> answers (handler c s).
Proof.
  intros Hs. destruct c; cbn [handler].
  - unfold connect_database. unfold_async. apply try_catch_answers.
    intros e s1. apply done_answers.
  - unfold execute_sql. unfold_async. apply try_catch_answers.
    intros e s1. apply done_answers.
  - unfold disconnect_database. unfold_async. apply try_catch_answers.
    intros e s1. apply done_answers.
  - unfold batch_serial. unfold_async. apply try_catch_answers.
    intros e s1. apply done_answers.
  - apply get_connection_status_answers, Hs.
Qed.

Lemma answers_not_thrown {A : Type} (t : Step A) : answers t -> not_thrown t.
Proof.
  destruct t as [[a|e] s|op s k]; cbn; auto. intros (a & H & _). discriminate H.
Qed.

(** However calls arrive and promises settle, every call in flight keeps
    the invariant when it is resumed and is bound to return. *)
Lemma serve_sound (turns : list Turn) :
  forall (ts : list (Step ToolResponse)) (cur : State),
  Forall (fun t => keeps_after server_invariant t /\ answers t) ts ->
  server_invariant cur ->
  Forall (fun t => keeps_after server_invariant t /\ answers t) (serve turns ts cur).1 /\
  server_invariant (serve turns ts cur).2.
Proof.
  induction turns as [|turn turns IH]; intros ts cur Hts Hcur; cbn [serve].
  - split; assumption.
  - destruct turn as [at_ms c|r].
    + pose proof (set_now_invariant at_ms cur Hcur) as Hnow.
      pose proof (handler_keeps c _ Hnow) as Hk.
      apply IH.
      * apply Forall_app. split; [exact Hts|]. constructor; [|constructor].
        split; [apply keeps_keeps_after, Hk|apply handler_answers, Hnow].
      * apply keeps_state_of, Hk.
    + destruct (choose (pick r) ts) as [i|] eqn:Hc; [|apply IH; assumption].
      destruct (ts !! i) as [t|] eqn:Hi; [|apply IH; assumption].
      destruct (Forall_lookup_1 _ _ _ _ Hts Hi) as [Hka Han].
      destruct (choose_pending _ _ _ Hc) as (op & s & k & Hi'). rewrite Hi in Hi'.
      injection Hi' as ->. cbn [resume]. cbn [keeps_after] in Hka.
      pose proof (Hka (outcome r) _ (set_now_invariant (at_time r) cur Hcur)) as Hk.
      apply IH.
      * apply Forall_insert; [exact Hts|].
        split; [apply keeps_keeps_after, Hk|].
        apply (completes_resume _ (Await op s k) (outcome r) (set_now (at_time r) cur)), Han.
      * apply keeps_state_of, Hk.
Qed.

(** X30: tool calls may overlap freely.  From any state the server has
    reached, let calls of the five tools arrive at any moments and let
    the driver settle the pending promises in any order and with any
    outcome: no call ever ends with an exception, [get_connection_status]
    included (it finds its configuration whenever the pool reads as
    connected); and at the end there is still at most one idle check
    pending and at most one heartbeat live, each the one its variable
    names. *)
Theorem X30_overlapping_calls_are_safe (es : list Event) (turns : list Turn) :
  let out := serve turns [] (perform_all es init_state) in
  Forall not_thrown out.1 /\
  (isConnected out.2 = true -> connectionConfig out.2 <> None) /\
  (length (timeouts out.2) <= 1)%nat /\
  (length (intervals out.2) <= 1)%nat /\
  (forall t due, In (t, due) (timeouts out.2) -> autoDisconnectTimer out.2 = Some t) /\
  (forall t, In t (intervals out.2) -> heartbeatTimer out.2 = Some t).
Proof.
  cbv zeta.
  destruct (serve_sound turns [] (perform_all es init_state) (Forall_nil_2 _)
              (reachable_invariant es)) as [Hts [(H1 & H2 & H3 & H4) Hcfg]].
  split.
  { eapply Forall_impl; [exact Hts|]. intros t [_ Ht]. apply answers_not_thrown, Ht. }
  split; [exact Hcfg|]. repeat split; auto.
  intros t due Hin. apply (H1 (t, due) Hin).
Qed.

(** ** The date completion of [query-history] *)

Lemma date_suggestions_eq (today : Z) :
  date_suggestions today
    = [today; today - 2; today - 4; today - 6; today - 8; today - 10; today - 12].
Proof.
  unfold date_suggestions, setDate_minus.
  change (map Z.of_nat (seq 0 7)) with [0; 1; 2; 3; 4; 5; 6]. cbn [map].
  repeat (f_equal; try lia).
Qed.

(** X3: the date completion of the [query-history] resource offers seven
    dates two days apart, not the last seven days.  The loop applies
    [setDate(getDate() - i)] twice in round [i], so round [i] yields the
    date [2 i] days ago: today, then 2, 4, 6, 8, 10 and 12 days ago.
    Yesterday is never offered, and of the offered dates only four lie
    within the last seven days.  What is returned are the ISO dates of
    these seven days that start with the typed text.  (Days are counted
    on a UTC clock.) *)
Theorem X3_date_completion_steps_by_two_days (today : Z) (value : string) :
  date_suggestions today
    = [today; today - 2; today - 4; today - 6; today - 8; today - 10; today - 12] /\
  ~ In (today - 1) (date_suggestions today) /\
  (forall d, In d (date_suggestions today) -> today - 6 <= d ->
     d = today \/ d = today - 2 \/ d = today - 4 \/ d = today - 6) /\
  (forall text, In text (complete_date today value) <->
     String.prefix value text = true /\
     exists i, 0 <= i <= 6 /\ text = iso_date (today - 2 * i)) /\
  complete_date 20760 ""
    = ["2026-11-03"; "2026-11-01"; "2026-10-30"; "2026-10-28"; "2026-10-26";
       "2026-10-24"; "2026-10-22"] /\
  complete_date 20760 "2026-11" = ["2026-11-03"; "2026-11-01"].
Proof.
  split; [apply date_suggestions_eq|].
  split; [rewrite date_suggestions_eq; cbn [In]; lia|].
  split; [rewrite date_suggestions_eq; cbn [In]; lia|].
  split; [|split; vm_compute; reflexivity].
  intros text. unfold complete_date. rewrite filter_In, in_map_iff, date_suggestions_eq.
  split.
  - intros [(d & <- & Hd) Hp]. split; [exact Hp|]. cbn [In] in Hd.
    destruct Hd as [<-|[<-|[<-|[<-|[<-|[<-|[<-|[]]]]]]]].
    + exists 0. split; [lia|f_equal; lia].
    + exists 1. split; [lia|f_equal; lia].
    + exists 2. split; [lia|f_equal; lia].
    + exists 3. split; [lia|f_equal; lia].
    + exists 4. split; [lia|f_equal; lia].
    + exists 5. split; [lia|f_equal; lia].
    + exists 6. split; [lia|f_equal; lia].
  - intros [Hp (i & Hi & ->)]. split; [|exact Hp].
    exists (today - 2 * i). split; [reflexivity|]. cbn [In].
    assert (i = 0 \/ i = 1 \/ i = 2 \/ i = 3 \/ i = 4 \/ i = 5 \/ i = 6) as Hc by lia.
    destruct Hc as [->|[->|[->|[->|[->|[->| ->]]]]]]; lia.
Qed.
